(** * Sentinel person detector: the sensing and scheduling core

    A shallow embedding of the scan loop of the application:

    - [GeminiService.analyzeImageForPerson]  (services/geminiService.ts),
    - the [App] component's handlers: [addToHistory], [handleImageCapture],
      [handleNoMotion], [toggleSystem], [playAlarmSound]  (App.tsx),
    - the [WebcamCapture] component: [checkForMotion],
      [captureCurrentFrame], [processFrame], [triggerManualCapture],
      [startCamera]  (components/WebcamCapture.tsx).

    Conventions of the embedding.

    - JavaScript numbers that the code only uses as integers (timestamps,
      intervals, pixel bytes, counters) are [Z].  Numbers on which the code
      divides or which arrive from the model's JSON (the motion percentage,
      the sensitivity, the confidence) are IEEE binary64 values,
      [PrimFloat.float], with the operations JavaScript uses.
    - React state is a record; a state setter is a record update.  What a
      [useCallback] closure captured at render time is an explicit record
      ([App.Handler]), taken by the handler next to the current state: the
      code reads [isAnalyzing] and [currentInterval] from the closure and
      writes through the setters.
    - An [async] function is cut at its [await]: the part before it puts a
      pending call in flight, the part after it runs when the call settles.
    - A thrown exception is a value of [Completion]. *)

From Stdlib Require Import ZArith List String Ascii Bool Lia PrimFloat Uint63.
Import ListNotations.

Local Open Scope Z_scope.

(** ** types.ts *)

Module Types.

(** Modelled from the spec: types.ts is not among the source files; the
    members of [DetectionStatus] are the five the code mentions, which are
    the five statuses of the spec's DetectionEvent, and [AnalysisResult] has
    the fields the code writes: status, message, optional description,
    optional confidence, timestamp. *)
Inductive DetectionStatus : Set :=
| PERSON_DETECTED
| NO_PERSON
| STATIC_SCENE
| COOLDOWN
| ERROR.

Definition status_eqb (a b : DetectionStatus) : bool :=
  match a, b with
  | PERSON_DETECTED, PERSON_DETECTED
  | NO_PERSON, NO_PERSON
  | STATIC_SCENE, STATIC_SCENE
  | COOLDOWN, COOLDOWN
  | ERROR, ERROR => true
  | _, _ => false
  end.

Record AnalysisResult : Set := mkResult {
  status : DetectionStatus;
  message : string;
  description : option string;
  confidence : option float;
  timestamp : Z
}.

End Types.
Import Types.

(** ** Exceptions *)

(** How a call ends: it returns a value or throws an [Error] with a
    message. *)
Inductive Completion (A : Type) : Type :=
| Returned (a : A)
| Thrown (errorMessage : string).
Arguments Returned {A} a.
Arguments Thrown {A} errorMessage.

(** ** JavaScript strings, as far as the code uses them *)

Module JsString.

Local Open Scope string_scope.

Definition lowerChar (c : ascii) : ascii :=
  let n := nat_of_ascii c in
  if ((65 <=? n)%nat && (n <=? 90)%nat)%bool then ascii_of_nat (n + 32) else c.

(** [s.toLowerCase()]: the messages are UTF-8 byte strings, and lowering
    the ASCII capitals is all that can produce the ASCII patterns the code
    searches for. *)
Fixpoint toLowerCase (s : string) : string :=
  match s with
  | EmptyString => EmptyString
  | String c s' => String (lowerChar c) (toLowerCase s')
  end.

(** [s.includes(pat)] *)
Fixpoint includes (s pat : string) : bool :=
  (String.prefix pat s
   || match s with
      | EmptyString => false
      | String _ s' => includes s' pat
      end)%bool.

(** The text before the first [sep], and the rest after it, if any. *)
Fixpoint cut (sep : ascii) (s : string) : string * option string :=
  match s with
  | EmptyString => (EmptyString, None)
  | String c s' =>
      if Ascii.eqb c sep then (EmptyString, Some s')
      else let '(hd, tl) := cut sep s' in (String c hd, tl)
  end.

(** [s.split(sep)[1]]: the second field, [None] for [undefined]. *)
Definition splitSecond (sep : ascii) (s : string) : option string :=
  match snd (cut sep s) with
  | None => None
  | Some rest => Some (fst (cut sep rest))
  end.

(** [x || y] on a possibly undefined string: the empty string is falsy. *)
Definition orElse (x : option string) (y : string) : string :=
  match x with
  | Some (String c s) => String c s
  | _ => y
  end.

End JsString.

(** ** services/geminiService.ts *)

Module GeminiService.

Local Open Scope string_scope.
Import JsString.

(** What the parsed JSON of a response holds. *)
Record ModelAnswer : Set := mkAnswer {
  personDetected : bool;
  answerConfidence : float;
  answerDescription : string
}.

(** The remote call and the parsing of its answer are the environment's:
    [ai.models.generateContent] rejects with an error, or resolves with a
    response whose [text] is absent or empty, or is a text on which
    [JSON.parse] or the reading of its fields throws, or is a text that
    parses to an answer.  An error is represented by the message the catch
    block computes from it ([error.message] or [String(error)]). *)
Inductive RemoteReply : Set :=
| Rejected (errorMessage : string)
| NoText
| Unparsable (errorMessage : string)
| Answer (result : ModelAnswer).

(** The client [ai]: from the inline image data to what happens. *)
Definition Client : Set := string -> RemoteReply.

Definition cleanBase64 (base64Image : string) : string :=
  orElse (splitSecond "," base64Image) base64Image.

(** The [try] block: [inl] is the message of what it throws. *)
Definition tryAnalyze (ai : Client) (base64Image : string) (now : Z)
  : string + AnalysisResult :=
  match ai (cleanBase64 base64Image) with
  | Rejected errorMessage => inl errorMessage
  | NoText => inl "Resposta vazia da IA"
  | Unparsable errorMessage => inl errorMessage
  | Answer result =>
      let isReliable :=
        (personDetected result && (45 <? answerConfidence result)%float)%bool in
      inr {| status := if isReliable then PERSON_DETECTED else NO_PERSON;
             message := if isReliable then "ÁREA NÃO SEGURA - INVASÃO"
                        else "ÁREA SEGURA - PERÍMETRO LIMPO";
             description := Some (answerDescription result);
             confidence := Some (answerConfidence result);
             timestamp := now |}
  end.

Definition isQuotaMessage (errorMessage : string) : bool :=
  (includes (toLowerCase errorMessage) "429"
   || includes (toLowerCase errorMessage) "quota")%bool.

Definition sensorFailure (now : Z) : AnalysisResult :=
  {| status := ERROR;
     message := "FALHA NO SENSOR";
     description := Some "Erro técnico na comunicação com a IA.";
     confidence := None;
     timestamp := now |}.

Definition analyzeImageForPerson (ai : Client) (base64Image : string) (now : Z)
  : Completion AnalysisResult :=
  match tryAnalyze ai base64Image now with
  | inr result => Returned result
  | inl errorMessage =>
      if isQuotaMessage errorMessage then Thrown "QUOTA_EXCEEDED"
      else Returned (sensorFailure now)
  end.

End GeminiService.

(** ** App.tsx *)

Module App.

Local Open Scope string_scope.
Import GeminiService.

Definition DEFAULT_INTERVAL : Z := 30000.

(** The component's state: the [useState] cells and the
    [nextScanTimeRef] ref the scan loop uses, and two counters that record
    the effect of [playAlarmSound] (how often it was called, how many
    sirens it started). *)
Record State : Set := mkState {
  isActive : bool;
  isAnalyzing : bool;
  lastResult : option AnalysisResult;
  history : list AnalysisResult;
  isSoundEnabled : bool;
  currentInterval : Z;
  nextScanTime : Z;
  alarmCalls : nat;
  sirens : nat
}.

(** The state at mount; [now] is the [Date.now()] of the first render. *)
Definition initial (now : Z) : State :=
  {| isActive := false; isAnalyzing := false; lastResult := None;
     history := []; isSoundEnabled := true;
     currentInterval := DEFAULT_INTERVAL;
     nextScanTime := now + DEFAULT_INTERVAL;
     alarmCalls := 0; sirens := 0 |}.

Definition setIsActive (b : bool) (s : State) : State :=
  mkState b (isAnalyzing s) (lastResult s) (history s) (isSoundEnabled s)
          (currentInterval s) (nextScanTime s) (alarmCalls s) (sirens s).

Definition setIsAnalyzing (b : bool) (s : State) : State :=
  mkState (isActive s) b (lastResult s) (history s) (isSoundEnabled s)
          (currentInterval s) (nextScanTime s) (alarmCalls s) (sirens s).

Definition setLastResult (r : option AnalysisResult) (s : State) : State :=
  mkState (isActive s) (isAnalyzing s) r (history s) (isSoundEnabled s)
          (currentInterval s) (nextScanTime s) (alarmCalls s) (sirens s).

(** [setHistory(f)] with an updater function, applied to the state the
    update finds. *)
Definition setHistory (f : list AnalysisResult -> list AnalysisResult)
    (s : State) : State :=
  mkState (isActive s) (isAnalyzing s) (lastResult s) (f (history s))
          (isSoundEnabled s) (currentInterval s) (nextScanTime s)
          (alarmCalls s) (sirens s).

Definition setIsSoundEnabled (b : bool) (s : State) : State :=
  mkState (isActive s) (isAnalyzing s) (lastResult s) (history s) b
          (currentInterval s) (nextScanTime s) (alarmCalls s) (sirens s).

Definition setCurrentInterval (ms : Z) (s : State) : State :=
  mkState (isActive s) (isAnalyzing s) (lastResult s) (history s)
          (isSoundEnabled s) ms (nextScanTime s) (alarmCalls s) (sirens s).

Definition setNextScanTime (t : Z) (s : State) : State :=
  mkState (isActive s) (isAnalyzing s) (lastResult s) (history s)
          (isSoundEnabled s) (currentInterval s) t (alarmCalls s) (sirens s).

(** What the callbacks of one render captured: the dependencies of
    [handleImageCapture], [handleNoMotion] and [playAlarmSound], and the
    [isActive] prop that [processFrame] closes over. *)
Record Handler : Set := mkHandler {
  seesActive : bool;
  seesAnalyzing : bool;
  seesInterval : Z;
  seesSound : bool
}.

(** The callbacks of the render of state [s]. *)
Definition render (s : State) : Handler :=
  {| seesActive := isActive s;
     seesAnalyzing := isAnalyzing s;
     seesInterval := currentInterval s;
     seesSound := isSoundEnabled s |}.

Definition playAlarmSound (h : Handler) (s : State) : State :=
  let s := mkState (isActive s) (isAnalyzing s) (lastResult s) (history s)
                   (isSoundEnabled s) (currentInterval s) (nextScanTime s)
                   (S (alarmCalls s)) (sirens s) in
  if negb (seesSound h) then s
  else mkState (isActive s) (isAnalyzing s) (lastResult s) (history s)
               (isSoundEnabled s) (currentInterval s) (nextScanTime s)
               (alarmCalls s) (S (sirens s)).

(** [[result, ...prev].slice(0, 5)] *)
Definition addToHistory (result : AnalysisResult) (s : State) : State :=
  setHistory (fun prev => firstn 5 (result :: prev)) s.

(** A call of [analyzeImageForPerson] that has not settled: the closure
    that awaits it and the image it was given. *)
Record Pending : Set := mkPending {
  awaitedBy : Handler;
  image : string
}.

(** The component with its outstanding calls. *)
Record Scheduler : Set := mkScheduler {
  app : State;
  inFlight : list Pending
}.

(** [handleImageCapture] up to its [await]. *)
Definition handleImageCapture (h : Handler) (base64Image : string)
    (w : Scheduler) : Scheduler :=
  if seesAnalyzing h then w
  else {| app := setIsAnalyzing true (app w);
          inFlight := inFlight w ++ [mkPending h base64Image] |}.

Definition cooldownResult (now : Z) : AnalysisResult :=
  {| status := COOLDOWN;
     message := "Ajustando Frequência";
     description := Some "Economizando recursos da nuvem.";
     confidence := None;
     timestamp := now |}.

Definition errorResult (errorMessage : string) (now : Z) : AnalysisResult :=
  {| status := ERROR;
     message := "Erro no Sensor";
     description :=
       Some (JsString.orElse (Some errorMessage) "Falha na análise da imagem.");
     confidence := None;
     timestamp := now |}.

(** [handleImageCapture] from its [await] on: the [try] body after the
    call, the [catch] block and the [finally] block. *)
Definition handleImageCapture_resume (h : Handler)
    (outcome : Completion AnalysisResult) (now : Z) (s : State) : State :=
  let s :=
    match outcome with
    | Returned result =>
        let s := setLastResult (Some result) s in
        let s := addToHistory result s in
        let s := setCurrentInterval DEFAULT_INTERVAL s in
        if status_eqb (status result) PERSON_DETECTED
        then playAlarmSound h s else s
    | Thrown errorMessage =>
        if String.eqb errorMessage "QUOTA_EXCEEDED" then
          let newInterval := Z.min (seesInterval h * 2) 300000 in
          let s := setCurrentInterval newInterval s in
          let s := setLastResult (Some (cooldownResult now)) s in
          addToHistory (cooldownResult now) s
        else
          let s := setLastResult (Some (errorResult errorMessage now)) s in
          addToHistory (errorResult errorMessage now) s
    end in
  let s := setIsAnalyzing false s in
  setNextScanTime (now + seesInterval h) s.

Definition dropNth {A : Type} (i : nat) (l : list A) : list A :=
  firstn i l ++ skipn (S i) l.

(** The [i]-th outstanding call settles: the client finishes (its clock
    reads [clientNow]) and the awaiting closure resumes (at [now]). *)
Definition callSettles (i : nat) (ai : Client) (clientNow now : Z)
    (w : Scheduler) : Scheduler :=
  match nth_error (inFlight w) i with
  | None => w
  | Some p =>
      {| app := handleImageCapture_resume (awaitedBy p)
                  (analyzeImageForPerson ai (image p) clientNow) now (app w);
         inFlight := dropNth i (inFlight w) |}
  end.

(** One whole analysis through the callbacks of the current render: the
    capture is handed to [handleImageCapture], and the call it puts in
    flight (the last one) settles. *)
Definition analysisCycle (base64Image : string) (ai : Client)
    (clientNow now : Z) (w : Scheduler) : Scheduler :=
  callSettles (List.length (inFlight w)) ai clientNow now
    (handleImageCapture (render (app w)) base64Image w).

Definition staticSceneResult (now : Z) : AnalysisResult :=
  {| status := STATIC_SCENE;
     message := "Perímetro Estático";
     description := Some "Sem alterações na cena.";
     confidence := None;
     timestamp := now |}.

Definition handleNoMotion (h : Handler) (now : Z) (s : State) : State :=
  let s := setLastResult (Some (staticSceneResult now)) s in
  let s := addToHistory (staticSceneResult now) s in
  setNextScanTime (now + seesInterval h) s.

Definition toggleSystem (now : Z) (s : State) : State :=
  let newState := negb (isActive s) in
  let s := setIsActive newState s in
  if negb newState then
    let s := setLastResult None s in
    let s := setHistory (fun _ => []) s in
    setCurrentInterval DEFAULT_INTERVAL s
  else
    setNextScanTime (now + DEFAULT_INTERVAL) s.

End App.

(** ** components/WebcamCapture.tsx *)

Module WebcamCapture.

(** The [data] of an [ImageData]: RGBA bytes, row by row. *)
Definition ImageData : Set := list Z.

(** What the video element and the canvases give at one moment: the size of
    the video, whether a 2D context can be had, the bytes
    [getImageData(0, 0, 50, 50)] reads after the frame was drawn at
    50 x 50, and the data URL [toDataURL] yields for the frame. *)
Record Video : Set := mkVideo {
  videoWidth : Z;
  videoHeight : Z;
  context2d : bool;
  scaled : ImageData;
  dataURL : string
}.

(** The component's state: [prevFrameDataRef], and the [motionLevel],
    [stream] and [permissionError] cells. *)
Record State : Set := mkState {
  prevFrameData : option ImageData;
  motionLevel : float;
  stream : bool;
  permissionError : option string
}.

Definition initial : State :=
  {| prevFrameData := None; motionLevel := 0; stream := false;
     permissionError := None |}.

Definition setPrevFrameData (d : option ImageData) (c : State) : State :=
  mkState d (motionLevel c) (stream c) (permissionError c).

Definition setMotionLevel (x : float) (c : State) : State :=
  mkState (prevFrameData c) x (stream c) (permissionError c).

Definition setStream (b : bool) (c : State) : State :=
  mkState (prevFrameData c) (motionLevel c) b (permissionError c).

Definition setPermissionError (e : option string) (c : State) : State :=
  mkState (prevFrameData c) (motionLevel c) (stream c) e.

Definition defaultMotionSensitivity : float := 15.

(** An integer-valued JavaScript number as a binary64 value (exact below
    2^53; the counts converted here are at most the number of pixels). *)
Definition number (z : Z) : float := of_uint63 (Uint63.of_Z z).

(** [Math.abs(a[i] - b[i])]: reading past the end gives [undefined], and
    the arithmetic on it [NaN], here [None]. *)
Definition absDiff (a b : ImageData) (i : nat) : option Z :=
  match nth_error a i, nth_error b i with
  | Some x, Some y => Some (Z.abs (x - y))
  | _, _ => None
  end.

Definition add (x y : option Z) : option Z :=
  match x, y with
  | Some u, Some v => Some (u + v)
  | _, _ => None
  end.

(** [x > n]; false on [NaN]. *)
Definition exceeds (x : option Z) (n : Z) : bool :=
  match x with
  | Some v => n <? v
  | None => false
  end.

(** The [for] loop of [checkForMotion], from index [i] on, with the
    running [totalDiff] and [changedPixels].  The index grows by 4 at each
    turn, so [List.length currentData] turns are never used up. *)
Fixpoint diffLoop (turns i : nat) (currentData prevData : ImageData)
    (totalDiff changedPixels : Z) : Z * Z :=
  match turns with
  | O => (totalDiff, changedPixels)
  | S turns' =>
      if (i <? List.length currentData)%nat then
        let rDiff := absDiff currentData prevData i in
        let gDiff := absDiff currentData prevData (i + 1) in
        let bDiff := absDiff currentData prevData (i + 2) in
        let pixelDiff := add (add rDiff gDiff) bDiff in
        if exceeds pixelDiff 30 then
          diffLoop turns' (i + 4) currentData prevData
                   (totalDiff + match pixelDiff with Some d => d | None => 0 end)
                   (changedPixels + 1)
        else diffLoop turns' (i + 4) currentData prevData totalDiff changedPixels
      else (totalDiff, changedPixels)
  end.

(** [checkForMotion]: the answer and the state it leaves.  [video] is
    [None] when [videoRef.current] is null. *)
Definition checkForMotion (motionSensitivity : float) (video : option Video)
    (c : State) : bool * State :=
  let scaledWidth := 50 in
  let scaledHeight := 50 in
  match video with
  | None => (true, c)
  | Some v =>
      if negb (context2d v) then (true, c)
      else
        let currentData := scaled v in
        match prevFrameData c with
        | None => (true, setPrevFrameData (Some currentData) c)
        | Some prevData =>
            let '(totalDiff, changedPixels) :=
              diffLoop (List.length currentData) 0 currentData prevData 0 0 in
            let c := setPrevFrameData (Some currentData) c in
            let totalPixels := scaledWidth * scaledHeight in
            let changePercentage :=
              (number changedPixels / number totalPixels * 100)%float in
            let c := setMotionLevel changePercentage c in
            let threshold := (motionSensitivity / 10)%float in
            ((threshold <? changePercentage)%float, c)
        end
  end.

Definition captureCurrentFrame (video : option Video) : option string :=
  match video with
  | None => None
  | Some v =>
      if videoWidth v =? 0 then None
      else if negb (context2d v) then None
      else Some (dataURL v)
  end.

(** [if (img) ...]: [null] and the empty string are falsy. *)
Definition truthy (img : option string) : option string :=
  match img with
  | Some (String c s) => Some (String c s)
  | _ => None
  end.

Section Callbacks.

(** The parent's state and the [onCapture] and [onNoMotion] props. *)
Context {Parent : Type}.
Variable onCapture : string -> Parent -> Parent.
Variable onNoMotion : Parent -> Parent.

Definition triggerManualCapture (video : option Video) (p : Parent) : Parent :=
  match truthy (captureCurrentFrame video) with
  | Some img => onCapture img p
  | None => p
  end.

(** [processFrame], with the [isActive] and [motionSensitivity] it closed
    over. *)
Definition processFrame (isActive : bool) (motionSensitivity : float)
    (video : option Video) (cp : State * Parent) : State * Parent :=
  let '(c, p) := cp in
  if negb isActive then (c, p)
  else
    match video with
    | None => (c, p)
    | Some v =>
        if ((videoWidth v =? 0) || (videoHeight v =? 0))%bool then (c, p)
        else if negb (context2d v) then (c, p)
        else
          let '(hasMotion, c) := checkForMotion motionSensitivity video c in
          if hasMotion then
            match truthy (captureCurrentFrame video) with
            | Some img => (c, onCapture img p)
            | None => (c, p)
            end
          else (c, onNoMotion p)
    end.

End Callbacks.

(** [startCamera], by whether [getUserMedia] resolves. *)
Definition startCamera (granted : bool) (c : State) : State :=
  if granted then
    let c := setStream true c in
    let c := setPermissionError None c in
    setPrevFrameData None c
  else
    setPermissionError
      (Some "Não foi possível acessar a câmera com estas configurações."%string)
      c.

(** The camera effect when [isActive] turns false. *)
Definition stopCamera (c : State) : State :=
  setMotionLevel 0 (setStream false c).

End WebcamCapture.

(** ** The two components together *)

Module Sentinel.

Import App.

Record World : Set := mkWorld {
  scheduler : Scheduler;
  camera : WebcamCapture.State
}.

Definition initial (now : Z) : World :=
  {| scheduler := {| app := App.initial now; inFlight := [] |};
     camera := WebcamCapture.initial |}.

(** What can happen: the user toggles the system or the sound; the camera
    starts; a timer fires a [processFrame] that closed over the callbacks
    [h] of some render (the cleanup of the interval effect clears its
    timeout and not its interval, so the [processFrame] of an earlier
    render can still fire); the user presses the manual scan button (its
    handle is rebuilt at every render); an outstanding call settles. *)
Inductive Event : Set :=
| Toggle (now : Z)
| ToggleSound
| CameraStarts (granted : bool)
| Tick (h : Handler) (video : option WebcamCapture.Video) (now : Z)
| ManualScan (video : option WebcamCapture.Video)
| Settles (i : nat) (ai : GeminiService.Client) (clientNow now : Z).

Definition onApp (f : State -> State) (w : Scheduler) : Scheduler :=
  {| app := f (app w); inFlight := inFlight w |}.

Definition step (e : Event) (w : World) : World :=
  match e with
  | Toggle now =>
      let wasActive := isActive (app (scheduler w)) in
      {| scheduler := onApp (toggleSystem now) (scheduler w);
         camera := if wasActive then WebcamCapture.stopCamera (camera w)
                   else camera w |}
  | ToggleSound =>
      {| scheduler :=
           onApp (fun s => setIsSoundEnabled (negb (isSoundEnabled s)) s)
                 (scheduler w);
         camera := camera w |}
  | CameraStarts granted =>
      {| scheduler := scheduler w;
         camera := WebcamCapture.startCamera granted (camera w) |}
  | Tick h video now =>
      let '(c, s) :=
        WebcamCapture.processFrame (handleImageCapture h)
          (onApp (handleNoMotion h now)) (seesActive h)
          WebcamCapture.defaultMotionSensitivity video
          (camera w, scheduler w) in
      {| scheduler := s; camera := c |}
  | ManualScan video =>
      {| scheduler :=
           WebcamCapture.triggerManualCapture
             (handleImageCapture (render (app (scheduler w)))) video
             (scheduler w);
         camera := camera w |}
  | Settles i ai clientNow now =>
      {| scheduler := callSettles i ai clientNow now (scheduler w);
         camera := camera w |}
  end.

Definition run (es : list Event) (w : World) : World :=
  fold_left (fun w e => step e w) es w.

(** A timer tick whose [processFrame] is the one of the current render. *)
Definition tick (video : option WebcamCapture.Video) (now : Z) (w : World)
  : World :=
  step (Tick (render (app (scheduler w))) video now) w.

(** The event comes through the callbacks of the current render. *)
Definition current (e : Event) (w : World) : Prop :=
  match e with
  | Tick h _ _ => h = render (app (scheduler w))
  | _ => True
  end.

(** A run all of whose ticks come through the callbacks of the render of
    the state they arrive in. *)
Fixpoint currentRun (es : list Event) (w : World) : Prop :=
  match es with
  | [] => True
  | e :: es' => current e w /\ currentRun es' (step e w)
  end.

End Sentinel.

(** * The vocabulary of the properties *)

Module Spec.

Import Types GeminiService App.
Local Open Scope string_scope.

(** [pat] occurs in [s]. *)
Definition occursIn (pat s : string) : Prop :=
  exists pre post : string, s = pre ++ pat ++ post.

(** A failure counts as a quota failure when its message, in lower case,
    contains 429 or quota. *)
Definition mentionsQuota (errorMessage : string) : Prop :=
  occursIn "429" (JsString.toLowerCase errorMessage)
  \/ occursIn "quota" (JsString.toLowerCase errorMessage).

(** A reliable detection: a person, with confidence above 45. *)
Definition reliable (a : ModelAnswer) : Prop :=
  personDetected a = true /\ (45 <? answerConfidence a)%float = true.

(** The capacity invariant of the history. *)
Definition bounded (s : State) : Prop := (List.length (history s) <= 5)%nat.

(** The status of the last result shown. *)
Definition shows (s : State) : option DetectionStatus :=
  option_map status (lastResult s).

(** One analysis: the image, the client's behaviour, the client's clock
    when it finishes and the scheduler's clock when the handler resumes. *)
Record Call : Set := mkCall {
  callImage : string;
  callClient : Client;
  callClock : Z;
  callDone : Z
}.

Definition perform (c : Call) (w : Scheduler) : Scheduler :=
  analysisCycle (callImage c) (callClient c) (callClock c) (callDone c) w.

Definition outcome (c : Call) : Completion AnalysisResult :=
  analyzeImageForPerson (callClient c) (callImage c) (callClock c).

(** The call fails on the quota. *)
Definition hitsQuota (c : Call) : Prop := outcome c = Thrown "QUOTA_EXCEEDED".

(** The call fails for another reason: the request is rejected, or the
    response has no text, or its text cannot be parsed, and the message
    does not mention the quota. *)
Definition failsOtherwise (c : Call) : Prop :=
  exists m : string,
    tryAnalyze (callClient c) (callImage c) (callClock c) = inl m
    /\ ~ mentionsQuota m.

(** The motion detector, in the words of its description: the grid has
    50 x 50 pixels of four bytes each; the difference of a pixel is the sum
    of the absolute differences of its red, green and blue bytes; a pixel
    has changed when that sum exceeds 30; the motion level is the share of
    changed pixels, in per cent. *)
Definition gridPixels : nat := 50 * 50.

Definition sampleBytes : nat := 4 * gridPixels.

Definition byteAt (d : WebcamCapture.ImageData) (i : nat) : Z := nth i d 0.

Definition pixelDifference (cur prev : WebcamCapture.ImageData) (p : nat) : Z :=
  Z.abs (byteAt cur (4 * p) - byteAt prev (4 * p))
  + Z.abs (byteAt cur (4 * p + 1) - byteAt prev (4 * p + 1))
  + Z.abs (byteAt cur (4 * p + 2) - byteAt prev (4 * p + 2)).

Definition changed (cur prev : WebcamCapture.ImageData) (p : nat) : bool :=
  (30 <? pixelDifference cur prev p)%Z.

Definition changedPixelCount (cur prev : WebcamCapture.ImageData) : nat :=
  List.length (filter (changed cur prev) (seq 0 gridPixels)).

(** The calls in flight are counted by the busy flag: one when it is set,
    none when it is not. *)
Definition counted (w : Sentinel.World) : Prop :=
  List.length (inFlight (Sentinel.scheduler w))
  = if isAnalyzing (app (Sentinel.scheduler w)) then 1%nat else 0%nat.

(** The frame can be processed: the video element is there, its size is
    not zero and a drawing context can be had. *)
Definition frameReady (video : option WebcamCapture.Video) : bool :=
  match video with
  | None => false
  | Some v =>
      (negb (WebcamCapture.videoWidth v =? 0)%Z
       && negb (WebcamCapture.videoHeight v =? 0)%Z
       && WebcamCapture.context2d v)%bool
  end.

Definition percentage (changedPixels : nat) : float :=
  (WebcamCapture.number (Z.of_nat changedPixels) / 2500 * 100)%float.

End Spec.
Import Spec.

(** * Concrete runs *)

Module Scenario.

Import Types GeminiService App Sentinel.
Local Open Scope string_scope.

(** A 1280 x 720 frame whose 50 x 50 reduction has every byte [byte]. *)
Definition frame (byte : Z) : WebcamCapture.Video :=
  {| WebcamCapture.videoWidth := 1280;
     WebcamCapture.videoHeight := 720;
     WebcamCapture.context2d := true;
     WebcamCapture.scaled := repeat byte (4 * (50 * 50));
     WebcamCapture.dataURL := "data:image/jpeg;base64,/9j/4AAQSkZJRg" |}.

(** Clients: one that is rate limited, one that cannot reach the
    service, one that answers. *)
Definition rateLimited : Client :=
  fun _ => Rejected "got status: 429 Too Many Requests. RESOURCE_EXHAUSTED".

Definition offline : Client := fun _ => Rejected "Failed to fetch".

Definition answers (person : bool) (certainty : float) : Client :=
  fun _ => Answer (mkAnswer person certainty "Pessoa de casaco escuro.").

(** The system is switched on at time 0 and the camera starts. *)
Definition started : World :=
  step (CameraStarts true) (step (Toggle 0) (initial 0)).

(** The first tick, one second later, puts an analysis in flight. *)
Definition analysing : World := tick (Some (frame 0)) 1000 started.

(** That analysis fails on the quota at time 2000. *)
Definition backedOff : World := step (Settles 0 rateLimited 2000 2000) analysing.

(** After the backoff a manual scan is analysed, and the service cannot be
    reached. *)
Definition thenOffline : World :=
  step (Settles 0 offline 33000 33000)
       (step (ManualScan (Some (frame 200))) backedOff).



(** While the first analysis is in flight a tick sees an unchanged
    frame. *)
Definition quietTick : World := tick (Some (frame 0)) 2000 analysing.

End Scenario.

(** * The rest of the components *)

(** ** components/WebcamCapture.tsx: the size of a capture *)

Module Capture.

Import WebcamCapture.

(** [Math.min] on two numbers. *)
Definition Math_min (a b : float) : float :=
  if is_nan a then a
  else if is_nan b then b
  else if (b <? a)%float then b else a.

(** The width and height [captureCurrentFrame] gives its canvas before it
    draws the frame (the numbers assigned, before the canvas truncates
    them to integers); [None] where it returns null. *)
Definition canvasSize (video : option Video) : option (float * float) :=
  match video with
  | None => None
  | Some v =>
      if videoWidth v =? 0 then None
      else if negb (context2d v) then None
      else
        let scaleFactor := Math_min 1 (1024 / number (videoWidth v))%float in
        Some ((number (videoWidth v) * scaleFactor)%float,
              (number (videoHeight v) * scaleFactor)%float)
  end.

End Capture.

(** ** components/StatusPanel.tsx *)

Module StatusPanel.

Local Open Scope string_scope.

Record Look : Set := mkLook {
  bgColor : string;
  borderColor : string;
  textColor : string;
  icon : string
}.

(** The colours and the icon after the [switch] on the status. *)
Definition look (result : option AnalysisResult) : Look :=
  match result with
  | None => mkLook "bg-slate-800" "border-slate-700" "text-white" "🔍"
  | Some r =>
      match status r with
      | PERSON_DETECTED =>
          mkLook "bg-red-600/20" "border-red-500" "text-red-500" "🚨"
      | NO_PERSON =>
          mkLook "bg-emerald-500/10" "border-emerald-500/50"
                 "text-emerald-400" "🛡️"
      | STATIC_SCENE =>
          mkLook "bg-blue-500/5" "border-blue-500/20" "text-blue-400" "💤"
      | COOLDOWN =>
          mkLook "bg-orange-500/10" "border-orange-500/40"
                 "text-orange-400" "⏳"
      | ERROR => mkLook "bg-slate-900" "border-red-900" "text-red-900" "✖️"
      end
  end.

(** What the panel shows: its look, the shimmer bar, the red pulse, the
    faint icon in the background, the large icon and whether it bounces,
    the title, and the description, the confidence badge (with its colour)
    and the time where they are rendered. *)
Record View : Set := mkView {
  style : Look;
  shimmer : bool;
  pulse : bool;
  backdrop : string;
  glyph : string;
  bounce : bool;
  title : option string;
  detail : option string;
  badge : option (float * string);
  clock : option Z
}.

Definition isPerson (result : option AnalysisResult) : bool :=
  match result with
  | Some r => status_eqb (status r) PERSON_DETECTED
  | None => false
  end.

(** The component: [None] is the waiting panel of the early return. *)
Definition StatusPanel (result : option AnalysisResult) (isAnalyzing : bool)
  : option View :=
  match result, isAnalyzing with
  | None, false => None
  | _, _ =>
      Some
        {| style := look result;
           shimmer := isAnalyzing;
           pulse := isPerson result;
           backdrop := if isAnalyzing then "⚙️" else icon (look result);
           glyph := if isAnalyzing then "🤔" else icon (look result);
           bounce := isPerson result;
           title := if isAnalyzing then Some "Escaneando..."
                    else option_map message result;
           detail :=
             if isAnalyzing then None
             else match result with
                  | Some r =>
                      match description r with
                      | Some (String c d) => Some (String c d)
                      | _ => None
                      end
                  | None => None
                  end;
           badge :=
             if isAnalyzing then None
             else match result with
                  | Some r =>
                      match confidence r with
                      | Some x =>
                          if status_eqb (status r) STATIC_SCENE then None
                          else Some (x, if status_eqb (status r) PERSON_DETECTED
                                        then "text-red-400"
                                        else "text-emerald-400")
                      | None => None
                      end
                  | None => None
                  end;
           clock :=
             match result with
             | Some r =>
                 if (timestamp r =? 0)%Z then None else Some (timestamp r)
             | None => None
             end |}
  end.

End StatusPanel.

(** ** components/HistoryList.tsx *)

Module HistoryList.

Local Open Scope string_scope.

Record Style : Set := mkStyle {
  border : string;
  text : string;
  bg : string;
  icon : string
}.

Definition getStatusStyle (status : DetectionStatus) : Style :=
  match status with
  | PERSON_DETECTED =>
      mkStyle "border-red-500" "text-red-500" "bg-red-500/10" "🚨"
  | NO_PERSON =>
      mkStyle "border-emerald-500/30" "text-emerald-400" "bg-emerald-500/5"
              "🛡️"
  | STATIC_SCENE =>
      mkStyle "border-slate-800" "text-slate-500" "bg-slate-900/40" "💤"
  | ERROR => mkStyle "border-red-900" "text-red-900" "bg-black" "✖️"
  | _ => mkStyle "border-slate-600" "text-slate-400" "bg-slate-800" "❓"
  end.

(** One row: its React key, whether it is the highlighted one, its style,
    and the message, time and description it shows. *)
Record Row : Set := mkRow {
  key : Z;
  highlighted : bool;
  rowStyle : Style;
  rowMessage : string;
  rowTime : Z;
  rowDescription : option string
}.

Definition row (item : AnalysisResult) (index : nat) : Row :=
  {| key := timestamp item;
     highlighted := (index =? 0)%nat;
     rowStyle := getStatusStyle (status item);
     rowMessage := message item;
     rowTime := timestamp item;
     rowDescription :=
       match description item with
       | Some (String c d) => Some (String c d)
       | _ => None
       end |}.

(** [history.map((item, index) => ...)] *)
Fixpoint mapIndexed (index : nat) (history : list AnalysisResult) : list Row :=
  match history with
  | [] => []
  | item :: rest => row item index :: mapIndexed (S index) rest
  end.

(** The component: [None] where it returns null. *)
Definition HistoryList (history : list AnalysisResult) : option (list Row) :=
  match history with
  | [] => None
  | _ => Some (mapIndexed 0 history)
  end.

End HistoryList.

(** ** The timers of WebcamCapture and the buttons of App *)

Module Timers.

Import App Sentinel.

(** The dependencies of the interval effect, as far as they can change:
    [isActive], [intervalMs] and the identity of [processFrame] change
    with the callbacks of the render; [permissionError] is null or not;
    [stream] is null or the stream object of some camera start. *)
Record Deps : Set := mkDeps {
  depCallbacks : Handler;
  depError : bool;
  depStream : option nat
}.

Definition handler_eqb (a b : Handler) : bool :=
  (Bool.eqb (seesActive a) (seesActive b)
   && Bool.eqb (seesAnalyzing a) (seesAnalyzing b)
   && (seesInterval a =? seesInterval b)
   && Bool.eqb (seesSound a) (seesSound b))%bool.

Definition deps_eqb (a b : Deps) : bool :=
  (handler_eqb (depCallbacks a) (depCallbacks b)
   && Bool.eqb (depError a) (depError b)
   && match depStream a, depStream b with
      | Some x, Some y => (x =? y)%nat
      | None, None => true
      | _, _ => false
      end)%bool.

(** The two components with their timers: the pending [setTimeout], the
    [setInterval]s that have not been cleared (each with the callbacks its
    [processFrame] closed over and its period), the number of streams the
    camera has given so far, and the dependencies the interval effect last
    ran with. *)
Record Machine : Set := mkMachine {
  world : World;
  streams : nat;
  timeout : option Handler;
  intervals : list (Handler * Z);
  lastDeps : Deps
}.

Definition depsOf (w : World) (streams : nat) : Deps :=
  {| depCallbacks := render (app (scheduler w));
     depError := match WebcamCapture.permissionError (camera w) with
                 | Some _ => true
                 | None => false
                 end;
     depStream := if WebcamCapture.stream (camera w) then Some streams
                  else None |}.

Definition initial (now : Z) : Machine :=
  {| world := Sentinel.initial now;
     streams := 0;
     timeout := None;
     intervals := [];
     lastDeps := depsOf (Sentinel.initial now) 0 |}.

(** The interval effect after a render.  When a dependency has changed,
    the cleanup of the previous run runs, which clears that run's timeout
    (and no interval: in the branch that sets an interval the cleanup is
    [clearTimeout], and in the other there is no interval to clear); then,
    if the system is active, without permission error and with a stream,
    a timeout and an interval are set with the [processFrame] of this
    render. *)
Definition runEffect (m : Machine) : Machine :=
  let d := depsOf (world m) (streams m) in
  if deps_eqb d (lastDeps m) then m
  else
    let h := depCallbacks d in
    if (seesActive h && negb (depError d)
        && WebcamCapture.stream (camera (world m)))%bool
    then mkMachine (world m) (streams m) (Some h)
                   (intervals m ++ [(h, seesInterval h)]) d
    else mkMachine (world m) (streams m) None (intervals m) d.

(** What reaches the components: presses of the three buttons (the scan
    button is disabled while the system is off or analysing), the answer
    of [getUserMedia], the settling of a call, the pending timeout, an
    interval. *)
Inductive Input : Set :=
| SwitchPressed (now : Z)
| SoundPressed
| ScanPressed (video : option WebcamCapture.Video)
| CameraAnswers (granted : bool)
| CallSettles (i : nat) (ai : GeminiService.Client) (clientNow now : Z)
| TimeoutFires (video : option WebcamCapture.Video) (now : Z)
| IntervalFires (k : nat) (video : option WebcamCapture.Video) (now : Z).

Definition onWorld (f : World -> World) (m : Machine) : Machine :=
  mkMachine (f (world m)) (streams m) (timeout m) (intervals m) (lastDeps m).

(** The handler an input runs, before the render that follows. *)
Definition deliver (i : Input) (m : Machine) : Machine :=
  match i with
  | SwitchPressed now => onWorld (step (Toggle now)) m
  | SoundPressed => onWorld (step ToggleSound) m
  | ScanPressed video =>
      let s := app (scheduler (world m)) in
      if (negb (isActive s) || isAnalyzing s)%bool then m
      else onWorld (step (ManualScan video)) m
  | CameraAnswers granted =>
      mkMachine (step (CameraStarts granted) (world m))
                (if granted then S (streams m) else streams m)
                (timeout m) (intervals m) (lastDeps m)
  | CallSettles i ai clientNow now =>
      onWorld (step (Settles i ai clientNow now)) m
  | TimeoutFires video now =>
      match timeout m with
      | Some h =>
          mkMachine (step (Tick h video now) (world m)) (streams m) None
                    (intervals m) (lastDeps m)
      | None => m
      end
  | IntervalFires k video now =>
      match nth_error (intervals m) k with
      | Some (h, _) => onWorld (step (Tick h video now)) m
      | None => m
      end
  end.

(** The updates one handler makes are rendered together, and the effect
    runs after the render. *)
Definition react (i : Input) (m : Machine) : Machine :=
  runEffect (deliver i m).

Definition run (ins : list Input) (m : Machine) : Machine :=
  fold_left (fun m i => react i m) ins m.

End Timers.

(** * More vocabulary *)

Module Facts.

Import Types GeminiService App Sentinel.
Local Open Scope string_scope.

(** The five values the backoff can give the interval. *)
Definition level (ms : Z) : Prop :=
  ms = 30000 \/ ms = 60000 \/ ms = 120000 \/ ms = 240000 \/ ms = 300000.

(** Where a result can come from: the client on an answer of the model,
    the client on a failure, the scheduler on a quota failure, the
    scheduler on a still frame. *)
Definition produced (r : AnalysisResult) : Prop :=
  (exists (a : ModelAnswer) (t : Z),
      analyzeImageForPerson (fun _ => Answer a) "" t = Returned r)
  \/ (exists t : Z, r = sensorFailure t)
  \/ (exists t : Z, r = cooldownResult t)
  \/ (exists t : Z, r = staticSceneResult t).

(** The setting [n] of the sensitivity. *)
Definition setting (n : nat) : float := WebcamCapture.number (Z.of_nat n).

(** The settings at which a level equal to the threshold already counts
    as motion, the division by 10 being rounded down. *)
Definition roundedDown (n : nat) : bool :=
  existsb (Nat.eqb n) [14; 28; 34; 56; 58; 66; 68; 70; 82]%nat.

(** The call, settling now with what [ai] does, reports a person. *)
Definition detects (ai : Client) (p : Pending) (clientNow : Z) : bool :=
  match analyzeImageForPerson ai (image p) clientNow with
  | Returned r => status_eqb (status r) PERSON_DETECTED
  | Thrown _ => false
  end.

(** The last result is the newest entry of the history. *)
Definition newestShown (s : State) : Prop :=
  lastResult s = hd_error (history s).

(** Every result shown or logged has one of the four origins. *)
Definition allProduced (s : State) : Prop :=
  (forall r, lastResult s = Some r -> produced r)
  /\ (forall r, In r (history s) -> produced r).

(** The busy flag is set only while a call is outstanding. *)
Definition busyMeansInFlight (w : Scheduler) : Prop :=
  isAnalyzing (app w) = true -> inFlight w <> [].

(** The interval and the intervals the outstanding calls closed over are
    among the five values. *)
Definition levels (w : Scheduler) : Prop :=
  level (currentInterval (app w))
  /\ Forall (fun p => level (seesInterval (awaitedBy p))) (inFlight w).

(** A timer set by an active render, with that render's interval. *)
Definition armed (h : Handler) (period : Z) : Prop :=
  seesActive h = true /\ period = seesInterval h /\ level period.

(** Every timer is armed, the intervals are among the five values, and the
    interval effect has run for the current render. *)
Definition wellTimed (m : Timers.Machine) : Prop :=
  levels (scheduler (Timers.world m))
  /\ Forall (fun x => armed (fst x) (snd x)) (Timers.intervals m)
  /\ (forall h, Timers.timeout m = Some h -> armed h (seesInterval h))
  /\ Timers.lastDeps m = Timers.depsOf (Timers.world m) (Timers.streams m).

(** The sample of a frame all of whose bytes are [byte]. *)
Definition flat (byte : Z) : WebcamCapture.ImageData :=
  repeat byte sampleBytes.

End Facts.

(** * A session under a quota outage *)

Module Outage.

Import Types App Sentinel Timers.

(** The machine after each of the phases in turn. *)
Fixpoint checkpoints (phases : list (list Input)) (m : Machine)
  : list Machine :=
  match phases with
  | [] => []
  | phase :: rest =>
      let m' := Timers.run phase m in
      m' :: checkpoints rest m'
  end.

Section Scenes.

(** The frames the camera gives while the scene is dark and while it is
    lit. *)
Variables dark lit : WebcamCapture.Video.

(** The service rejects every call with status 429.  The system is
    switched on at 0 and the camera answers, which sets interval 0 with
    the callbacks of that render (not analysing, interval 30000) and the
    warm-up timeout; the timeout fires at 1100 and starts the first
    analysis, which fails at 2000. *)
Definition firstFailure : list Input :=
  [SwitchPressed 0; CameraAnswers true; TimeoutFires (Some dark) 1100;
   CallSettles 0 Scenario.rateLimited 2000 2000].

(** The timeout set after the failure fires at 3000 on the unchanged
    scene.  Interval 0 fires at 30100 on the lit scene and starts the
    second analysis, which fails at 31000. *)
Definition secondFailure : list Input :=
  [TimeoutFires (Some dark) 3000; IntervalFires 0 (Some lit) 30100;
   CallSettles 0 Scenario.rateLimited 31000 31000].

(** Interval 1, set while the first analysis was outstanding, fires at
    31100 and the timeout set after the second failure at 32000, both on
    the unchanged scene.  Interval 0 fires again at 60100, the scene dark
    again, and starts the third analysis, which fails at 61050. *)
Definition thirdFailure : list Input :=
  [IntervalFires 1 (Some lit) 31100; TimeoutFires (Some lit) 32000;
   IntervalFires 0 (Some dark) 60100;
   CallSettles 0 Scenario.rateLimited 61050 61050].

(** Interval 1 fires at 61100 on the unchanged scene.  Interval 2, set
    after the first failure with period 60000, fires at 62000 on the lit
    scene and starts the fourth analysis, which fails at 62900. *)
Definition fourthFailure : list Input :=
  [IntervalFires 1 (Some dark) 61100; IntervalFires 2 (Some lit) 62000;
   CallSettles 0 Scenario.rateLimited 62900 62900].

(** The machine after each of the four failures. *)
Definition session : list Machine :=
  checkpoints [firstFailure; secondFailure; thirdFailure; fourthFailure]
    (Timers.initial 0).

(** Another course after the first failure: the timeout fires at 3000 on
    the unchanged scene, and shortly before 30100 the scan button is
    pressed on the lit scene, which starts an analysis. *)
Definition scanPressed : list Input :=
  [TimeoutFires (Some dark) 3000; ScanPressed (Some lit)].

(** Interval 0 fires at 30100 while that analysis is outstanding. *)
Definition whileScanning : list Input :=
  [IntervalFires 0 (Some lit) 30100].

(** The machine after the first failure, after the press of the button
    and after the interval has fired. *)
Definition overlap : list Machine :=
  checkpoints [firstFailure; scanPressed; whileScanning] (Timers.initial 0).

End Scenes.

(** The interval, the status shown and the statuses logged, newest
    first. *)
Definition interval (m : Machine) : Z :=
  currentInterval (app (scheduler (world m))).

Definition shown (m : Machine) : option DetectionStatus :=
  option_map status (lastResult (app (scheduler (world m)))).

Definition logged (m : Machine) : list DetectionStatus :=
  map status (history (app (scheduler (world m)))).

(** The busy flag and the number of calls in flight. *)
Definition outstanding (m : Machine) : bool * nat :=
  (isAnalyzing (app (scheduler (world m))),
   List.length (inFlight (scheduler (world m)))).

End Outage.

(** * Properties *)

Import Types GeminiService App.

(** ** The history log *)

Section HistoryLog.

Lemma history_addToHistory (r : AnalysisResult) (s : State) :
  history (addToHistory r s) = firstn 5 (r :: history s).
Proof. reflexivity. Qed.

Lemma bounded_addToHistory (r : AnalysisResult) (s : State) :
  bounded (addToHistory r s).
Proof.
  unfold bounded. rewrite history_addToHistory. apply firstn_le_length.
Qed.

Lemma history_playAlarmSound (h : Handler) (s : State) :
  history (playAlarmSound h s) = history s.
Proof. unfold playAlarmSound. destruct (seesSound h); reflexivity. Qed.

Lemma bounded_resume (h : Handler) (o : Completion AnalysisResult) (now : Z)
    (s : State) :
  bounded (handleImageCapture_resume h o now s).
Proof.
  unfold bounded, handleImageCapture_resume.
  destruct o as [result | msg]; cbn [history setNextScanTime setIsAnalyzing].
  - destruct (status_eqb (status result) PERSON_DETECTED).
    + rewrite history_playAlarmSound. apply firstn_le_length.
    + apply firstn_le_length.
  - destruct (String.eqb msg "QUOTA_EXCEEDED"); apply firstn_le_length.
Qed.

Lemma bounded_handleNoMotion (h : Handler) (now : Z) (s : State) :
  bounded (handleNoMotion h now s).
Proof. unfold bounded, handleNoMotion. apply firstn_le_length. Qed.

Lemma bounded_toggleSystem (now : Z) (s : State) :
  bounded s -> bounded (toggleSystem now s).
Proof.
  unfold bounded, toggleSystem. intros Hs.
  destruct (isActive s); cbn in *; [lia | exact Hs].
Qed.

Lemma bounded_handleImageCapture (h : Handler) (img : string) (w : Scheduler) :
  bounded (app w) -> bounded (app (handleImageCapture h img w)).
Proof.
  unfold handleImageCapture. destruct (seesAnalyzing h); intros Hw; exact Hw.
Qed.

Lemma bounded_step (e : Sentinel.Event) (w : Sentinel.World) :
  bounded (app (Sentinel.scheduler w)) ->
  bounded (app (Sentinel.scheduler (Sentinel.step e w))).
Proof.
  intros Hw. destruct e as [now | | granted | h video now | video | i ai tc now];
    cbn [Sentinel.step Sentinel.scheduler].
  - apply bounded_toggleSystem, Hw.
  - exact Hw.
  - exact Hw.
  - unfold WebcamCapture.processFrame.
    destruct (negb (seesActive h)); [exact Hw|].
    destruct video as [v|]; [|exact Hw].
    destruct (_ || _)%bool; [exact Hw|].
    destruct (negb (WebcamCapture.context2d v)); [exact Hw|].
    destruct (WebcamCapture.checkForMotion _ _ _) as [[|] c].
    + destruct (WebcamCapture.truthy _); cbn [Sentinel.scheduler];
        [apply bounded_handleImageCapture|]; exact Hw.
    + cbn [Sentinel.scheduler Sentinel.onApp app].
      apply bounded_handleNoMotion.
  - unfold WebcamCapture.triggerManualCapture.
    destruct (WebcamCapture.truthy _);
      [apply bounded_handleImageCapture|]; exact Hw.
  - unfold callSettles. destruct (nth_error _ i); [|exact Hw].
    cbn [app]. apply bounded_resume.
Qed.

Lemma bounded_run (es : list Sentinel.Event) (w : Sentinel.World) :
  bounded (app (Sentinel.scheduler w)) ->
  bounded (app (Sentinel.scheduler (Sentinel.run es w))).
Proof.
  revert w. induction es as [|e es IH]; intros w Hw; [exact Hw|].
  cbn [Sentinel.run fold_left]. apply IH, bounded_step, Hw.
Qed.

(** C5.  The history holds at most five results in every state the system
    can reach, whatever happens and whichever closures the timers hold;
    [addToHistory] puts the new result first and keeps the first five, so
    that on a full log the oldest entry is dropped, and after six
    consecutive insertions the log is the last five of them, newest
    first. *)
Theorem C5_history_capacity :
  (forall (es : list Sentinel.Event) (t0 : Z),
      (List.length
         (history (app (Sentinel.scheduler
                          (Sentinel.run es (Sentinel.initial t0))))) <= 5)%nat)
  /\ (forall (r : AnalysisResult) (s : State),
         history (addToHistory r s) = firstn 5 (r :: history s)
         /\ (List.length (history (addToHistory r s)) <= 5)%nat)
  /\ (forall (r a b c d e : AnalysisResult) (s : State),
         history (addToHistory r (setHistory (fun _ => [a; b; c; d; e]) s))
         = [r; a; b; c; d])
  /\ (forall (r1 r2 r3 r4 r5 r6 : AnalysisResult) (s : State),
         history
           (addToHistory r6 (addToHistory r5 (addToHistory r4
              (addToHistory r3 (addToHistory r2 (addToHistory r1 s))))))
         = [r6; r5; r4; r3; r2]).
Proof.
  split; [|split; [|split]].
  - intros es t0. apply bounded_run. unfold bounded. cbn. lia.
  - intros r s. split; [reflexivity | apply bounded_addToHistory].
  - reflexivity.
  - intros. rewrite !history_addToHistory. reflexivity.
Qed.

End HistoryLog.

(** ** Strings *)

Section Strings.

Local Open Scope string_scope.

Lemma prefix_occurs (p s : string) :
  String.prefix p s = true <-> exists post, s = p ++ post.
Proof.
  revert s. induction p as [|a p IH]; intros s.
  - destruct s; cbn; (split; [intros _; eexists; reflexivity | reflexivity]).
  - destruct s as [|b s]; cbn.
    + split; [discriminate | intros [post H]; discriminate].
    + destruct (ascii_dec a b) as [->|Hab].
      * rewrite IH. split; intros [post H]; exists post.
        -- now rewrite H.
        -- now injection H.
      * split; [discriminate | intros [post H]].
        injection H as Hb _. congruence.
Qed.

Lemma includes_occursIn (s pat : string) :
  JsString.includes s pat = true <-> occursIn pat s.
Proof.
  unfold occursIn. induction s as [|c s IH].
  - cbn [JsString.includes]. rewrite orb_false_r, prefix_occurs. split.
    + intros [post H]. exists "", post. exact H.
    + intros [pre [post H]]. destruct pre; [now exists post|discriminate].
  - cbn [JsString.includes]. rewrite orb_true_iff, prefix_occurs, IH. split.
    + intros [[post H] | [pre [post H]]].
      * exists "", post. exact H.
      * exists (String c pre), post. cbn. now rewrite H.
    + intros [[|c' pre] [post H]].
      * left. now exists post.
      * right. injection H as _ H. now exists pre, post.
Qed.

Lemma isQuotaMessage_mentionsQuota (m : string) :
  isQuotaMessage m = true <-> mentionsQuota m.
Proof.
  unfold isQuotaMessage, mentionsQuota.
  now rewrite orb_true_iff, !includes_occursIn.
Qed.

End Strings.

(** ** The analysis client *)

Section Client.

Local Open Scope string_scope.

Variable ai : Client.
Variable base64Image : string.
Variable clientNow : Z.

Lemma analyze_failure (m : string) :
  tryAnalyze ai base64Image clientNow = inl m ->
  (mentionsQuota m ->
   analyzeImageForPerson ai base64Image clientNow = Thrown "QUOTA_EXCEEDED")
  /\ (~ mentionsQuota m ->
      analyzeImageForPerson ai base64Image clientNow
      = Returned (sensorFailure clientNow)).
Proof.
  intros Htry. unfold analyzeImageForPerson. rewrite Htry.
  destruct (isQuotaMessage m) eqn:Hq.
  - split; [reflexivity|]. intros Hn. exfalso.
    now apply Hn, isQuotaMessage_mentionsQuota.
  - split; [|reflexivity]. intros Hm.
    apply isQuotaMessage_mentionsQuota in Hm. congruence.
Qed.

Lemma analyze_throws_only_quota (msg : string) :
  analyzeImageForPerson ai base64Image clientNow = Thrown msg ->
  msg = "QUOTA_EXCEEDED".
Proof.
  unfold analyzeImageForPerson.
  destruct (tryAnalyze _ _ _) as [m|r]; [|discriminate].
  destruct (isQuotaMessage m); [|discriminate]. congruence.
Qed.

Lemma analyze_answer (a : ModelAnswer) :
  ai (cleanBase64 base64Image) = Answer a ->
  exists r,
    analyzeImageForPerson ai base64Image clientNow = Returned r
    /\ (status r = PERSON_DETECTED <-> reliable a)
    /\ (status r = NO_PERSON <-> ~ reliable a)
    /\ description r = Some (answerDescription a)
    /\ confidence r = Some (answerConfidence a)
    /\ timestamp r = clientNow.
Proof.
  intros Ha. unfold analyzeImageForPerson, tryAnalyze. rewrite Ha.
  eexists. split; [reflexivity|]. cbn. unfold reliable.
  destruct (personDetected a), (45 <? answerConfidence a)%float; cbn;
    repeat split; try reflexivity; try discriminate;
    try (intros [? ?]; discriminate);
    try (intros ? [? ?]; discriminate);
    try (intros H; exfalso; apply H; split; reflexivity).
Qed.

End Client.

(** ** The completion of an analysis *)

Section Completion.

Local Open Scope string_scope.

Lemma nth_error_snoc {A : Type} (l : list A) (x : A) :
  nth_error (l ++ [x]) (List.length l) = Some x.
Proof. induction l as [|y l IH]; [reflexivity | exact IH]. Qed.

Lemma dropNth_snoc {A : Type} (l : list A) (x : A) :
  dropNth (List.length l) (l ++ [x]) = l.
Proof.
  unfold dropNth. induction l as [|y l IH]; [reflexivity|].
  change (y :: (firstn (List.length l) (l ++ [x])
                ++ skipn (S (List.length l)) (l ++ [x])) = y :: l).
  now rewrite IH.
Qed.

(** From a state that is not analysing, a cycle is the handler's two
    halves one after the other, and leaves no call behind. *)
Lemma analysisCycle_idle (img : string) (ai : Client) (tc now : Z)
    (w : Scheduler) :
  isAnalyzing (app w) = false ->
  analysisCycle img ai tc now w
  = {| app := handleImageCapture_resume (render (app w))
                (analyzeImageForPerson ai img tc) now
                (setIsAnalyzing true (app w));
       inFlight := inFlight w |}.
Proof.
  intros Hidle. unfold analysisCycle, handleImageCapture, callSettles.
  cbn [render seesAnalyzing]. rewrite Hidle. cbn [inFlight app].
  now rewrite nth_error_snoc, dropNth_snoc.
Qed.

(** A handler that sees the busy flag set does nothing. *)
Lemma handleImageCapture_busy (h : Handler) (img : string) (w : Scheduler) :
  seesAnalyzing h = true -> handleImageCapture h img w = w.
Proof. intros Hbusy. unfold handleImageCapture. now rewrite Hbusy. Qed.

Ltac open_resume :=
  unfold handleImageCapture_resume, addToHistory, playAlarmSound;
  cbn -[firstn Z.mul Z.min Z.add].

Lemma resume_returned (h : Handler) (r : AnalysisResult) (now : Z) (s : State) :
  let s' := handleImageCapture_resume h (Returned r) now s in
  lastResult s' = Some r
  /\ history s' = firstn 5 (r :: history s)
  /\ currentInterval s' = DEFAULT_INTERVAL
  /\ isAnalyzing s' = false
  /\ nextScanTime s' = now + seesInterval h
  /\ isActive s' = isActive s
  /\ alarmCalls s'
     = (if status_eqb (status r) PERSON_DETECTED then S (alarmCalls s)
        else alarmCalls s).
Proof.
  open_resume.
  destruct (status_eqb (status r) PERSON_DETECTED), (seesSound h);
    cbn -[firstn Z.add]; repeat split.
Qed.

Lemma resume_quota (h : Handler) (now : Z) (s : State) :
  let s' := handleImageCapture_resume h (Thrown "QUOTA_EXCEEDED") now s in
  lastResult s' = Some (cooldownResult now)
  /\ history s' = firstn 5 (cooldownResult now :: history s)
  /\ currentInterval s' = Z.min (seesInterval h * 2) 300000
  /\ isAnalyzing s' = false
  /\ nextScanTime s' = now + seesInterval h
  /\ isActive s' = isActive s
  /\ alarmCalls s' = alarmCalls s.
Proof. open_resume. repeat split. Qed.

Lemma resume_other (h : Handler) (msg : string) (now : Z) (s : State) :
  msg <> "QUOTA_EXCEEDED" ->
  let s' := handleImageCapture_resume h (Thrown msg) now s in
  lastResult s' = Some (errorResult msg now)
  /\ history s' = firstn 5 (errorResult msg now :: history s)
  /\ currentInterval s' = currentInterval s
  /\ isAnalyzing s' = false
  /\ nextScanTime s' = now + seesInterval h
  /\ alarmCalls s' = alarmCalls s.
Proof.
  intros Hmsg. apply String.eqb_neq in Hmsg.
  unfold handleImageCapture_resume. rewrite Hmsg.
  unfold addToHistory. cbn -[firstn Z.add]. repeat split.
Qed.

End Completion.

(** ** Error classification *)

Section ErrorClassification.

Local Open Scope string_scope.

(** C10.  Whatever the image and whatever the remote call does,
    [analyzeImageForPerson] throws nothing but [QUOTA_EXCEEDED], and only
    on a failure whose message mentions 429 or quota; any other failure
    (a rejected request, a response without text, a text that does not
    parse) is returned as an ordinary result of status [ERROR], and the
    scheduler takes such a result through the branch of returned results:
    it shows and logs the client's result and sets the interval to the
    default, without building an error result of its own. *)
Theorem C10_client_throws_only_quota
    (ai : Client) (base64Image : string) (clientNow : Z) :
  let reply := ai (cleanBase64 base64Image) in
  let out := analyzeImageForPerson ai base64Image clientNow in
  (forall msg, out = Thrown msg ->
     msg = "QUOTA_EXCEEDED"
     /\ exists m, (reply = Rejected m \/ reply = Unparsable m)
                  /\ mentionsQuota m)
  /\ (forall m, reply = Rejected m \/ reply = Unparsable m ->
        (mentionsQuota m -> out = Thrown "QUOTA_EXCEEDED")
        /\ (~ mentionsQuota m -> out = Returned (sensorFailure clientNow)))
  /\ (reply = NoText -> out = Returned (sensorFailure clientNow))
  /\ status (sensorFailure clientNow) = ERROR
  /\ (forall (h : Handler) (now : Z) (s : State),
        let s' := handleImageCapture_resume h
                    (Returned (sensorFailure clientNow)) now s in
        lastResult s' = Some (sensorFailure clientNow)
        /\ history s' = firstn 5 (sensorFailure clientNow :: history s)
        /\ currentInterval s' = DEFAULT_INTERVAL
        /\ alarmCalls s' = alarmCalls s).
Proof.
  cbv zeta. split; [|split; [|split; [|split]]].
  - intros msg Hout. split; [exact (analyze_throws_only_quota _ _ _ _ Hout)|].
    unfold analyzeImageForPerson, tryAnalyze in Hout.
    destruct (ai (cleanBase64 base64Image)) as [m | | m | a];
      try discriminate.
    + destruct (isQuotaMessage m) eqn:Hq; [|discriminate].
      exists m. split; [now left | now apply isQuotaMessage_mentionsQuota].
    + destruct (isQuotaMessage m) eqn:Hq; [|discriminate].
      exists m. split; [now right | now apply isQuotaMessage_mentionsQuota].
  - intros m Hreply. apply analyze_failure. unfold tryAnalyze.
    destruct Hreply as [-> | ->]; reflexivity.
  - intros Hreply. unfold analyzeImageForPerson, tryAnalyze.
    now rewrite Hreply.
  - reflexivity.
  - intros h now s.
    destruct (resume_returned h (sensorFailure clientNow) now s)
      as (H1 & H2 & H3 & _ & _ & _ & H7).
    repeat split; assumption.
Qed.

Lemma C10_witness :
  analyzeImageForPerson Scenario.rateLimited "data:image/jpeg;base64,AAAA" 7
  = Thrown "QUOTA_EXCEEDED"
  /\ analyzeImageForPerson Scenario.offline "data:image/jpeg;base64,AAAA" 7
     = Returned (sensorFailure 7).
Proof.
  split.
  - apply (proj1 (proj2 (C10_client_throws_only_quota
                           Scenario.rateLimited "data:image/jpeg;base64,AAAA" 7))
             "got status: 429 Too Many Requests. RESOURCE_EXHAUSTED").
    + left. reflexivity.
    + apply isQuotaMessage_mentionsQuota. reflexivity.
  - apply (proj1 (proj2 (C10_client_throws_only_quota
                           Scenario.offline "data:image/jpeg;base64,AAAA" 7))
             "Failed to fetch").
    + left. reflexivity.
    + intros H. apply isQuotaMessage_mentionsQuota in H. discriminate H.
Defined.

End ErrorClassification.

(** ** Classification of an answer *)

Section Reliability.

Local Open Scope string_scope.

(** C8.  When the service answers, the result is [PERSON_DETECTED] exactly
    when the answer is reliable (a person, and confidence strictly above
    45) and [NO_PERSON] otherwise, with the answer's description and
    confidence in it; the scheduler then shows and logs that result and
    calls [playAlarmSound] once if the answer is reliable and not at all if
    it is not.  A person with confidence 46 is reliable; with confidence 45
    it is not. *)
Theorem C8_reliable_detection :
  (forall (ai : Client) (base64Image : string) (clientNow : Z)
          (a : ModelAnswer),
      ai (cleanBase64 base64Image) = Answer a ->
      exists r : AnalysisResult,
        analyzeImageForPerson ai base64Image clientNow = Returned r
        /\ (status r = PERSON_DETECTED <-> reliable a)
        /\ (status r = NO_PERSON <-> ~ reliable a)
        /\ description r = Some (answerDescription a)
        /\ confidence r = Some (answerConfidence a)
        /\ forall (h : Handler) (now : Z) (s : State),
            let s' := handleImageCapture_resume h (Returned r) now s in
            lastResult s' = Some r
            /\ history s' = firstn 5 (r :: history s)
            /\ (reliable a -> alarmCalls s' = S (alarmCalls s))
            /\ (~ reliable a -> alarmCalls s' = alarmCalls s))
  /\ (forall d : string, reliable (mkAnswer true 46 d))
  /\ (forall d : string, ~ reliable (mkAnswer true 45 d))
  /\ (forall (c : float) (d : string), ~ reliable (mkAnswer false c d)).
Proof.
  split; [|split; [|split]].
  - intros ai img tc a Ha.
    destruct (analyze_answer ai img tc a Ha)
      as (r & Hout & Hyes & Hno & Hd & Hc & _).
    exists r. split; [exact Hout|]. split; [exact Hyes|].
    split; [exact Hno|]. split; [exact Hd|]. split; [exact Hc|].
    intros h now s. cbv zeta.
    destruct (resume_returned h r now s) as (H1 & H2 & _).
    split; [exact H1|]. split; [exact H2|]. split.
    + intros Hrel. apply Hyes in Hrel.
      destruct (resume_returned h r now s) as (_ & _ & _ & _ & _ & _ & H7).
      rewrite H7, Hrel. reflexivity.
    + intros Hrel. apply Hno in Hrel.
      destruct (resume_returned h r now s) as (_ & _ & _ & _ & _ & _ & H7).
      rewrite H7, Hrel. reflexivity.
  - intros d. split; reflexivity.
  - intros d [_ H]. discriminate H.
  - intros c d [H _]. discriminate H.
Qed.

Lemma C8_witness :
  exists r : AnalysisResult,
    analyzeImageForPerson (Scenario.answers true 46) "data:image/jpeg;base64,AAAA" 7
    = Returned r
    /\ status r = PERSON_DETECTED
    /\ alarmCalls (handleImageCapture_resume (render (App.initial 0))
                     (Returned r) 9 (App.initial 0)) = 1%nat.
Proof.
  destruct (proj1 C8_reliable_detection (Scenario.answers true 46)
              "data:image/jpeg;base64,AAAA" 7
              (mkAnswer true 46 "Pessoa de casaco escuro.") eq_refl)
    as (r & Hout & Hyes & _ & _ & _ & Hs).
  exists r. split; [exact Hout|]. split.
  - apply Hyes. split; reflexivity.
  - destruct (Hs (render (App.initial 0)) 9 (App.initial 0))
      as (_ & _ & Halarm & _).
    apply Halarm. split; reflexivity.
Defined.

End Reliability.

(** ** Whole analysis cycles *)

Section Cycles.

Local Open Scope string_scope.

Variable c : Call.
Variable w : Scheduler.
Hypothesis idle : isAnalyzing (app w) = false.

Lemma perform_idle :
  perform c w
  = {| app := handleImageCapture_resume (render (app w)) (outcome c)
                (callDone c) (setIsAnalyzing true (app w));
       inFlight := inFlight w |}.
Proof. unfold perform, outcome. now apply analysisCycle_idle. Qed.

Lemma perform_quota :
  hitsQuota c ->
  currentInterval (app (perform c w))
  = Z.min (currentInterval (app w) * 2) 300000
  /\ lastResult (app (perform c w)) = Some (cooldownResult (callDone c))
  /\ history (app (perform c w))
     = firstn 5 (cooldownResult (callDone c) :: history (app w))
  /\ isAnalyzing (app (perform c w)) = false
  /\ nextScanTime (app (perform c w)) = callDone c + currentInterval (app w)
  /\ alarmCalls (app (perform c w)) = alarmCalls (app w)
  /\ inFlight (perform c w) = inFlight w.
Proof.
  intros Hq. rewrite perform_idle. unfold hitsQuota in Hq. rewrite Hq.
  cbn [app inFlight].
  destruct (resume_quota (render (app w)) (callDone c)
              (setIsAnalyzing true (app w)))
    as (H1 & H2 & H3 & H4 & H5 & _ & H7).
  repeat split; assumption.
Qed.

Lemma perform_returned (r : AnalysisResult) :
  outcome c = Returned r ->
  currentInterval (app (perform c w)) = DEFAULT_INTERVAL
  /\ lastResult (app (perform c w)) = Some r
  /\ history (app (perform c w)) = firstn 5 (r :: history (app w))
  /\ isAnalyzing (app (perform c w)) = false
  /\ nextScanTime (app (perform c w)) = callDone c + currentInterval (app w)
  /\ inFlight (perform c w) = inFlight w.
Proof.
  intros Hr. rewrite perform_idle, Hr. cbn [app inFlight].
  destruct (resume_returned (render (app w)) r (callDone c)
              (setIsAnalyzing true (app w)))
    as (H1 & H2 & H3 & H4 & H5 & _).
  repeat split; assumption.
Qed.

Lemma outcome_failsOtherwise :
  failsOtherwise c -> outcome c = Returned (sensorFailure (callClock c)).
Proof.
  intros (m & Htry & Hm). unfold outcome.
  now apply (analyze_failure _ _ _ m Htry).
Qed.

(** A failure that is not a quota failure comes back as a returned
    result: the scheduler shows [ERROR] and sets the interval to the
    default, whatever it was. *)
Lemma perform_failsOtherwise :
  failsOtherwise c ->
  shows (app (perform c w)) = Some ERROR
  /\ currentInterval (app (perform c w)) = DEFAULT_INTERVAL.
Proof.
  intros Hf. apply outcome_failsOtherwise in Hf.
  destruct (perform_returned _ Hf) as (H1 & H2 & _).
  unfold shows. rewrite H2. split; [reflexivity | exact H1].
Qed.

(** The [finally] block computes the next scan time from the interval the
    handler closed over, the one before the cycle. *)
Lemma perform_next_scan :
  isAnalyzing (app (perform c w)) = false
  /\ nextScanTime (app (perform c w)) = callDone c + currentInterval (app w).
Proof.
  rewrite perform_idle. cbn [app].
  unfold handleImageCapture_resume. split; reflexivity.
Qed.

End Cycles.

Section Backoff.

Local Open Scope string_scope.

(** Cycles that each start through the callbacks of the current render
    from a scheduler that is not analysing: a quota failure doubles the
    interval up to 300000 and shows and logs a [COOLDOWN] result, a
    returned result sets the default interval; from 30000 four quota
    failures in a row give 60000, 120000, 240000 and 300000. *)
Lemma perform_backoff_sequence :
  (forall (c : Call) (w : Scheduler),
      isAnalyzing (app w) = false -> hitsQuota c ->
      currentInterval (app (perform c w))
      = Z.min (currentInterval (app w) * 2) 300000
      /\ shows (app (perform c w)) = Some COOLDOWN
      /\ history (app (perform c w))
         = firstn 5 (cooldownResult (callDone c) :: history (app w))
      /\ isAnalyzing (app (perform c w)) = false)
  /\ (forall (c : Call) (w : Scheduler) (r : AnalysisResult),
         isAnalyzing (app w) = false -> outcome c = Returned r ->
         currentInterval (app (perform c w)) = 30000
         /\ isAnalyzing (app (perform c w)) = false)
  /\ (forall (c1 c2 c3 c4 c5 : Call) (w : Scheduler) (r : AnalysisResult),
         isAnalyzing (app w) = false -> currentInterval (app w) = 30000 ->
         hitsQuota c1 -> hitsQuota c2 -> hitsQuota c3 -> hitsQuota c4 ->
         outcome c5 = Returned r ->
         let w1 := perform c1 w in
         let w2 := perform c2 w1 in
         let w3 := perform c3 w2 in
         let w4 := perform c4 w3 in
         let w5 := perform c5 w4 in
         map (fun x => currentInterval (app x)) [w1; w2; w3; w4; w5]
         = [60000; 120000; 240000; 300000; 30000]
         /\ map (fun x => shows (app x)) [w1; w2; w3; w4]
            = [Some COOLDOWN; Some COOLDOWN; Some COOLDOWN; Some COOLDOWN]).
Proof.
  assert (Hstep : forall (c : Call) (w : Scheduler),
             isAnalyzing (app w) = false -> hitsQuota c ->
             currentInterval (app (perform c w))
             = Z.min (currentInterval (app w) * 2) 300000
             /\ shows (app (perform c w)) = Some COOLDOWN
             /\ history (app (perform c w))
                = firstn 5 (cooldownResult (callDone c) :: history (app w))
             /\ isAnalyzing (app (perform c w)) = false).
  { intros c w Hidle Hq.
    destruct (perform_quota c w Hidle Hq) as (H1 & H2 & H3 & H4 & _).
    unfold shows. rewrite H2. repeat split; assumption. }
  split; [exact Hstep|]. split.
  - intros c w r Hidle Hr.
    destruct (perform_returned c w Hidle r Hr) as (H1 & _ & _ & H4 & _).
    split; assumption.
  - intros c1 c2 c3 c4 c5 w r Hidle H0 Q1 Q2 Q3 Q4 R5. cbv zeta.
    destruct (Hstep c1 w Hidle Q1) as (I1 & S1 & _ & B1).
    destruct (Hstep c2 _ B1 Q2) as (I2 & S2 & _ & B2).
    destruct (Hstep c3 _ B2 Q3) as (I3 & S3 & _ & B3).
    destruct (Hstep c4 _ B3 Q4) as (I4 & S4 & _ & B4).
    destruct (perform_returned c5 _ B4 r R5) as (I5 & _).
    rewrite H0 in I1. rewrite I1 in I2. rewrite I2 in I3. rewrite I3 in I4.
    cbn [map]. rewrite I1, I2, I3, I4, I5, S1, S2, S3, S4.
    split; reflexivity.
Qed.

End Backoff.

(** ** Generic failures and the next scan time, on a run *)

Section RunAfterBackoff.

Import Sentinel.
Local Open Scope string_scope.

Lemma offline_failsOtherwise :
  failsOtherwise
    (mkCall "data:image/jpeg;base64,/9j/4AAQSkZJRg" Scenario.offline 33000 33000).
Proof.
  exists "Failed to fetch". split; [reflexivity|].
  intros H. apply isQuotaMessage_mentionsQuota in H. discriminate H.
Qed.

(** C2, on the code.  A failure of the remote call that is not a quota
    failure reaches the scheduler as a returned result of status [ERROR]:
    from any scheduler that is not analysing, the cycle shows [ERROR] and
    sets the interval to the default, whatever it was.  The handler's own
    branch for thrown errors other than [QUOTA_EXCEEDED] shows [ERROR] and
    leaves the interval alone, but the client never throws such an error.
    On the run: the system is switched on, its first analysis fails on the
    quota, so that the interval is 60000; the next analysis, a manual scan,
    fails because the service cannot be reached, and the interval is back
    at 30000. *)
Theorem C2_generic_failure_resets_interval :
  (forall (c : Call) (w : Scheduler),
      isAnalyzing (app w) = false -> failsOtherwise c ->
      shows (app (perform c w)) = Some ERROR
      /\ currentInterval (app (perform c w)) = DEFAULT_INTERVAL)
  /\ (forall (h : Handler) (msg : string) (now : Z) (s : State),
         msg <> "QUOTA_EXCEEDED" ->
         shows (handleImageCapture_resume h (Thrown msg) now s) = Some ERROR
         /\ currentInterval (handleImageCapture_resume h (Thrown msg) now s)
            = currentInterval s)
  /\ isAnalyzing (app (scheduler Scenario.backedOff)) = false
  /\ currentInterval (app (scheduler Scenario.backedOff)) = 60000
  /\ scheduler Scenario.thenOffline
     = perform
         (mkCall "data:image/jpeg;base64,/9j/4AAQSkZJRg" Scenario.offline
                 33000 33000)
         (scheduler Scenario.backedOff)
  /\ shows (app (scheduler Scenario.thenOffline)) = Some ERROR
  /\ currentInterval (app (scheduler Scenario.thenOffline)) = 30000
  /\ currentInterval (app (scheduler Scenario.thenOffline))
     <> currentInterval (app (scheduler Scenario.backedOff)).
Proof.
  split; [exact perform_failsOtherwise|]. split.
  { intros h msg now s Hmsg.
    destruct (resume_other h msg now s Hmsg) as (H1 & _ & H3 & _).
    unfold shows. rewrite H1. split; [reflexivity | exact H3]. }
  split; [vm_compute; reflexivity|]. split; [vm_compute; reflexivity|].
  split; [vm_compute; reflexivity|]. split; [vm_compute; reflexivity|].
  split; [vm_compute; reflexivity|]. vm_compute. discriminate.
Qed.

Lemma C2_witness :
  shows (app (perform
                (mkCall "data:image/jpeg;base64,/9j/4AAQSkZJRg"
                        Scenario.offline 33000 33000)
                (scheduler Scenario.backedOff))) = Some ERROR
  /\ currentInterval
       (app (perform
               (mkCall "data:image/jpeg;base64,/9j/4AAQSkZJRg"
                       Scenario.offline 33000 33000)
               (scheduler Scenario.backedOff))) = DEFAULT_INTERVAL.
Proof.
  apply (proj1 C2_generic_failure_resets_interval).
  - vm_compute. reflexivity.
  - exact offline_failsOtherwise.
Defined.

(** C3, on the code.  From any scheduler that is not analysing, a cycle
    clears the busy flag and sets the next scan time to the time of
    completion plus the interval from before the cycle, the one the
    handler closed over, whatever the outcome made of the interval.  On
    the same run: when the first analysis has failed on the quota at time
    2000 the interval is 60000, but the next scan time is 2000 + 30000; and
    when the second has come back at time 33000 the interval is 30000, but
    the next scan time is 33000 + 60000. *)
Theorem C3_next_scan_from_stale_interval :
  (forall (c : Call) (w : Scheduler),
      isAnalyzing (app w) = false ->
      isAnalyzing (app (perform c w)) = false
      /\ nextScanTime (app (perform c w))
         = callDone c + currentInterval (app w))
  /\ isAnalyzing (app (scheduler Scenario.backedOff)) = false
  /\ currentInterval (app (scheduler Scenario.backedOff)) = 60000
  /\ nextScanTime (app (scheduler Scenario.backedOff)) = 2000 + 30000
  /\ isAnalyzing (app (scheduler Scenario.thenOffline)) = false
  /\ currentInterval (app (scheduler Scenario.thenOffline)) = 30000
  /\ nextScanTime (app (scheduler Scenario.thenOffline)) = 33000 + 60000.
Proof.
  split; [exact perform_next_scan|].
  split; [vm_compute; reflexivity|]. split; [vm_compute; reflexivity|].
  split; [vm_compute; reflexivity|]. split; [vm_compute; reflexivity|].
  split; vm_compute; reflexivity.
Qed.

Lemma C3_witness :
  isAnalyzing
    (app (perform (mkCall "data:image/jpeg;base64,/9j/4AAQSkZJRg"
                          Scenario.rateLimited 2000 2000)
                  {| app := App.initial 0; inFlight := [] |})) = false
  /\ nextScanTime
       (app (perform (mkCall "data:image/jpeg;base64,/9j/4AAQSkZJRg"
                             Scenario.rateLimited 2000 2000)
                     {| app := App.initial 0; inFlight := [] |}))
     = 2000 + currentInterval (App.initial 0).
Proof.
  apply (proj1 C3_next_scan_from_stale_interval
           (mkCall "data:image/jpeg;base64,/9j/4AAQSkZJRg"
                   Scenario.rateLimited 2000 2000)
           {| app := App.initial 0; inFlight := [] |}).
  reflexivity.
Defined.

End RunAfterBackoff.

(** ** The motion detector *)

Section MotionDetector.

Import WebcamCapture.

Variables cur prev : ImageData.

Lemma absDiff_in_range (i : nat) :
  (i < List.length cur)%nat -> (i < List.length prev)%nat ->
  absDiff cur prev i = Some (Z.abs (byteAt cur i - byteAt prev i)).
Proof.
  intros Hc Hp. unfold absDiff, byteAt.
  now rewrite (nth_error_nth' cur 0 Hc), (nth_error_nth' prev 0 Hp).
Qed.

(** The loop counts the changed pixels: started at pixel [p] with [n]
    pixels to go and at least [n] turns, it adds to [changedPixels] the
    number of changed pixels among them. *)
Lemma diffLoop_counts (n : nat) :
  forall (p turns : nat) (totalDiff changedPixels : Z),
    List.length cur = (4 * (p + n))%nat ->
    List.length prev = List.length cur ->
    (n <= turns)%nat ->
    snd (diffLoop turns (4 * p) cur prev totalDiff changedPixels)
    = changedPixels
      + Z.of_nat (List.length (filter (changed cur prev) (seq p n))).
Proof.
  induction n as [|n IH]; intros p turns td cp Hlen Hprev Hturns.
  - cbn [seq filter List.length Z.of_nat]. rewrite Z.add_0_r.
    destruct turns as [|turns]; [reflexivity|]. cbn [diffLoop].
    replace (4 * p <? List.length cur)%nat with false; [reflexivity|].
    symmetry. apply Nat.ltb_ge. lia.
  - destruct turns as [|turns]; [lia|]. cbn [diffLoop].
    replace (4 * p <? List.length cur)%nat with true
      by (symmetry; apply Nat.ltb_lt; lia).
    rewrite !absDiff_in_range by lia. cbn [add exceeds].
    change (30 <? _) with (changed cur prev p).
    replace (4 * p + 4)%nat with (4 * S p)%nat by lia.
    cbn [seq filter].
    destruct (changed cur prev p).
    + rewrite IH by lia. cbn [List.length]. lia.
    + rewrite IH by lia. reflexivity.
Qed.

Lemma diffLoop_changedPixelCount :
  List.length cur = sampleBytes -> List.length prev = sampleBytes ->
  snd (diffLoop (List.length cur) 0 cur prev 0 0)
  = Z.of_nat (changedPixelCount cur prev).
Proof.
  intros Hc Hp. unfold changedPixelCount.
  pose proof (diffLoop_counts gridPixels 0 (List.length cur) 0 0) as H.
  rewrite Z.add_0_l in H. apply H.
  - rewrite Hc. unfold sampleBytes. now rewrite Nat.add_0_l.
  - congruence.
  - rewrite Hc. unfold sampleBytes. apply Nat.le_add_r.
Qed.

End MotionDetector.

Section MotionThreshold.

Import WebcamCapture.

Lemma changedPixelCount_le (cur prev : ImageData) :
  (changedPixelCount cur prev <= gridPixels)%nat.
Proof.
  unfold changedPixelCount.
  etransitivity; [apply filter_length_le|]. now rewrite length_seq.
Qed.

Lemma changed_same (d : ImageData) (p : nat) : changed d d p = false.
Proof.
  unfold changed, pixelDifference. rewrite !Z.sub_diag. reflexivity.
Qed.

Lemma changedPixelCount_same (d : ImageData) : changedPixelCount d d = 0%nat.
Proof.
  unfold changedPixelCount.
  assert (H : forall l, filter (changed d d) l = []).
  { induction l as [|p l IH]; [reflexivity|].
    cbn [filter]. now rewrite changed_same. }
  now rewrite H.
Qed.

(** At the default sensitivity the threshold is 1.5 per cent: of the 2500
    pixels, 38 or more must have changed.  Checked on every count. *)
Lemma default_threshold_table :
  forallb (fun k => Bool.eqb
                      (defaultMotionSensitivity / 10 <? percentage k)%float
                      (38 <=? k)%nat)
          (seq 0 (S gridPixels)) = true.
Proof. vm_compute. reflexivity. Qed.

Lemma default_threshold (k : nat) :
  (k <= gridPixels)%nat ->
  (defaultMotionSensitivity / 10 <? percentage k)%float = (38 <=? k)%nat.
Proof.
  intros Hk. apply eqb_prop.
  apply (proj1 (forallb_forall _ _) default_threshold_table k).
  apply in_seq. lia.
Qed.

(** No sensitivity setting from 0 to 100 is below a motion level of 0. *)
Lemma zero_level_table :
  forallb (fun n => negb (number (Z.of_nat n) / 10 <? percentage 0)%float)
          (seq 0 101) = true.
Proof. vm_compute. reflexivity. Qed.

Lemma zero_level_is_still (n : nat) :
  (n <= 100)%nat -> (number (Z.of_nat n) / 10 <? percentage 0)%float = false.
Proof.
  intros Hn. apply negb_true_iff.
  apply (proj1 (forallb_forall _ _) zero_level_table n).
  apply in_seq. lia.
Qed.

(** [checkForMotion] when there is a previous sample. *)
Lemma checkForMotion_diff (s : float) (v : Video) (prev : ImageData)
    (c : State) :
  context2d v = true -> prevFrameData c = Some prev ->
  List.length (scaled v) = sampleBytes -> List.length prev = sampleBytes ->
  checkForMotion s (Some v) c
  = ((s / 10 <? percentage (changedPixelCount (scaled v) prev))%float,
     setMotionLevel (percentage (changedPixelCount (scaled v) prev))
       (setPrevFrameData (Some (scaled v)) c)).
Proof.
  intros Hctx Hprev Hc Hp. unfold checkForMotion.
  rewrite Hctx, Hprev. cbn [negb].
  pose proof (diffLoop_changedPixelCount (scaled v) prev Hc Hp) as Hloop.
  destruct (diffLoop _ _ _ _ _ _) as [totalDiff changedPixels].
  cbn [snd] in Hloop. subst changedPixels. cbv zeta. unfold percentage.
  replace (number (50 * 50)) with 2500%float by (vm_compute; reflexivity).
  reflexivity.
Qed.

(** C6.  With a previous sample, [checkForMotion] counts the pixels of the
    50 x 50 grid whose red, green and blue bytes differ from the previous
    sample's by more than 30 in sum; the motion level it sets is that count
    divided by 2500, times 100; it answers that there is motion exactly
    when the level is above a tenth of the sensitivity; and it keeps the
    current sample.  At the default sensitivity 15 that is when 38 pixels
    or more have changed.  When the two samples are identical the level is
    0 and, for every sensitivity setting from 0 to 100, there is no
    motion. *)
Theorem C6_motion_decision (s : float) (v : Video) (prev : ImageData)
    (c : State) :
  context2d v = true -> prevFrameData c = Some prev ->
  List.length (scaled v) = sampleBytes -> List.length prev = sampleBytes ->
  let k := changedPixelCount (scaled v) prev in
  let hasMotion := fst (checkForMotion s (Some v) c) in
  let c' := snd (checkForMotion s (Some v) c) in
  (forall p : nat,
      changed (scaled v) prev p = true
      <-> 30 < Z.abs (byteAt (scaled v) (4 * p) - byteAt prev (4 * p))
             + Z.abs (byteAt (scaled v) (4 * p + 1) - byteAt prev (4 * p + 1))
             + Z.abs (byteAt (scaled v) (4 * p + 2) - byteAt prev (4 * p + 2)))
  /\ k = List.length (filter (changed (scaled v) prev) (seq 0 2500))
  /\ motionLevel c' = (number (Z.of_nat k) / 2500 * 100)%float
  /\ hasMotion = (s / 10 <? motionLevel c')%float
  /\ prevFrameData c' = Some (scaled v)
  /\ (s = defaultMotionSensitivity -> hasMotion = (38 <=? k)%nat)
  /\ (scaled v = prev ->
      motionLevel c' = 0%float
      /\ forall n : nat, (n <= 100)%nat -> s = number (Z.of_nat n) ->
                         hasMotion = false).
Proof.
  intros Hctx Hprev Hc Hp. cbv zeta.
  rewrite (checkForMotion_diff s v prev c Hctx Hprev Hc Hp).
  cbn [fst snd motionLevel setMotionLevel prevFrameData setPrevFrameData].
  split; [|split; [|split; [|split; [|split; [|split]]]]].
  - intros p. unfold changed, pixelDifference. apply Z.ltb_lt.
  - unfold changedPixelCount. change gridPixels with 2500%nat. reflexivity.
  - unfold percentage. reflexivity.
  - reflexivity.
  - reflexivity.
  - intros ->. apply default_threshold, changedPixelCount_le.
  - intros <-. rewrite changedPixelCount_same.
    split; [vm_compute; reflexivity|].
    intros n Hn ->. now apply zero_level_is_still.
Qed.

End MotionThreshold.

Lemma C6_witness :
  fst (WebcamCapture.checkForMotion WebcamCapture.defaultMotionSensitivity
         (Some (Scenario.frame 0))
         (WebcamCapture.setPrevFrameData
            (Some (WebcamCapture.scaled (Scenario.frame 0)))
            WebcamCapture.initial))
  = false.
Proof.
  assert (Hlen : List.length (WebcamCapture.scaled (Scenario.frame 0))
                 = sampleBytes) by apply repeat_length.
  destruct (C6_motion_decision WebcamCapture.defaultMotionSensitivity
              (Scenario.frame 0)
              (WebcamCapture.scaled (Scenario.frame 0))
              (WebcamCapture.setPrevFrameData
                 (Some (WebcamCapture.scaled (Scenario.frame 0)))
                 WebcamCapture.initial)
              eq_refl eq_refl Hlen Hlen)
    as (_ & _ & _ & _ & _ & _ & Hsame).
  destruct (Hsame eq_refl) as [_ Hstill].
  apply (Hstill 15%nat); [repeat constructor | vm_compute; reflexivity].
Defined.

(** ** Cold start *)

Section ColdStart.

Import WebcamCapture Sentinel.
Local Open Scope string_scope.

Lemma truthy_nonempty (img : string) :
  img <> "" -> truthy (Some img) = Some img.
Proof. destruct img; [congruence | reflexivity]. Qed.

(** C9.  Without a previous sample, as at mount and after every camera
    start that succeeds, [checkForMotion] answers that there is motion for
    any frame and any sensitivity, and the sample read back from the state
    it leaves is the frame's sample; the motion level, the stream and the
    permission error are as they were (no difference is computed).  The
    answer is that there is motion also when there is no video or no
    drawing context.  The stored sample is the one the next check compares
    its frame with.  So
    a tick on a ready frame hands the capture to [handleImageCapture],
    never to [handleNoMotion], leaves the frame's sample as the previous
    sample, and a handler that is not busy puts exactly that call in
    flight. *)
Theorem C9_cold_start :
  (forall (s : float) (v : Video) (c : State),
      context2d v = true -> prevFrameData c = None ->
      fst (checkForMotion s (Some v) c) = true
      /\ prevFrameData (snd (checkForMotion s (Some v) c)) = Some (scaled v)
      /\ motionLevel (snd (checkForMotion s (Some v) c)) = motionLevel c
      /\ stream (snd (checkForMotion s (Some v) c)) = stream c
      /\ permissionError (snd (checkForMotion s (Some v) c))
         = permissionError c)
  /\ (forall (s : float) (video : option Video) (c : State),
         prevFrameData c = None -> fst (checkForMotion s video c) = true)
  /\ (forall (s s' : float) (v v' : Video) (c : State),
         context2d v = true -> prevFrameData c = None ->
         context2d v' = true ->
         List.length (scaled v) = sampleBytes ->
         List.length (scaled v') = sampleBytes ->
         let next := checkForMotion s' (Some v')
                       (snd (checkForMotion s (Some v) c)) in
         motionLevel (snd next)
         = percentage (changedPixelCount (scaled v') (scaled v))
         /\ fst next
            = (s' / 10 <? percentage (changedPixelCount (scaled v')
                                        (scaled v)))%float
         /\ prevFrameData (snd next) = Some (scaled v'))
  /\ prevFrameData WebcamCapture.initial = None
  /\ (forall c : State, prevFrameData (startCamera true c) = None)
  /\ (forall (h : Handler) (v : Video) (now : Z) (w : World),
         seesActive h = true -> frameReady (Some v) = true ->
         dataURL v <> "" -> prevFrameData (camera w) = None ->
         scheduler (step (Tick h (Some v) now) w)
         = handleImageCapture h (dataURL v) (scheduler w)
         /\ prevFrameData (camera (step (Tick h (Some v) now) w))
            = Some (scaled v)
         /\ motionLevel (camera (step (Tick h (Some v) now) w))
            = motionLevel (camera w)
         /\ (seesAnalyzing h = false ->
             inFlight (scheduler (step (Tick h (Some v) now) w))
             = (inFlight (scheduler w) ++ [mkPending h (dataURL v)])%list
             /\ isAnalyzing (app (scheduler (step (Tick h (Some v) now) w)))
                = true
             /\ history (app (scheduler (step (Tick h (Some v) now) w)))
                = history (app (scheduler w)))).
Proof.
  assert (Hcold : forall (s : float) (v : Video) (c : State),
             context2d v = true -> prevFrameData c = None ->
             checkForMotion s (Some v) c
             = (true, setPrevFrameData (Some (scaled v)) c)).
  { intros s v c Hctx Hprev. unfold checkForMotion.
    now rewrite Hctx, Hprev. }
  split; [|split; [|split; [|split; [|split]]]].
  - intros s v c Hctx Hprev. rewrite (Hcold s v c Hctx Hprev).
    cbn [fst snd]. repeat split.
  - intros s [v|] c Hprev; [|reflexivity]. unfold checkForMotion.
    destruct (context2d v); [|reflexivity]. now rewrite Hprev.
  - intros s s' v v' c Hctx Hprev Hctx' Hlen Hlen'. cbv zeta.
    rewrite (Hcold s v c Hctx Hprev). cbn [snd].
    rewrite (checkForMotion_diff s' v' (scaled v)
               (setPrevFrameData (Some (scaled v)) c)
               Hctx' eq_refl Hlen' Hlen).
    cbn [fst snd]. repeat split.
  - reflexivity.
  - reflexivity.
  - intros h v now w Hact Hready Hurl Hprev.
    unfold frameReady in Hready.
    apply andb_prop in Hready as [Hready Hctx].
    apply andb_prop in Hready as [Hw Hh].
    apply negb_true_iff in Hw, Hh.
    assert (Hstep : step (Tick h (Some v) now) w
                    = {| scheduler := handleImageCapture h (dataURL v)
                                        (scheduler w);
                         camera := setPrevFrameData (Some (scaled v))
                                     (camera w) |}).
    { cbn [step]. unfold processFrame.
      rewrite Hact, Hw, Hh, Hctx. cbn [negb orb].
      rewrite (Hcold _ v (camera w) Hctx Hprev).
      unfold captureCurrentFrame. rewrite Hw, Hctx. cbn [negb].
      now rewrite (truthy_nonempty _ Hurl). }
    rewrite Hstep. cbn [scheduler camera].
    split; [reflexivity|]. split; [reflexivity|]. split; [reflexivity|].
    intros Hidle. unfold handleImageCapture. rewrite Hidle.
    repeat split.
Qed.

Lemma C9_witness :
  scheduler Scenario.analysing
  = handleImageCapture (render (app (scheduler Scenario.started)))
      (dataURL (Scenario.frame 0)) (scheduler Scenario.started)
  /\ prevFrameData (camera Scenario.analysing)
     = Some (scaled (Scenario.frame 0))
  /\ motionLevel (camera Scenario.analysing)
     = motionLevel (camera Scenario.started).
Proof.
  destruct (proj2 (proj2 (proj2 (proj2 (proj2 C9_cold_start))))
              (render (app (scheduler Scenario.started)))
              (Scenario.frame 0) 1000 Scenario.started
              eq_refl eq_refl ltac:(discriminate) eq_refl)
    as (Hs & Hp & Hm & _).
  split; [exact Hs|]. split; [exact Hp | exact Hm].
Defined.

End ColdStart.

(** ** Deactivation while a call is outstanding *)

Section LateResult.

Import Sentinel.
Local Open Scope string_scope.

(** The event an outstanding call leaves when it settles. *)
Lemma settled_event (h : Handler) (o : Completion AnalysisResult) (now : Z)
    (s : State) :
  (forall msg, o = Thrown msg -> msg = "QUOTA_EXCEEDED") ->
  let e := match o with
           | Returned r => r
           | Thrown _ => cooldownResult now
           end in
  lastResult (handleImageCapture_resume h o now s) = Some e
  /\ history (handleImageCapture_resume h o now s) = firstn 5 (e :: history s)
  /\ isAnalyzing (handleImageCapture_resume h o now s) = false
  /\ isActive (handleImageCapture_resume h o now s) = isActive s.
Proof.
  intros Honly. destruct o as [r | msg]; cbv zeta.
  - destruct (resume_returned h r now s) as (H1 & H2 & _ & H4 & _ & H6 & _).
    repeat split; assumption.
  - rewrite (Honly msg eq_refl).
    destruct (resume_quota h now s) as (H1 & H2 & _ & H4 & _ & H6 & _).
    repeat split; assumption.
Qed.




End LateResult.

(** ** The busy guard *)

Section BusyGuard.

Import WebcamCapture Sentinel.
Local Open Scope string_scope.

Lemma world_eta (w : World) :
  {| scheduler := scheduler w; camera := camera w |} = w.
Proof. now destruct w. Qed.

Lemma manual_scan_busy (w : World) (video : option Video) :
  isAnalyzing (app (scheduler w)) = true -> step (ManualScan video) w = w.
Proof.
  intros Hbusy. cbn [step]. unfold triggerManualCapture.
  destruct (truthy _) as [img|]; [|apply world_eta].
  rewrite handleImageCapture_busy by exact Hbusy. apply world_eta.
Qed.

(** What a tick of the current render's [processFrame] does to the
    scheduler while it is analysing: nothing, unless the frame is ready,
    the system is on and no motion is found. *)
Lemma tick_busy (w : World) (video : option Video) (now : Z) :
  isAnalyzing (app (scheduler w)) = true ->
  scheduler (tick video now w)
  = if (isActive (app (scheduler w)) && frameReady video
        && negb (fst (checkForMotion defaultMotionSensitivity video
                        (camera w))))%bool
    then onApp (handleNoMotion (render (app (scheduler w))) now) (scheduler w)
    else scheduler w.
Proof.
  intros Hbusy. unfold tick. cbn [step]. unfold processFrame.
  cbn [render seesActive]. destruct (isActive (app (scheduler w)));
    cbn [negb andb]; [|reflexivity].
  destruct video as [v|]; [|reflexivity]. unfold frameReady.
  destruct (videoWidth v =? 0)%Z; [reflexivity|].
  destruct (videoHeight v =? 0)%Z; [reflexivity|].
  destruct (context2d v) eqn:Hctx; [|reflexivity]. cbn [negb orb andb].
  destruct (checkForMotion _ _ _) as [[|] c]; cbn [fst negb scheduler].
  - destruct (truthy _); [|reflexivity].
    apply handleImageCapture_busy. exact Hbusy.
  - reflexivity.
Qed.

Lemma counted_handleImageCapture (w : World) (img : string) (c : State) :
  counted w ->
  counted {| scheduler := handleImageCapture (render (app (scheduler w))) img
                            (scheduler w);
             camera := c |}.
Proof.
  unfold counted, handleImageCapture. cbn [scheduler render seesAnalyzing].
  destruct (isAnalyzing (app (scheduler w))) eqn:Hbusy; intros Hw.
  - now rewrite Hbusy.
  - cbn [app inFlight isAnalyzing setIsAnalyzing].
    rewrite length_app, Hw. reflexivity.
Qed.

Lemma counted_step (e : Event) (w : World) :
  current e w -> counted w -> counted (step e w).
Proof.
  destruct e as [now | | granted | h video now | video | i ai tc now];
    cbn [current step]; intros Hcur Hw.
  - unfold counted in *. cbn [scheduler onApp app inFlight].
    unfold toggleSystem. now destruct (isActive (app (scheduler w))).
  - exact Hw.
  - exact Hw.
  - subst h. unfold processFrame. cbn [render seesActive].
    destruct (negb (isActive _)); [now rewrite world_eta|].
    destruct video as [v|]; [|now rewrite world_eta].
    destruct (_ || _)%bool; [now rewrite world_eta|].
    destruct (negb (context2d v)); [now rewrite world_eta|].
    destruct (checkForMotion _ _ _) as [[|] c].
    + destruct (truthy _) as [img|]; [|exact Hw].
      now apply counted_handleImageCapture.
    + exact Hw.
  - unfold triggerManualCapture.
    destruct (truthy _) as [img|]; [|now rewrite world_eta].
    now apply counted_handleImageCapture.
  - unfold counted in *. cbn [scheduler]. unfold callSettles.
    destruct (nth_error (inFlight (scheduler w)) i) as [p|] eqn:Hp;
      [|exact Hw].
    cbn [app inFlight].
    destruct (inFlight (scheduler w)) as [|q [|q' l]];
      destruct (isAnalyzing (app (scheduler w))); try discriminate.
    + destruct i; discriminate.
    + destruct i as [|[|i]]; try discriminate.
      destruct (settled_event (awaitedBy p)
                  (analyzeImageForPerson ai (image p) tc) now
                  (app (scheduler w))
                  (analyze_throws_only_quota ai (image p) tc))
        as (_ & _ & H3 & _).
      rewrite H3. reflexivity.
Qed.

Lemma counted_run (es : list Event) (w : World) :
  currentRun es w -> counted w -> counted (run es w).
Proof.
  revert w. induction es as [|e es IH]; intros w Hrun Hw; [exact Hw|].
  destruct Hrun as [Hcur Hrun]. cbn [run fold_left].
  apply IH; [exact Hrun | now apply counted_step].
Qed.

(** What a tick does to the scheduler when its callbacks were rendered
    while the scheduler was analysing, whichever render that was. *)
Lemma tick_sees_busy (h : Handler) (w : World) (video : option Video)
    (now : Z) :
  seesAnalyzing h = true ->
  scheduler (step (Tick h video now) w)
  = if (seesActive h && frameReady video
        && negb (fst (checkForMotion defaultMotionSensitivity video
                        (camera w))))%bool
    then onApp (handleNoMotion h now) (scheduler w)
    else scheduler w.
Proof.
  intros Hbusy. cbn [step]. unfold processFrame.
  destruct (seesActive h); cbn [negb andb]; [|reflexivity].
  destruct video as [v|]; [|reflexivity]. unfold frameReady.
  destruct (videoWidth v =? 0)%Z; [reflexivity|].
  destruct (videoHeight v =? 0)%Z; [reflexivity|].
  destruct (context2d v) eqn:Hctx; [|reflexivity]. cbn [negb orb andb].
  destruct (checkForMotion _ _ _) as [[|] c]; cbn [fst negb scheduler].
  - destruct (truthy _); [|reflexivity].
    apply handleImageCapture_busy. exact Hbusy.
  - reflexivity.
Qed.

(** C7, as the code has it.  A capture handler that sees the busy flag
    set returns at once: no call, no event, no change of state, nothing
    kept for later.  The scan button runs the handler of the current
    render, so while the scheduler is analysing a manual scan changes
    nothing at all.  A tick whose callbacks see the busy flag set never
    puts a call in flight and leaves the busy flag and the interval as
    they are; when it finds motion it leaves the scheduler as it was.
    The guard is not in front of [handleNoMotion]: such a tick on a ready
    frame that finds no motion shows and logs a [STATIC_SCENE] result. *)
Theorem C7_busy_guard :
  (forall (h : Handler) (img : string) (w : Scheduler),
      seesAnalyzing h = true -> handleImageCapture h img w = w)
  /\ (forall (w : World) (video : option Video),
         isAnalyzing (app (scheduler w)) = true ->
         step (ManualScan video) w = w)
  /\ (forall (h : Handler) (w : World) (video : option Video) (now : Z),
         seesAnalyzing h = true ->
         inFlight (scheduler (step (Tick h video now) w))
         = inFlight (scheduler w)
         /\ isAnalyzing (app (scheduler (step (Tick h video now) w)))
            = isAnalyzing (app (scheduler w))
         /\ currentInterval (app (scheduler (step (Tick h video now) w)))
            = currentInterval (app (scheduler w))
         /\ (fst (checkForMotion defaultMotionSensitivity video (camera w))
             = true ->
             scheduler (step (Tick h video now) w) = scheduler w)
         /\ (seesActive h = true -> frameReady video = true ->
             fst (checkForMotion defaultMotionSensitivity video (camera w))
             = false ->
             lastResult (app (scheduler (step (Tick h video now) w)))
             = Some (staticSceneResult now)
             /\ history (app (scheduler (step (Tick h video now) w)))
                = firstn 5 (staticSceneResult now
                              :: history (app (scheduler w))))).
Proof.
  split; [exact handleImageCapture_busy|].
  split; [exact manual_scan_busy|].
  intros h w video now Hbusy. rewrite (tick_sees_busy h w video now Hbusy).
  split; [|split; [|split; [|split]]].
  - destruct (_ && _)%bool; reflexivity.
  - destruct (_ && _)%bool; reflexivity.
  - destruct (_ && _)%bool; reflexivity.
  - intros ->. now rewrite andb_false_r.
  - intros -> -> ->. split; reflexivity.
Qed.

Lemma analysing_world :
  Scenario.analysing
  = {| scheduler :=
         {| app := App.mkState true true None [] true 30000 30000 0 0;
            inFlight := [mkPending (mkHandler true false 30000 true)
                           (dataURL (Scenario.frame 0))] |};
       camera := WebcamCapture.mkState (Some (scaled (Scenario.frame 0)))
                   0 true None |}.
Proof. vm_compute. reflexivity. Qed.

Lemma quiet_frame :
  fst (checkForMotion defaultMotionSensitivity (Some (Scenario.frame 0))
         (camera Scenario.analysing)) = false.
Proof.
  rewrite analysing_world. cbn [camera].
  rewrite (checkForMotion_diff defaultMotionSensitivity (Scenario.frame 0)
             (scaled (Scenario.frame 0))
             (WebcamCapture.mkState (Some (scaled (Scenario.frame 0)))
                0 true None)
             eq_refl eq_refl (repeat_length _ _) (repeat_length _ _)).
  cbn [fst]. rewrite changedPixelCount_same. vm_compute. reflexivity.
Qed.

Lemma C7_witness :
  lastResult (app (scheduler Scenario.quietTick))
  = Some (staticSceneResult 2000)
  /\ history (app (scheduler Scenario.quietTick))
     = firstn 5 (staticSceneResult 2000
                   :: history (app (scheduler Scenario.analysing))).
Proof.
  assert (Hbusy : seesAnalyzing (render (app (scheduler Scenario.analysing)))
                  = true)
    by (rewrite analysing_world; reflexivity).
  assert (Hact : seesActive (render (app (scheduler Scenario.analysing)))
                 = true)
    by (rewrite analysing_world; reflexivity).
  destruct (proj2 (proj2 C7_busy_guard)
              (render (app (scheduler Scenario.analysing)))
              Scenario.analysing (Some (Scenario.frame 0)) 2000 Hbusy)
    as (_ & _ & _ & _ & Hstill).
  exact (Hstill Hact eq_refl quiet_frame).
Defined.

End BusyGuard.

(** * Further properties *)

Import Facts.

(** ** The motion gate *)

Section MotionGate.

Import WebcamCapture Sentinel.
Local Open Scope string_scope.

(** A check with a drawing context always leaves the current sample as
    the previous one. *)
Lemma checkForMotion_keeps_sample (s : float) (v : Video) (c : State) :
  context2d v = true ->
  prevFrameData (snd (checkForMotion s (Some v) c)) = Some (scaled v).
Proof.
  intros Hctx. unfold checkForMotion. rewrite Hctx. cbn [negb].
  destruct (prevFrameData c) as [prev|]; [|reflexivity].
  destruct (diffLoop _ _ _ _ _ _) as [totalDiff changedPixels]. reflexivity.
Qed.

Lemma tick_ready (h : Handler) (v : Video) (now : Z) (w : World) :
  seesActive h = true -> frameReady (Some v) = true -> dataURL v <> "" ->
  step (Tick h (Some v) now) w
  = {| scheduler :=
         if fst (checkForMotion defaultMotionSensitivity (Some v) (camera w))
         then handleImageCapture h (dataURL v) (scheduler w)
         else onApp (handleNoMotion h now) (scheduler w);
       camera :=
         snd (checkForMotion defaultMotionSensitivity (Some v) (camera w)) |}.
Proof.
  intros Hact Hready Hurl. unfold frameReady in Hready.
  apply andb_prop in Hready as [Hready Hctx].
  apply andb_prop in Hready as [Hw Hh].
  apply negb_true_iff in Hw, Hh.
  cbn [step]. unfold processFrame. rewrite Hact, Hw, Hh, Hctx.
  cbn [negb orb].
  destruct (checkForMotion _ _ _) as [[|] c]; cbn [fst snd]; [|reflexivity].
  unfold captureCurrentFrame. rewrite Hw, Hctx. cbn [negb].
  now rewrite (truthy_nonempty _ Hurl).
Qed.

(** X1.  The motion gate, in pixels.  A tick of an active [processFrame]
    on a ready frame, with a previous sample, keeps the new sample and
    then: if 38 or more of the 2500 pixels have changed, it hands the
    capture to [handleImageCapture]; if fewer have, it starts no call and
    records a [STATIC_SCENE] result, with the interval, the busy flag and
    the alarm untouched. *)
Theorem X1_motion_gate
    (h : Handler) (v : Video) (prev : ImageData) (now : Z) (w : World) :
  seesActive h = true -> frameReady (Some v) = true -> dataURL v <> "" ->
  prevFrameData (camera w) = Some prev ->
  List.length (scaled v) = sampleBytes -> List.length prev = sampleBytes ->
  let k := changedPixelCount (scaled v) prev in
  let w' := step (Tick h (Some v) now) w in
  prevFrameData (camera w') = Some (scaled v)
  /\ ((38 <= k)%nat ->
      scheduler w' = handleImageCapture h (dataURL v) (scheduler w))
  /\ ((k < 38)%nat ->
      inFlight (scheduler w') = inFlight (scheduler w)
      /\ shows (app (scheduler w')) = Some STATIC_SCENE
      /\ history (app (scheduler w'))
         = firstn 5 (staticSceneResult now :: history (app (scheduler w)))
      /\ currentInterval (app (scheduler w'))
         = currentInterval (app (scheduler w))
      /\ isAnalyzing (app (scheduler w')) = isAnalyzing (app (scheduler w))
      /\ alarmCalls (app (scheduler w')) = alarmCalls (app (scheduler w))).
Proof.
  intros Hact Hready Hurl Hprev Hc Hp. cbv zeta.
  assert (Hctx : context2d v = true).
  { unfold frameReady in Hready. now apply andb_prop in Hready as [_ ?]. }
  rewrite (tick_ready h v now w Hact Hready Hurl). cbn [camera scheduler].
  split; [now apply checkForMotion_keeps_sample|].
  rewrite (checkForMotion_diff defaultMotionSensitivity v prev (camera w)
             Hctx Hprev Hc Hp). cbn [fst].
  rewrite (default_threshold _ (changedPixelCount_le (scaled v) prev)).
  split.
  - intros Hk. apply Nat.leb_le in Hk. now rewrite Hk.
  - intros Hk. apply Nat.leb_gt in Hk. rewrite Hk.
    repeat split.
Qed.

Lemma X1_witness :
  shows (app (scheduler (step (Tick (render (app (scheduler Scenario.started)))
                                    (Some (Scenario.frame 0)) 2000)
                              Scenario.analysing)))
  = Some STATIC_SCENE.
Proof.
  assert (Hlen : List.length (scaled (Scenario.frame 0)) = sampleBytes)
    by apply repeat_length.
  destruct (X1_motion_gate (render (app (scheduler Scenario.started)))
              (Scenario.frame 0) (scaled (Scenario.frame 0)) 2000
              Scenario.analysing eq_refl eq_refl ltac:(discriminate)
              eq_refl Hlen Hlen) as (_ & _ & Hstill).
  apply Hstill. rewrite changedPixelCount_same. repeat constructor.
Defined.

End MotionGate.

Section MotionEdges.

Import WebcamCapture Sentinel.
Local Open Scope string_scope.

(** X2.  A tick whose [processFrame] closed over an inactive system, or
    that finds no video element, a video of width or height 0, or no
    drawing context, changes nothing: no result is recorded, no call is
    started, and the previous sample stays. *)
Theorem X2_tick_skipped
    (h : Handler) (video : option Video) (now : Z) (w : World) :
  seesActive h = false \/ frameReady video = false ->
  step (Tick h video now) w = w.
Proof.
  intros Hskip. cbn [step]. unfold processFrame.
  destruct (seesActive h); cbn [negb]; [|apply world_eta].
  destruct Hskip as [Hskip | Hskip]; [discriminate|].
  destruct video as [v|]; [|apply world_eta].
  unfold frameReady in Hskip.
  destruct (videoWidth v =? 0)%Z; [apply world_eta|].
  destruct (videoHeight v =? 0)%Z; [apply world_eta|].
  cbn [negb andb orb] in *. rewrite Hskip. apply world_eta.
Qed.

Lemma X2_witness :
  step (Tick (render (app (scheduler Scenario.started)))
             (Some (mkVideo 0 0 true [] "data:,")) 1000) Scenario.started
  = Scenario.started.
Proof.
  apply X2_tick_skipped. right. reflexivity.
Defined.

(** X3.  Whatever the previous sample was, after a check on a frame a
    second check on the same frame finds a motion level of 0 and, at every
    sensitivity setting from 0 to 100, no motion. *)
Theorem X3_repeated_frame
    (s : float) (n : nat) (v : Video) (c : State) :
  context2d v = true -> List.length (scaled v) = sampleBytes ->
  (n <= 100)%nat ->
  let c1 := snd (checkForMotion s (Some v) c) in
  fst (checkForMotion (setting n) (Some v) c1) = false
  /\ motionLevel (snd (checkForMotion (setting n) (Some v) c1)) = 0%float
  /\ prevFrameData (snd (checkForMotion (setting n) (Some v) c1))
     = Some (scaled v).
Proof.
  intros Hctx Hlen Hn. cbv zeta.
  pose proof (checkForMotion_keeps_sample s v c Hctx) as Hkept.
  rewrite (checkForMotion_diff (setting n) v (scaled v) _ Hctx Hkept Hlen Hlen).
  rewrite changedPixelCount_same.
  cbn [fst snd motionLevel setMotionLevel prevFrameData setPrevFrameData].
  split; [now apply zero_level_is_still|].
  split; [vm_compute; reflexivity | reflexivity].
Qed.

Lemma X3_witness :
  fst (checkForMotion (setting 15) (Some (Scenario.frame 7))
         (snd (checkForMotion defaultMotionSensitivity
                 (Some (Scenario.frame 7)) (camera Scenario.analysing))))
  = false.
Proof.
  apply (X3_repeated_frame defaultMotionSensitivity 15 (Scenario.frame 7)
           (camera Scenario.analysing) eq_refl (repeat_length _ _)).
  repeat constructor.
Defined.

(** The decision at every setting and every count: there is motion when
    the share of changed pixels is above a tenth of the setting, and also
    when it is equal to it at one of nine settings. *)
Lemma threshold_table :
  let counts := map Z.of_nat (seq 0 (S gridPixels)) in
  forallb
    (fun n =>
       forallb
         (fun k =>
            Bool.eqb (number n / 10 <? number k / 2500 * 100)%float
                     ((5 * n <? 2 * k)%Z
                      || ((5 * n =? 2 * k)%Z && roundedDown (Z.to_nat n))))
         counts)
    (map Z.of_nat (seq 0 101)) = true.
Proof. vm_compute. reflexivity. Qed.

Lemma threshold_exact (n k : nat) :
  (n <= 100)%nat -> (k <= gridPixels)%nat ->
  (setting n / 10 <? percentage k)%float = true
  <-> (5 * n < 2 * k)%nat \/ ((5 * n = 2 * k)%nat /\ roundedDown n = true).
Proof.
  intros Hn Hk.
  pose proof threshold_table as Htable. cbv zeta in Htable.
  pose proof (proj1 (forallb_forall _ _) Htable (Z.of_nat n)) as Hrow.
  cbv beta in Hrow.
  assert (Hin : In (Z.of_nat n) (map Z.of_nat (seq 0 101))).
  { apply in_map, in_seq. lia. }
  pose proof (proj1 (forallb_forall _ _) (Hrow Hin) (Z.of_nat k)) as Hcell.
  cbv beta in Hcell.
  assert (Hin' : In (Z.of_nat k) (map Z.of_nat (seq 0 (S gridPixels)))).
  { apply in_map, in_seq. lia. }
  apply Hcell, eqb_prop in Hin'. rewrite Nat2Z.id in Hin'.
  unfold setting, percentage. rewrite Hin'.
  rewrite orb_true_iff, andb_true_iff, Z.ltb_lt, Z.eqb_eq.
  split; (intros [Hlt | [Heq Hr]];
          [left; lia | right; split; [lia | exact Hr]]).
Qed.

(** X4.  At the sensitivity setting [n], from 0 to 100, a check with a
    previous sample finds motion exactly when the changed pixels are more
    than [n]/10 per cent of the 2500, or exactly [n]/10 per cent at the
    settings 14, 28, 34, 56, 58, 66, 68, 70 and 82, where the rounding of
    the two divisions lets equality pass.  So a lower setting is never
    less sensitive: what is motion at a setting is motion at every lower
    one. *)
Theorem X4_sensitivity_settings
    (n : nat) (v : Video) (prev : ImageData) (c : State) :
  (n <= 100)%nat ->
  context2d v = true -> prevFrameData c = Some prev ->
  List.length (scaled v) = sampleBytes -> List.length prev = sampleBytes ->
  let k := changedPixelCount (scaled v) prev in
  (fst (checkForMotion (setting n) (Some v) c) = true
   <-> (5 * n < 2 * k)%nat \/ ((5 * n = 2 * k)%nat /\ roundedDown n = true))
  /\ (forall m : nat,
         (m <= n)%nat ->
         fst (checkForMotion (setting n) (Some v) c) = true ->
         fst (checkForMotion (setting m) (Some v) c) = true).
Proof.
  intros Hn Hctx Hprev Hc Hp. cbv zeta.
  pose proof (changedPixelCount_le (scaled v) prev) as Hk.
  assert (Hiff : forall j : nat,
             (j <= 100)%nat ->
             fst (checkForMotion (setting j) (Some v) c) = true
             <-> (5 * j < 2 * changedPixelCount (scaled v) prev)%nat
                 \/ ((5 * j = 2 * changedPixelCount (scaled v) prev)%nat
                     /\ roundedDown j = true)).
  { intros j Hj.
    rewrite (checkForMotion_diff (setting j) v prev c Hctx Hprev Hc Hp).
    cbn [fst]. exact (threshold_exact j _ Hj Hk). }
  split; [now apply Hiff|].
  intros m Hm Hmotion. apply Hiff in Hmotion; [|exact Hn].
  apply Hiff; [lia|].
  destruct (Nat.eq_dec m n) as [-> | Hne]; [exact Hmotion|].
  left. destruct Hmotion as [Hlt | [Heq _]]; lia.
Qed.

Lemma X4_witness :
  fst (checkForMotion (setting 14) (Some (Scenario.frame 0))
         (setPrevFrameData (Some (scaled (Scenario.frame 0)))
            WebcamCapture.initial))
  = true
  <-> (5 * 14 < 2 * changedPixelCount (scaled (Scenario.frame 0))
                                      (scaled (Scenario.frame 0)))%nat
      \/ ((5 * 14 = 2 * changedPixelCount (scaled (Scenario.frame 0))
                                          (scaled (Scenario.frame 0)))%nat
          /\ roundedDown 14 = true).
Proof.
  apply (X4_sensitivity_settings 14 (Scenario.frame 0)
           (scaled (Scenario.frame 0))
           (setPrevFrameData (Some (scaled (Scenario.frame 0)))
              WebcamCapture.initial)).
  - repeat constructor.
  - reflexivity.
  - reflexivity.
  - apply repeat_length.
  - apply repeat_length.
Defined.

End MotionEdges.

(** ** Invariants of every run *)

Section RunInvariants.

Import Sentinel.
Local Open Scope string_scope.

(** What a tick can do to the scheduler. *)
Lemma tick_scheduler (h : Handler) (video : option WebcamCapture.Video)
    (now : Z) (w : World) :
  scheduler (step (Tick h video now) w) = scheduler w
  \/ scheduler (step (Tick h video now) w)
     = onApp (handleNoMotion h now) (scheduler w)
  \/ (exists img, scheduler (step (Tick h video now) w)
                  = handleImageCapture h img (scheduler w)).
Proof.
  cbn [step]. unfold WebcamCapture.processFrame.
  destruct (negb (seesActive h)); [now left|].
  destruct video as [v|]; [|now left].
  destruct (_ || _)%bool; [now left|].
  destruct (negb (WebcamCapture.context2d v)); [now left|].
  destruct (WebcamCapture.checkForMotion _ _ _) as [[|] c]; cbn [scheduler].
  - destruct (WebcamCapture.truthy _) as [img|]; [|now left].
    right. right. now exists img.
  - right. now left.
Qed.

Lemma manual_scheduler (video : option WebcamCapture.Video) (w : World) :
  scheduler (step (ManualScan video) w) = scheduler w
  \/ (exists img, scheduler (step (ManualScan video) w)
                  = handleImageCapture (render (app (scheduler w))) img
                      (scheduler w)).
Proof.
  cbn [step scheduler]. unfold WebcamCapture.triggerManualCapture.
  destruct (WebcamCapture.truthy _) as [img|]; [|now left].
  right. now exists img.
Qed.

(** What an event can do to the scheduler. *)
Lemma step_scheduler (e : Event) (w : World) :
  scheduler (step e w) = scheduler w
  \/ (exists now, scheduler (step e w)
                  = onApp (toggleSystem now) (scheduler w))
  \/ scheduler (step e w)
     = onApp (fun s => setIsSoundEnabled (negb (isSoundEnabled s)) s)
             (scheduler w)
  \/ (exists h now, scheduler (step e w)
                    = onApp (handleNoMotion h now) (scheduler w))
  \/ (exists h img, scheduler (step e w)
                    = handleImageCapture h img (scheduler w))
  \/ (exists i ai tc now, scheduler (step e w)
                          = callSettles i ai tc now (scheduler w)).
Proof.
  destruct e as [now | | granted | h video now | video | i ai tc now].
  - right. left. now exists now.
  - right. right. now left.
  - now left.
  - destruct (tick_scheduler h video now w) as [H | [H | [img H]]].
    + now left.
    + do 3 right. left. now exists h, now.
    + do 4 right. left. now exists h, img.
  - destruct (manual_scheduler video w) as [H | [img H]].
    + now left.
    + do 4 right. left. now exists (render (app (scheduler w))), img.
  - do 5 right. now exists i, ai, tc, now.
Qed.

(** An invariant of the scheduler that the five operations keep holds in
    every state of every run, whichever callbacks the ticks carry. *)
Lemma run_invariant (P : Scheduler -> Prop) :
  (forall now w, P w -> P (onApp (toggleSystem now) w)) ->
  (forall w, P w ->
             P (onApp (fun s => setIsSoundEnabled (negb (isSoundEnabled s)) s)
                      w)) ->
  (forall h now w, P w -> P (onApp (handleNoMotion h now) w)) ->
  (forall h img w, P w -> P (handleImageCapture h img w)) ->
  (forall i ai tc now w, P w -> P (callSettles i ai tc now w)) ->
  forall (es : list Event) (w : World),
    P (scheduler w) -> P (scheduler (run es w)).
Proof.
  intros Htoggle Hsound Hstill Hcapture Hsettle es.
  induction es as [|e es IH]; intros w Hw; [exact Hw|].
  cbn [run fold_left]. apply IH.
  destruct (step_scheduler e w)
    as [-> | [[now ->] | [-> | [(h & now & ->) | [(h & img & ->)
                                                 | (i & ai & tc & now & ->)]]]]];
    auto.
Qed.

Lemma callSettles_found (i : nat) (p : Pending) (ai : Client) (tc now : Z)
    (w : Scheduler) :
  nth_error (inFlight w) i = Some p ->
  callSettles i ai tc now w
  = {| app := handleImageCapture_resume (awaitedBy p)
                (analyzeImageForPerson ai (image p) tc) now (app w);
       inFlight := dropNth i (inFlight w) |}.
Proof. intros Hp. unfold callSettles. now rewrite Hp. Qed.

Lemma callSettles_missing (i : nat) (ai : Client) (tc now : Z)
    (w : Scheduler) :
  nth_error (inFlight w) i = None -> callSettles i ai tc now w = w.
Proof. intros Hp. unfold callSettles. now rewrite Hp. Qed.

Lemma length_dropNth {A : Type} (l : list A) (i : nat) (x : A) :
  nth_error l i = Some x ->
  List.length (dropNth i l) = Nat.pred (List.length l).
Proof.
  unfold dropNth. revert i. induction l as [|y l IH]; intros i Hx.
  - destruct i; discriminate.
  - destruct i as [|i]; [reflexivity|].
    cbn [nth_error] in Hx. specialize (IH i Hx).
    change (S (List.length (firstn i l ++ skipn (S i) l))
            = List.length l).
    rewrite IH. destruct l; [destruct i; discriminate|reflexivity].
Qed.

(** X5.  In every state of every run, whichever callbacks the ticks
    carry, a set busy flag means that a call is outstanding; and when any
    outstanding call settles, whatever its outcome, the busy flag is
    cleared.  The flag cannot stay set with nothing left to clear it. *)
Theorem X5_busy_flag_is_released :
  (forall (es : list Event) (t0 : Z),
      isAnalyzing (app (scheduler (run es (Sentinel.initial t0)))) = true ->
      inFlight (scheduler (run es (Sentinel.initial t0))) <> [])
  /\ (forall (w : World) (i : nat) (p : Pending) (ai : Client) (tc now : Z),
         nth_error (inFlight (scheduler w)) i = Some p ->
         isAnalyzing (app (scheduler (step (Settles i ai tc now) w))) = false
         /\ List.length (inFlight (scheduler (step (Settles i ai tc now) w)))
            = Nat.pred (List.length (inFlight (scheduler w)))).
Proof.
  split.
  - intros es t0.
    apply (run_invariant busyMeansInFlight); unfold busyMeansInFlight.
    + intros now w Hw. cbn [onApp app inFlight]. intros Hbusy. apply Hw.
      revert Hbusy. unfold toggleSystem. now destruct (isActive (app w)).
    + intros w Hw. exact Hw.
    + intros h now w Hw. exact Hw.
    + intros h img w Hw. unfold handleImageCapture.
      destruct (seesAnalyzing h); [exact Hw|]. cbn [inFlight]. intros _.
      now destruct (inFlight w).
    + intros i ai tc now w Hw.
      destruct (nth_error (inFlight w) i) as [p|] eqn:Hp.
      * rewrite (callSettles_found i p ai tc now w Hp). cbn [app].
        unfold handleImageCapture_resume. cbn. discriminate.
      * now rewrite (callSettles_missing i ai tc now w Hp).
    + cbn. discriminate.
  - intros w i p ai tc now Hp. cbn [step scheduler].
    rewrite (callSettles_found i p ai tc now _ Hp). cbn [app inFlight].
    split; [reflexivity|]. now apply (length_dropNth _ i p).
Qed.

Lemma X5_witness :
  isAnalyzing
    (app (scheduler (step (Settles 0 Scenario.offline 5000 5000)
                          Scenario.analysing))) = false
  /\ List.length
       (inFlight (scheduler (step (Settles 0 Scenario.offline 5000 5000)
                                  Scenario.analysing)))
     = Nat.pred (List.length (inFlight (scheduler Scenario.analysing))).
Proof.
  apply (proj2 X5_busy_flag_is_released Scenario.analysing 0%nat
           (mkPending (render (app (scheduler Scenario.started)))
                      (WebcamCapture.dataURL (Scenario.frame 0)))).
  reflexivity.
Defined.

End RunInvariants.

Section ShownAndLogged.

Import Sentinel.
Local Open Scope string_scope.

Lemma run_newestShown (es : list Event) (t0 : Z) :
  newestShown (app (scheduler (run es (Sentinel.initial t0)))).
Proof.
  apply (run_invariant (fun w => newestShown (app w))); unfold newestShown.
  - intros now w Hw. cbn [onApp app]. unfold toggleSystem.
    destruct (isActive (app w)); [reflexivity | exact Hw].
  - intros w Hw. exact Hw.
  - intros h now w Hw. reflexivity.
  - intros h img w Hw. unfold handleImageCapture.
    destruct (seesAnalyzing h); exact Hw.
  - intros i ai tc now w Hw.
    destruct (nth_error (inFlight w) i) as [p|] eqn:Hp.
    + rewrite (callSettles_found i p ai tc now w Hp). cbn [app].
      destruct (settled_event (awaitedBy p)
                  (analyzeImageForPerson ai (image p) tc) now (app w)
                  (analyze_throws_only_quota ai (image p) tc))
        as (H1 & H2 & _).
      rewrite H1, H2. reflexivity.
    + now rewrite (callSettles_missing i ai tc now w Hp).
  - reflexivity.
Qed.

(** X6.  In every state of every run the last result is the newest entry
    of the history, and there is no last result exactly when the history
    is empty: the status panel and the top of the log never disagree. *)
Theorem X6_last_result_is_newest (es : list Event) (t0 : Z) :
  lastResult (app (scheduler (run es (Sentinel.initial t0))))
  = hd_error (history (app (scheduler (run es (Sentinel.initial t0)))))
  /\ (lastResult (app (scheduler (run es (Sentinel.initial t0)))) = None
      <-> history (app (scheduler (run es (Sentinel.initial t0)))) = []).
Proof.
  pose proof (run_newestShown es t0) as H. unfold newestShown in H.
  split; [exact H|]. rewrite H.
  destruct (history _); split; try reflexivity; discriminate.
Qed.

Lemma analyze_produced (ai : Client) (img : string) (tc : Z)
    (r : AnalysisResult) :
  analyzeImageForPerson ai img tc = Returned r -> produced r.
Proof.
  unfold analyzeImageForPerson, tryAnalyze.
  destruct (ai (cleanBase64 img)) as [m | | m | a].
  - destruct (isQuotaMessage m); [discriminate|].
    intros [= <-]. right. left. now exists tc.
  - cbn. intros [= <-]. right. left. now exists tc.
  - destruct (isQuotaMessage m); [discriminate|].
    intros [= <-]. right. left. now exists tc.
  - intros Hr. left. exists a, tc. exact Hr.
Qed.

(** What the four origins have in common. *)
Lemma produced_shape (r : AnalysisResult) :
  produced r ->
  message r <> "Erro no Sensor"
  /\ (confidence r <> None
      <-> status r = PERSON_DETECTED \/ status r = NO_PERSON)
  /\ (status r = ERROR -> r = sensorFailure (timestamp r))
  /\ description r <> None.
Proof.
  intros [(a & t & Hr) | [[t ->] | [[t ->] | [t ->]]]].
  - unfold analyzeImageForPerson, tryAnalyze in Hr. injection Hr as <-.
    destruct (personDetected a), (45 <? answerConfidence a)%float; cbn;
      (split; [discriminate|]); (split; [|split; discriminate]);
      (split; [intros _; auto | discriminate]).
  - cbn. split; [discriminate|]. split; [|split; [reflexivity|discriminate]].
    split; [congruence | intros [H | H]; discriminate].
  - cbn. split; [discriminate|]. split; [|split; discriminate].
    split; [congruence | intros [H | H]; discriminate].
  - cbn. split; [discriminate|]. split; [|split; discriminate].
    split; [congruence | intros [H | H]; discriminate].
Qed.

Lemma firstn_subset {A : Type} (n : nat) (l : list A) (x : A) :
  In x (firstn n l) -> In x l.
Proof.
  revert l. induction n as [|n IH]; intros [|y l]; cbn; try tauto.
  intros [-> | Hin]; [now left | right; now apply IH].
Qed.

Lemma allProduced_add (r : AnalysisResult) (s s' : State) :
  produced r -> allProduced s ->
  lastResult s' = Some r -> history s' = firstn 5 (r :: history s) ->
  allProduced s'.
Proof.
  intros Hr [_ Hh] Hlast Hhist. split.
  - intros r' Hr'. rewrite Hlast in Hr'. now injection Hr' as <-.
  - intros r' Hin. rewrite Hhist in Hin. apply firstn_subset in Hin.
    destruct Hin as [<- | Hin]; [exact Hr | now apply Hh].
Qed.

Lemma run_allProduced (es : list Event) (t0 : Z) :
  allProduced (app (scheduler (run es (Sentinel.initial t0)))).
Proof.
  apply (run_invariant (fun w => allProduced (app w))).
  - intros now w Hw. cbn [onApp app]. unfold toggleSystem.
    destruct (isActive (app w)); [|exact Hw].
    split; [discriminate | intros r' []].
  - intros w Hw. exact Hw.
  - intros h now w Hw. cbn [onApp app].
    apply (allProduced_add (staticSceneResult now) (app w)); try reflexivity;
      [|exact Hw].
    do 3 right. now exists now.
  - intros h img w Hw. unfold handleImageCapture.
    destruct (seesAnalyzing h); exact Hw.
  - intros i ai tc now w Hw.
    destruct (nth_error (inFlight w) i) as [p|] eqn:Hp.
    + rewrite (callSettles_found i p ai tc now w Hp). cbn [app].
      destruct (settled_event (awaitedBy p)
                  (analyzeImageForPerson ai (image p) tc) now (app w)
                  (analyze_throws_only_quota ai (image p) tc))
        as (H1 & H2 & _).
      refine (allProduced_add _ (app w) _ _ Hw H1 H2).
      destruct (analyzeImageForPerson ai (image p) tc) as [r' | msg] eqn:Ho.
      * now apply (analyze_produced ai (image p) tc).
      * right. right. left. now exists now.
    + now rewrite (callSettles_missing i ai tc now w Hp).
  - split; [discriminate | intros r' []].
Qed.

(** X7.  Every result that is shown or logged in any state of any run is
    an answer of the model, the client's failure result, a cooldown or a
    still scene.  So none is the scheduler's own error result: the branch
    of [handleImageCapture] for errors other than the quota never runs.
    A result carries a confidence exactly when its status is
    [PERSON_DETECTED] or [NO_PERSON], and every [ERROR] result is the
    client's. *)
Theorem X7_results_shown_and_logged
    (es : list Event) (t0 : Z) (r : AnalysisResult) :
  lastResult (app (scheduler (run es (Sentinel.initial t0)))) = Some r
  \/ In r (history (app (scheduler (run es (Sentinel.initial t0))))) ->
  produced r
  /\ message r <> "Erro no Sensor"
  /\ (confidence r <> None
      <-> status r = PERSON_DETECTED \/ status r = NO_PERSON)
  /\ (status r = ERROR -> r = sensorFailure (timestamp r)).
Proof.
  intros Hr. pose proof (run_allProduced es t0) as Hall.
  assert (Hp : produced r).
  { destruct Hr as [Hr | Hr]; [now apply (proj1 Hall) | now apply (proj2 Hall)]. }
  destruct (produced_shape r Hp) as (H1 & H2 & H3 & _).
  repeat split; try assumption; apply H2.
Qed.

Lemma X7_witness :
  produced (cooldownResult 2000)
  /\ message (cooldownResult 2000) <> "Erro no Sensor"
  /\ (confidence (cooldownResult 2000) <> None
      <-> status (cooldownResult 2000) = PERSON_DETECTED
          \/ status (cooldownResult 2000) = NO_PERSON)
  /\ (status (cooldownResult 2000) = ERROR
      -> cooldownResult 2000 = sensorFailure (timestamp (cooldownResult 2000))).
Proof.
  apply (X7_results_shown_and_logged
           [Toggle 0; CameraStarts true;
            Tick (mkHandler true false 30000 true)
                 (Some (Scenario.frame 0)) 1000;
            Settles 0 Scenario.rateLimited 2000 2000] 0).
  left. vm_compute. reflexivity.
Defined.

End ShownAndLogged.

Section Alarm.

Import Sentinel.
Local Open Scope string_scope.

Lemma resume_alarm (h : Handler) (o : Completion AnalysisResult) (now : Z)
    (s : State) :
  let rings := match o with
               | Returned r => status_eqb (status r) PERSON_DETECTED
               | Thrown _ => false
               end in
  alarmCalls (handleImageCapture_resume h o now s)
  = (if rings then S (alarmCalls s) else alarmCalls s)
  /\ sirens (handleImageCapture_resume h o now s)
     = (if (rings && seesSound h)%bool then S (sirens s) else sirens s).
Proof.
  unfold handleImageCapture_resume, playAlarmSound. destruct o as [r | msg].
  - destruct (status_eqb (status r) PERSON_DETECTED), (seesSound h);
      split; reflexivity.
  - destruct (String.eqb msg "QUOTA_EXCEEDED"); split; reflexivity.
Qed.

Lemma detects_reliable (ai : Client) (p : Pending) (tc : Z) :
  detects ai p tc = true
  <-> exists a, ai (cleanBase64 (image p)) = Answer a /\ reliable a.
Proof.
  unfold detects, analyzeImageForPerson, tryAnalyze, reliable.
  destruct (ai (cleanBase64 (image p))) as [m | | m | a].
  - split; [|intros (a & H & _); discriminate].
    destruct (isQuotaMessage m); discriminate.
  - split; [discriminate | intros (a & H & _); discriminate].
  - split; [|intros (a & H & _); discriminate].
    destruct (isQuotaMessage m); discriminate.
  - split.
    + intros H. exists a. split; [reflexivity|].
      destruct (personDetected a), (45 <? answerConfidence a)%float;
        cbn in H; try discriminate H; split; reflexivity.
    + intros (a' & Heq & Hp & Hc). injection Heq as <-.
      rewrite Hp, Hc. reflexivity.
Qed.

Lemma quiet_same (w w' : Scheduler) :
  w' = w ->
  alarmCalls (app w') = alarmCalls (app w) /\ sirens (app w') = sirens (app w).
Proof. now intros ->. Qed.

Lemma quiet_handleImageCapture (h : Handler) (img : string) (w : Scheduler) :
  alarmCalls (app (handleImageCapture h img w)) = alarmCalls (app w)
  /\ sirens (app (handleImageCapture h img w)) = sirens (app w).
Proof. unfold handleImageCapture. now destruct (seesAnalyzing h). Qed.

(** X8.  The alarm follows reliable detections only.  If an event changes
    the number of alarm calls or of sirens started, the event is the
    settling of an outstanding call that reports a person.  When an
    outstanding call settles, [playAlarmSound] is called once if the model
    answered with a person and a confidence above 45, and not otherwise;
    and the siren starts if in addition the sound was enabled in the
    render that started the call, whatever the sound switch says when the
    call settles. *)
Theorem X8_alarm_follows_detection :
  (forall (e : Event) (w : World),
      alarmCalls (app (scheduler (step e w))) <> alarmCalls (app (scheduler w))
      \/ sirens (app (scheduler (step e w))) <> sirens (app (scheduler w)) ->
      exists i ai tc now p,
        e = Settles i ai tc now
        /\ nth_error (inFlight (scheduler w)) i = Some p
        /\ detects ai p tc = true)
  /\ (forall (w : World) (i : nat) (p : Pending) (ai : Client) (tc now : Z),
         nth_error (inFlight (scheduler w)) i = Some p ->
         alarmCalls (app (scheduler (step (Settles i ai tc now) w)))
         = (if detects ai p tc then S (alarmCalls (app (scheduler w)))
            else alarmCalls (app (scheduler w)))
         /\ sirens (app (scheduler (step (Settles i ai tc now) w)))
            = (if (detects ai p tc && seesSound (awaitedBy p))%bool
               then S (sirens (app (scheduler w)))
               else sirens (app (scheduler w)))
         /\ (detects ai p tc = true
             <-> exists a, ai (cleanBase64 (image p)) = Answer a
                           /\ reliable a)).
Proof.
  assert (Hsettle :
            forall (w : World) (i : nat) (p : Pending) (ai : Client)
                   (tc now : Z),
              nth_error (inFlight (scheduler w)) i = Some p ->
              alarmCalls (app (scheduler (step (Settles i ai tc now) w)))
              = (if detects ai p tc then S (alarmCalls (app (scheduler w)))
                 else alarmCalls (app (scheduler w)))
              /\ sirens (app (scheduler (step (Settles i ai tc now) w)))
                 = (if (detects ai p tc && seesSound (awaitedBy p))%bool
                    then S (sirens (app (scheduler w)))
                    else sirens (app (scheduler w)))).
  { intros w i p ai tc now Hp. cbn [step scheduler].
    rewrite (callSettles_found i p ai tc now _ Hp). cbn [app].
    exact (resume_alarm (awaitedBy p)
             (analyzeImageForPerson ai (image p) tc) now (app (scheduler w))). }
  split.
  - intros e w Hchange.
    assert (Hquiet :
              (alarmCalls (app (scheduler (step e w)))
               = alarmCalls (app (scheduler w))
               /\ sirens (app (scheduler (step e w)))
                  = sirens (app (scheduler w))) ->
              exists i ai tc now p,
                e = Settles i ai tc now
                /\ nth_error (inFlight (scheduler w)) i = Some p
                /\ detects ai p tc = true).
    { intros [Ha Hs]. destruct Hchange as [H | H]; contradiction. }
    destruct e as [now | | granted | h video now | video | i ai tc now].
    + apply Hquiet. cbn [step scheduler onApp app]. unfold toggleSystem.
      now destruct (isActive (app (scheduler w))).
    + apply Hquiet. split; reflexivity.
    + apply Hquiet. split; reflexivity.
    + apply Hquiet.
      destruct (tick_scheduler h video now w) as [H | [H | [img H]]];
        rewrite H; [split; reflexivity | split; reflexivity |].
      apply quiet_handleImageCapture.
    + apply Hquiet.
      destruct (manual_scheduler video w) as [H | [img H]]; rewrite H;
        [split; reflexivity | apply quiet_handleImageCapture].
    + destruct (nth_error (inFlight (scheduler w)) i) as [p|] eqn:Hp.
      * exists i, ai, tc, now, p. split; [reflexivity|]. split; [exact Hp|].
        destruct (Hsettle w i p ai tc now Hp) as [Ha Hs].
        destruct (detects ai p tc); [reflexivity|].
        cbn [andb] in Hs. destruct Hchange as [H | H]; contradiction.
      * apply Hquiet. cbn [step scheduler].
        rewrite (callSettles_missing i ai tc now _ Hp). split; reflexivity.
  - intros w i p ai tc now Hp.
    destruct (Hsettle w i p ai tc now Hp) as [Ha Hs].
    split; [exact Ha|]. split; [exact Hs|]. apply detects_reliable.
Qed.

Lemma X8_witness :
  alarmCalls (app (scheduler
                     (step (Settles 0 (Scenario.answers true 90) 2000 2000)
                           (step ToggleSound Scenario.analysing))))
  = 1%nat
  /\ sirens (app (scheduler
                    (step (Settles 0 (Scenario.answers true 90) 2000 2000)
                          (step ToggleSound Scenario.analysing))))
     = 1%nat.
Proof.
  destruct (proj2 X8_alarm_follows_detection
              (step ToggleSound Scenario.analysing) 0%nat
              (mkPending (render (app (scheduler Scenario.started)))
                         (WebcamCapture.dataURL (Scenario.frame 0)))
              (Scenario.answers true 90) 2000 2000 eq_refl)
    as (Ha & Hs & _).
  split; [exact Ha | exact Hs].
Defined.

End Alarm.

(** ** The timers *)

Section TimerInvariants.

Import Sentinel Timers.
Local Open Scope string_scope.

Lemma level_default : level DEFAULT_INTERVAL.
Proof. now left. Qed.

Lemma level_doubled (ms : Z) : level ms -> level (Z.min (ms * 2) 300000).
Proof.
  unfold level. intros [-> | [-> | [-> | [-> | ->]]]]; cbn; tauto.
Qed.

Lemma level_bounds (ms : Z) : level ms -> 30000 <= ms <= 300000.
Proof. unfold level. lia. Qed.

Lemma resume_level (h : Handler) (o : Completion AnalysisResult) (now : Z)
    (s : State) :
  level (seesInterval h) -> level (currentInterval s) ->
  level (currentInterval (handleImageCapture_resume h o now s)).
Proof.
  intros Hh Hs. destruct o as [r | msg].
  - destruct (resume_returned h r now s) as (_ & _ & -> & _).
    apply level_default.
  - unfold handleImageCapture_resume.
    destruct (String.eqb msg "QUOTA_EXCEEDED"); cbn -[Z.min Z.mul].
    + now apply level_doubled.
    + exact Hs.
Qed.

Lemma Forall_dropNth {A : Type} (P : A -> Prop) (i : nat) (l : list A) :
  Forall P l -> Forall P (dropNth i l).
Proof.
  intros Hl. apply Forall_forall. intros x Hx.
  apply (proj1 (Forall_forall P l) Hl). unfold dropNth in Hx.
  apply in_app_or in Hx as [Hx | Hx]; [now apply (firstn_subset i)|].
  revert Hx. generalize (S i). intros n. revert l Hl.
  induction n as [|n IH]; intros l Hl Hx; [exact Hx|].
  destruct l as [|y l]; [destruct Hx|]. right.
  apply IH; [now inversion Hl | exact Hx].
Qed.

Lemma levels_handleImageCapture (h : Handler) (img : string) (w : Scheduler) :
  level (seesInterval h) -> levels w -> levels (handleImageCapture h img w).
Proof.
  intros Hh [Hi Hp]. unfold handleImageCapture.
  destruct (seesAnalyzing h); [now split|]. split; [exact Hi|].
  cbn [inFlight]. apply Forall_app. split; [exact Hp|].
  constructor; [exact Hh | constructor].
Qed.

Lemma levels_callSettles (i : nat) (ai : Client) (tc now : Z) (w : Scheduler) :
  levels w -> levels (callSettles i ai tc now w).
Proof.
  intros [Hi Hp]. destruct (nth_error (inFlight w) i) as [p|] eqn:Hnth.
  - rewrite (callSettles_found i p ai tc now w Hnth). split; cbn [app inFlight].
    + apply resume_level; [|exact Hi].
      apply (proj1 (Forall_forall _ _) Hp p). now apply nth_error_In in Hnth.
    + now apply Forall_dropNth.
  - rewrite (callSettles_missing i ai tc now w Hnth). now split.
Qed.

Lemma levels_toggle (now : Z) (w : Scheduler) :
  levels w -> levels (onApp (toggleSystem now) w).
Proof.
  intros [Hi Hp]. split; [|exact Hp]. cbn [onApp app]. unfold toggleSystem.
  destruct (isActive (app w)); [apply level_default | exact Hi].
Qed.

(** An event keeps the intervals among the five values when the callbacks
    a tick carries closed over one of them. *)
Lemma levels_step (e : Event) (w : World) :
  match e with
  | Tick h _ _ => level (seesInterval h)
  | _ => True
  end ->
  levels (scheduler w) -> levels (scheduler (step e w)).
Proof.
  intros He Hw.
  destruct e as [now | | granted | h video now | video | i ai tc now].
  - now apply levels_toggle.
  - exact Hw.
  - exact Hw.
  - destruct (tick_scheduler h video now w) as [-> | [-> | [img ->]]].
    + exact Hw.
    + exact Hw.
    + now apply levels_handleImageCapture.
  - destruct (manual_scheduler video w) as [-> | [img ->]]; [exact Hw|].
    apply levels_handleImageCapture; [|exact Hw]. exact (proj1 Hw).
  - now apply levels_callSettles.
Qed.

Lemma world_runEffect (m : Machine) : world (runEffect m) = world m.
Proof.
  unfold runEffect. destruct (deps_eqb _ _); [reflexivity|].
  destruct (_ && _)%bool; reflexivity.
Qed.

Lemma handler_eqb_eq (a b : Handler) : handler_eqb a b = true -> a = b.
Proof.
  unfold handler_eqb. intros H.
  apply andb_prop in H as [H Hsound]. apply andb_prop in H as [H Hint].
  apply andb_prop in H as [Hact Hbusy].
  apply eqb_prop in Hact, Hbusy, Hsound. apply Z.eqb_eq in Hint.
  destruct a, b. cbn in *. congruence.
Qed.

Lemma deps_eqb_eq (a b : Deps) : deps_eqb a b = true -> a = b.
Proof.
  unfold deps_eqb. intros H.
  apply andb_prop in H as [H Hstream]. apply andb_prop in H as [Hh Herr].
  apply handler_eqb_eq in Hh. apply eqb_prop in Herr.
  destruct a as [ha ea [sa|]], b as [hb eb [sb|]]; cbn in *;
    try discriminate; subst; [|reflexivity].
  apply Nat.eqb_eq in Hstream. now subst.
Qed.

Lemma wellTimed_runEffect (m : Machine) :
  levels (scheduler (world m)) ->
  Forall (fun x => armed (fst x) (snd x)) (intervals m) ->
  (forall h, timeout m = Some h -> armed h (seesInterval h)) ->
  wellTimed (runEffect m).
Proof.
  intros Hl Hi Ht. unfold runEffect.
  destruct (deps_eqb _ _) eqn:Hd.
  - apply deps_eqb_eq in Hd.
    split; [exact Hl|]. split; [exact Hi|]. split; [exact Ht|].
    now symmetry.
  - destruct (_ && _)%bool eqn:Hcond.
    + apply andb_prop in Hcond as [Hcond _].
      apply andb_prop in Hcond as [Hact _].
      assert (Harmed : armed (depCallbacks (depsOf (world m) (streams m)))
                         (seesInterval
                            (depCallbacks (depsOf (world m) (streams m))))).
      { split; [exact Hact|]. split; [reflexivity | exact (proj1 Hl)]. }
      split; [exact Hl|]. split; [|split].
      * cbn [intervals]. apply Forall_app. split; [exact Hi|].
        constructor; [exact Harmed | constructor].
      * cbn [timeout]. intros h [= <-]. exact Harmed.
      * reflexivity.
    + split; [exact Hl|]. split; [exact Hi|]. split; [|reflexivity].
      cbn [timeout]. discriminate.
Qed.

Lemma wellTimed_react (i : Input) (m : Machine) :
  wellTimed m -> wellTimed (react i m).
Proof.
  intros (Hl & Hi & Ht & _). unfold react.
  destruct i as [now | | video | granted | j ai tc now | video now
                 | k video now]; cbn [deliver].
  - apply wellTimed_runEffect; cbn [world intervals timeout onWorld];
      try assumption. now apply levels_step.
  - now apply wellTimed_runEffect.
  - destruct (_ || _)%bool; apply wellTimed_runEffect;
      cbn [world intervals timeout onWorld]; try assumption.
    now apply levels_step.
  - now apply wellTimed_runEffect.
  - apply wellTimed_runEffect; cbn [world intervals timeout onWorld];
      try assumption. now apply levels_step.
  - destruct (timeout m) as [h|] eqn:Hh.
    + apply wellTimed_runEffect; cbn [world intervals timeout];
        [|assumption|discriminate].
      apply levels_step; [|exact Hl].
      destruct (Ht h eq_refl) as (_ & _ & Hlev). exact Hlev.
    + apply wellTimed_runEffect; try assumption. now rewrite Hh.
  - destruct (nth_error (intervals m) k) as [[h period]|] eqn:Hk.
    + apply wellTimed_runEffect; cbn [world intervals timeout onWorld];
        try assumption.
      apply levels_step; [|exact Hl].
      apply nth_error_In in Hk.
      destruct (proj1 (Forall_forall _ _) Hi _ Hk) as (_ & Hp & Hlev).
      cbn [fst snd] in *. now rewrite <- Hp.
    + now apply wellTimed_runEffect.
Qed.

Lemma wellTimed_run (ins : list Input) (m : Machine) :
  wellTimed m -> wellTimed (Timers.run ins m).
Proof.
  revert m. induction ins as [|i ins IH]; intros m Hm; [exact Hm|].
  cbn [Timers.run fold_left]. now apply IH, wellTimed_react.
Qed.

Lemma wellTimed_initial (t0 : Z) : wellTimed (Timers.initial t0).
Proof.
  split; [|split; [|split]].
  - split; [apply level_default | constructor].
  - constructor.
  - discriminate.
  - reflexivity.
Qed.

End TimerInvariants.

Section TimerProperties.

Import Sentinel Timers.
Local Open Scope string_scope.

Lemma intervals_deliver (i : Input) (m : Machine) :
  intervals (deliver i m) = intervals m.
Proof.
  destruct i as [now | | video | granted | j ai tc now | video now
                 | k video now]; cbn [deliver]; try reflexivity.
  - now destruct (_ || _)%bool.
  - now destruct (timeout m).
  - now destruct (nth_error (intervals m) k) as [[h period]|].
Qed.

Lemma intervals_react (i : Input) (m : Machine) :
  exists extra, intervals (react i m) = (intervals m ++ extra)%list.
Proof.
  unfold react, runEffect. rewrite <- (intervals_deliver i m).
  destruct (deps_eqb _ _).
  - exists []. now rewrite app_nil_r.
  - destruct (_ && _)%bool; cbn [intervals].
    + eexists. reflexivity.
    + exists []. now rewrite app_nil_r.
Qed.

Lemma intervals_run (ins : list Input) (m : Machine) :
  exists extra, intervals (Timers.run ins m) = (intervals m ++ extra)%list.
Proof.
  revert m. induction ins as [|i ins IH]; intros m.
  - exists []. cbn. now rewrite app_nil_r.
  - cbn [Timers.run fold_left]. destruct (IH (react i m)) as [later Hl].
    destruct (intervals_react i m) as [extra He].
    exists (extra ++ later)%list. fold (Timers.run ins (react i m)).
    now rewrite Hl, He, app_assoc.
Qed.

(** X9.  No interval is ever cleared.  Whatever happens, switching the
    system off included, the intervals that are set stay set, in their
    order, and new ones are only added: an interval that can fire now can
    fire after any further inputs, with the same callbacks. *)
Theorem X9_intervals_never_cleared :
  (forall (ins : list Input) (m : Machine),
      exists extra,
        intervals (Timers.run ins m) = (intervals m ++ extra)%list)
  /\ (forall (ins : list Input) (m : Machine) (k : nat) (x : Handler * Z),
         nth_error (intervals m) k = Some x ->
         nth_error (intervals (Timers.run ins m)) k = Some x).
Proof.
  split; [exact intervals_run|].
  intros ins m k x Hk. destruct (intervals_run ins m) as [extra ->].
  rewrite nth_error_app1; [exact Hk|].
  apply nth_error_Some. now rewrite Hk.
Qed.

Lemma X9_witness :
  nth_error
    (intervals
       (Timers.run [SwitchPressed 600; SoundPressed]
          (Timers.run [SwitchPressed 0; CameraAnswers true]
                      (Timers.initial 0)))) 0
  = Some (mkHandler true false 30000 true, 30000).
Proof.
  apply (proj2 X9_intervals_never_cleared). vm_compute. reflexivity.
Defined.

(** X10.  In every state the timers and buttons can bring about, the
    interval is one of 30000, 60000, 120000, 240000 and 300000, hence
    between the base interval and the maximum, and every interval timer
    has as period the interval of the render that set it, one of the five
    values too. *)
Theorem X10_interval_levels (ins : list Input) (t0 : Z) :
  let m := Timers.run ins (Timers.initial t0) in
  level (currentInterval (app (scheduler (world m))))
  /\ 30000 <= currentInterval (app (scheduler (world m))) <= 300000
  /\ Forall (fun x => snd x = seesInterval (fst x) /\ level (snd x))
            (intervals m).
Proof.
  cbv zeta.
  destruct (wellTimed_run ins _ (wellTimed_initial t0))
    as ([Hlevel _] & Hi & _).
  split; [exact Hlevel|]. split; [now apply level_bounds|].
  apply Forall_forall. intros x Hx.
  destruct (proj1 (Forall_forall _ _) Hi x Hx) as (_ & Hp & Hl).
  now split.
Qed.

End TimerProperties.

Section StaleTimers.

Import WebcamCapture Sentinel Timers.
Local Open Scope string_scope.

Lemma byteAt_flat (a : Z) (i : nat) :
  (i < sampleBytes)%nat -> byteAt (flat a) i = a.
Proof.
  intros Hi. unfold byteAt, flat.
  rewrite (nth_indep _ 0 a) by now rewrite repeat_length.
  apply nth_repeat.
Qed.

Lemma filter_all {A : Type} (f : A -> bool) (l : list A) :
  (forall x, In x l -> f x = true) -> filter f l = l.
Proof.
  induction l as [|x l IH]; intros Hall; [reflexivity|].
  cbn [filter]. rewrite (Hall x (or_introl eq_refl)).
  now rewrite IH by (intros y Hy; apply Hall; now right).
Qed.

(** When every byte changes by more than 10, every pixel has changed. *)
Lemma changedPixelCount_flat (a b : Z) :
  30 < 3 * Z.abs (a - b) -> changedPixelCount (flat a) (flat b) = gridPixels.
Proof.
  intros Hab. unfold changedPixelCount. rewrite filter_all.
  - apply length_seq.
  - intros p Hp. apply in_seq in Hp. unfold changed, pixelDifference.
    assert (Hs : sampleBytes = (4 * gridPixels)%nat) by reflexivity.
    rewrite !byteAt_flat by lia. apply Z.ltb_lt. lia.
Qed.

Lemma flat_motion (a b : Z) (v : Video) (c : State) :
  30 < 3 * Z.abs (a - b) ->
  context2d v = true -> scaled v = flat a -> prevFrameData c = Some (flat b) ->
  fst (checkForMotion defaultMotionSensitivity (Some v) c) = true.
Proof.
  intros Hab Hctx Hv Hprev.
  assert (Hlen : forall x, List.length (flat x) = sampleBytes)
    by (intros x; apply repeat_length).
  rewrite (checkForMotion_diff defaultMotionSensitivity v (flat b) c Hctx Hprev);
    [|rewrite Hv; apply Hlen | apply Hlen].
  cbn [fst]. rewrite Hv, (changedPixelCount_flat a b Hab).
  now rewrite default_threshold.
Qed.

Lemma interval_tick (m : Machine) (k : nat) (h : Handler) (period : Z)
    (video : option Video) (now : Z) :
  nth_error (intervals m) k = Some (h, period) ->
  world (react (IntervalFires k video now) m)
  = step (Tick h video now) (world m).
Proof.
  intros Hk. unfold react. rewrite world_runEffect. cbn [deliver].
  now rewrite Hk.
Qed.

(** X11.  The timers outlive the switch.  Every interval timer of every
    reachable state closed over [isActive = true], so that its
    [processFrame] passes the activity check whatever the switch says
    now: on a ready frame it runs the motion check and then either hands
    the capture to [handleImageCapture] or records a still scene.  And a
    state with the system off and such a timer set is reachable: switched
    on, camera started, switched off before the first second is over. *)
Theorem X11_timers_outlive_the_switch :
  (forall (ins : list Input) (t0 : Z) (k : nat) (h : Handler) (period : Z),
      nth_error (intervals (Timers.run ins (Timers.initial t0))) k
      = Some (h, period) ->
      seesActive h = true)
  /\ (forall (m : Machine) (k : nat) (h : Handler) (period : Z) (v : Video)
             (now : Z),
         nth_error (intervals m) k = Some (h, period) ->
         seesActive h = true -> frameReady (Some v) = true ->
         dataURL v <> "" ->
         scheduler (world (react (IntervalFires k (Some v) now) m))
         = if fst (checkForMotion defaultMotionSensitivity (Some v)
                     (camera (world m)))
           then handleImageCapture h (dataURL v) (scheduler (world m))
           else onApp (handleNoMotion h now) (scheduler (world m)))
  /\ (let off := Timers.run [SwitchPressed 0; CameraAnswers true;
                             SwitchPressed 600] (Timers.initial 0) in
      isActive (app (scheduler (world off))) = false
      /\ timeout off = None
      /\ intervals off = [(mkHandler true false 30000 true, 30000)]).
Proof.
  split; [|split].
  - intros ins t0 k h period Hk.
    destruct (wellTimed_run ins _ (wellTimed_initial t0)) as (_ & Hi & _).
    apply nth_error_In in Hk.
    exact (proj1 (proj1 (Forall_forall _ _) Hi _ Hk)).
  - intros m k h period v now Hk Hact Hready Hurl.
    rewrite (interval_tick m k h period (Some v) now Hk).
    now rewrite (tick_ready h v now (world m) Hact Hready Hurl).
  - vm_compute. repeat split.
Qed.

Lemma X11_witness :
  let off := Timers.run [SwitchPressed 0; CameraAnswers true;
                         SwitchPressed 600] (Timers.initial 0) in
  inFlight (scheduler (world (react (IntervalFires 0
                                       (Some (Scenario.frame 0)) 30200) off)))
  = [mkPending (mkHandler true false 30000 true)
               (dataURL (Scenario.frame 0))].
Proof.
  cbv zeta.
  destruct (proj2 (proj2 X11_timers_outlive_the_switch)) as (_ & _ & Hi).
  cbv zeta in Hi.
  remember (Timers.run [SwitchPressed 0; CameraAnswers true;
                        SwitchPressed 600] (Timers.initial 0)) as off eqn:Hoff.
  assert (Hk : nth_error (intervals off) 0
               = Some (mkHandler true false 30000 true, 30000))
    by now rewrite Hi.
  rewrite (proj1 (proj2 X11_timers_outlive_the_switch) off 0%nat
             (mkHandler true false 30000 true) 30000 (Scenario.frame 0) 30200
             Hk eq_refl eq_refl ltac:(discriminate)).
  rewrite Hoff. vm_compute. reflexivity.
Defined.

(** X12.  The busy guard does not hold against an older timer.  When an
    interval whose callbacks were rendered while the scheduler was idle
    fires on a ready frame in which motion is found, a call is put in
    flight, whether or not another call is outstanding.  Such a state is
    reachable: after the first tick has started an analysis, the interval
    set before it is still there, with callbacks that see the busy flag
    cleared. *)
Theorem X12_older_timer_passes_the_guard :
  (forall (m : Machine) (k : nat) (h : Handler) (period : Z) (v : Video)
          (now : Z),
      nth_error (intervals m) k = Some (h, period) ->
      seesActive h = true -> seesAnalyzing h = false ->
      frameReady (Some v) = true -> dataURL v <> "" ->
      fst (checkForMotion defaultMotionSensitivity (Some v)
             (camera (world m))) = true ->
      inFlight (scheduler (world (react (IntervalFires k (Some v) now) m)))
      = (inFlight (scheduler (world m)) ++ [mkPending h (dataURL v)])%list)
  /\ (let busy := Timers.run [SwitchPressed 0; CameraAnswers true;
                              TimeoutFires (Some (Scenario.frame 0)) 1200]
                             (Timers.initial 0) in
      isAnalyzing (app (scheduler (world busy))) = true
      /\ List.length (inFlight (scheduler (world busy))) = 1%nat
      /\ prevFrameData (camera (world busy)) = Some (flat 0)
      /\ intervals busy = [(mkHandler true false 30000 true, 30000);
                           (mkHandler true true 30000 true, 30000)]).
Proof.
  split.
  - intros m k h period v now Hk Hact Hidle Hready Hurl Hmotion.
    rewrite (interval_tick m k h period (Some v) now Hk).
    rewrite (tick_ready h v now (world m) Hact Hready Hurl). cbn [scheduler].
    rewrite Hmotion. unfold handleImageCapture. now rewrite Hidle.
  - vm_compute. repeat split.
Qed.

Lemma X12_witness :
  let busy := Timers.run [SwitchPressed 0; CameraAnswers true;
                          TimeoutFires (Some (Scenario.frame 0)) 1200]
                         (Timers.initial 0) in
  List.length
    (inFlight (scheduler (world (react (IntervalFires 0
                                          (Some (Scenario.frame 200)) 30200)
                                       busy))))
  = 2%nat.
Proof.
  cbv zeta.
  destruct (proj2 X12_older_timer_passes_the_guard) as (_ & Hone & Hprev & Hi).
  cbv zeta in Hone, Hprev, Hi.
  remember (Timers.run [SwitchPressed 0; CameraAnswers true;
                        TimeoutFires (Some (Scenario.frame 0)) 1200]
                       (Timers.initial 0)) as busy eqn:Hbusy.
  assert (Hk : nth_error (intervals busy) 0
               = Some (mkHandler true false 30000 true, 30000))
    by now rewrite Hi.
  assert (Hmotion : fst (checkForMotion defaultMotionSensitivity
                           (Some (Scenario.frame 200)) (camera (world busy)))
                    = true).
  { apply (flat_motion 200 0); [lia | reflexivity | reflexivity | exact Hprev]. }
  rewrite (proj1 X12_older_timer_passes_the_guard busy 0%nat
             (mkHandler true false 30000 true) 30000 (Scenario.frame 200)
             30200 Hk eq_refl eq_refl eq_refl ltac:(discriminate) Hmotion).
  now rewrite length_app, Hone.
Defined.

End StaleTimers.

(** ** A session under a quota outage *)

Section OutageSession.

Import WebcamCapture Sentinel Timers.
Local Open Scope string_scope.

Lemma run_cons (i : Input) (rest : list Input) (m : Machine) :
  Timers.run (i :: rest) m = Timers.run rest (react i m).
Proof. reflexivity. Qed.

Lemma run_nil (m : Machine) : Timers.run [] m = m.
Proof. reflexivity. Qed.

Lemma checkpoints_cons (phase : list Input) (rest : list (list Input))
    (m : Machine) :
  Outage.checkpoints (phase :: rest) m
  = Timers.run phase m :: Outage.checkpoints rest (Timers.run phase m).
Proof. reflexivity. Qed.

Lemma checkForMotion_cold (s : float) (v : Video) (c : WebcamCapture.State) :
  context2d v = true -> prevFrameData c = None ->
  checkForMotion s (Some v) c = (true, setPrevFrameData (Some (scaled v)) c).
Proof. intros Hctx Hprev. unfold checkForMotion. now rewrite Hctx, Hprev. Qed.

(** A tick on a ready frame, by the answer of the motion check. *)
Lemma tick_verdict (h : Handler) (v : Video) (now : Z) (w : World) (b : bool)
    (c : WebcamCapture.State) :
  seesActive h = true -> frameReady (Some v) = true -> dataURL v <> "" ->
  checkForMotion defaultMotionSensitivity (Some v) (camera w) = (b, c) ->
  step (Tick h (Some v) now) w
  = {| scheduler := if b then handleImageCapture h (dataURL v) (scheduler w)
                    else onApp (handleNoMotion h now) (scheduler w);
       camera := c |}.
Proof.
  intros Hact Hready Hurl Hv.
  rewrite (tick_ready h v now w Hact Hready Hurl), Hv. reflexivity.
Qed.

Lemma timeout_verdict (m : Machine) (h : Handler) (v : Video) (now : Z)
    (b : bool) (c : WebcamCapture.State) :
  timeout m = Some h ->
  seesActive h = true -> frameReady (Some v) = true -> dataURL v <> "" ->
  checkForMotion defaultMotionSensitivity (Some v) (camera (world m))
  = (b, c) ->
  react (TimeoutFires (Some v) now) m
  = runEffect
      (mkMachine
         {| scheduler :=
              if b then handleImageCapture h (dataURL v) (scheduler (world m))
              else onApp (handleNoMotion h now) (scheduler (world m));
            camera := c |}
         (streams m) None (intervals m) (lastDeps m)).
Proof.
  intros Ht Hact Hready Hurl Hv. unfold react. cbn [deliver]. rewrite Ht.
  now rewrite (tick_verdict h v now (world m) b c Hact Hready Hurl Hv).
Qed.

Lemma interval_verdict (m : Machine) (k : nat) (h : Handler) (period : Z)
    (v : Video) (now : Z) (b : bool) (c : WebcamCapture.State) :
  nth_error (intervals m) k = Some (h, period) ->
  seesActive h = true -> frameReady (Some v) = true -> dataURL v <> "" ->
  checkForMotion defaultMotionSensitivity (Some v) (camera (world m))
  = (b, c) ->
  react (IntervalFires k (Some v) now) m
  = runEffect
      (mkMachine
         {| scheduler :=
              if b then handleImageCapture h (dataURL v) (scheduler (world m))
              else onApp (handleNoMotion h now) (scheduler (world m));
            camera := c |}
         (streams m) (timeout m) (intervals m) (lastDeps m)).
Proof.
  intros Hk Hact Hready Hurl Hv. unfold react. cbn [deliver]. rewrite Hk.
  unfold onWorld.
  now rewrite (tick_verdict h v now (world m) b c Hact Hready Hurl Hv).
Qed.

(** The scan button on a ready frame, the system on and not analysing. *)
Lemma scan_ready (m : Machine) (v : Video) :
  frameReady (Some v) = true -> dataURL v <> "" ->
  isActive (app (scheduler (world m))) = true ->
  isAnalyzing (app (scheduler (world m))) = false ->
  react (ScanPressed (Some v)) m
  = runEffect
      (mkMachine
         {| scheduler :=
              handleImageCapture (render (app (scheduler (world m))))
                (dataURL v) (scheduler (world m));
            camera := camera (world m) |}
         (streams m) (timeout m) (intervals m) (lastDeps m)).
Proof.
  intros Hready Hurl Hact Hidle. unfold react. cbn [deliver].
  rewrite Hact, Hidle. cbn [negb orb]. unfold onWorld. cbn [step].
  unfold triggerManualCapture, captureCurrentFrame.
  unfold frameReady in Hready.
  apply andb_prop in Hready as [Hready Hctx].
  apply andb_prop in Hready as [Hw _].
  apply negb_true_iff in Hw. rewrite Hw, Hctx. cbn [negb].
  destruct (dataURL v) as [|a s] eqn:Hd; [congruence|]. reflexivity.
Qed.

(** The motion check between two of the flat frames of [Scenario]. *)
Lemma frame_verdict (a b : Z) (c : WebcamCapture.State) :
  prevFrameData c = Some (scaled (Scenario.frame b)) ->
  checkForMotion defaultMotionSensitivity (Some (Scenario.frame a)) c
  = ((38 <=? changedPixelCount (flat a) (flat b))%nat,
     setMotionLevel
       (percentage (changedPixelCount (scaled (Scenario.frame a))
                      (scaled (Scenario.frame b))))
       (setPrevFrameData (Some (scaled (Scenario.frame a))) c)).
Proof.
  intros Hprev.
  rewrite (checkForMotion_diff defaultMotionSensitivity (Scenario.frame a)
             (scaled (Scenario.frame b)) c eq_refl Hprev
             (repeat_length _ _) (repeat_length _ _)).
  f_equal. change (scaled (Scenario.frame a)) with (flat a).
  change (scaled (Scenario.frame b)) with (flat b).
  apply default_threshold, changedPixelCount_le.
Qed.

Lemma frame_still (a : Z) (c : WebcamCapture.State) :
  prevFrameData c = Some (scaled (Scenario.frame a)) ->
  checkForMotion defaultMotionSensitivity (Some (Scenario.frame a)) c
  = (false,
     setMotionLevel
       (percentage (changedPixelCount (scaled (Scenario.frame a))
                      (scaled (Scenario.frame a))))
       (setPrevFrameData (Some (scaled (Scenario.frame a))) c)).
Proof.
  intros Hprev. rewrite (frame_verdict a a c Hprev).
  now rewrite changedPixelCount_same.
Qed.

Lemma frame_moved (a b : Z) (c : WebcamCapture.State) :
  30 < 3 * Z.abs (a - b) ->
  prevFrameData c = Some (scaled (Scenario.frame b)) ->
  checkForMotion defaultMotionSensitivity (Some (Scenario.frame a)) c
  = (true,
     setMotionLevel
       (percentage (changedPixelCount (scaled (Scenario.frame a))
                      (scaled (Scenario.frame b))))
       (setPrevFrameData (Some (scaled (Scenario.frame a))) c)).
Proof.
  intros Hab Hprev. rewrite (frame_verdict a b c Hprev).
  now rewrite (changedPixelCount_flat a b Hab).
Qed.

(** One input at a time: the machine reached so far is written out, the
    answer of the motion check is taken from a lemma, and the rest is
    computed. *)
Ltac computed t :=
  let r := eval vm_compute in t in
  replace t with r by (vm_compute; reflexivity).

Ltac settle_effect :=
  match goal with
  | |- context [runEffect ?X] => computed (runEffect X)
  end.

Ltac plain :=
  rewrite run_cons;
  match goal with
  | |- context [react ?i ?M] => computed (react i M)
  end.

Ltac timeout_fires ready url verdict :=
  rewrite run_cons;
  match goal with
  | |- context [react (TimeoutFires (Some ?v) ?now) ?M] =>
      rewrite (timeout_verdict M _ v now _ _ eq_refl eq_refl ready url
                 (verdict (camera (world M)) eq_refl))
  end;
  settle_effect.

Ltac interval_fires ready url verdict :=
  rewrite run_cons;
  match goal with
  | |- context [react (IntervalFires ?k (Some ?v) ?now) ?M] =>
      rewrite (interval_verdict M k _ _ v now _ _ eq_refl eq_refl ready url
                 (verdict (camera (world M)) eq_refl))
  end;
  settle_effect.

Ltac scan_pressed ready url :=
  rewrite run_cons;
  match goal with
  | |- context [react (ScanPressed (Some ?v)) ?M] =>
      rewrite (scan_ready M v ready url eq_refl eq_refl)
  end;
  settle_effect.

Section TwoScenes.

(** Two ready frames, each unchanged against itself and changed against
    the other, whatever the motion levels are. *)
Variables dark lit : Video.
Variable level : ImageData -> ImageData -> float.

Hypothesis dark_ready : frameReady (Some dark) = true.
Hypothesis lit_ready : frameReady (Some lit) = true.
Hypothesis dark_url : dataURL dark <> "".
Hypothesis lit_url : dataURL lit <> "".

Hypothesis dark_first : forall c : WebcamCapture.State,
  prevFrameData c = None ->
  checkForMotion defaultMotionSensitivity (Some dark) c
  = (true, setPrevFrameData (Some (scaled dark)) c).
Hypothesis stays_dark : forall c : WebcamCapture.State,
  prevFrameData c = Some (scaled dark) ->
  checkForMotion defaultMotionSensitivity (Some dark) c
  = (false, setMotionLevel (level (scaled dark) (scaled dark))
              (setPrevFrameData (Some (scaled dark)) c)).
Hypothesis stays_lit : forall c : WebcamCapture.State,
  prevFrameData c = Some (scaled lit) ->
  checkForMotion defaultMotionSensitivity (Some lit) c
  = (false, setMotionLevel (level (scaled lit) (scaled lit))
              (setPrevFrameData (Some (scaled lit)) c)).
Hypothesis turns_lit : forall c : WebcamCapture.State,
  prevFrameData c = Some (scaled dark) ->
  checkForMotion defaultMotionSensitivity (Some lit) c
  = (true, setMotionLevel (level (scaled lit) (scaled dark))
             (setPrevFrameData (Some (scaled lit)) c)).
Hypothesis turns_dark : forall c : WebcamCapture.State,
  prevFrameData c = Some (scaled lit) ->
  checkForMotion defaultMotionSensitivity (Some dark) c
  = (true, setMotionLevel (level (scaled dark) (scaled lit))
             (setPrevFrameData (Some (scaled dark)) c)).

Lemma session_of_scenes :
  map Outage.interval (Outage.session dark lit)
  = [60000; 60000; 60000; 120000]
  /\ map Outage.shown (Outage.session dark lit)
     = [Some COOLDOWN; Some COOLDOWN; Some COOLDOWN; Some COOLDOWN]
  /\ map Outage.logged (Outage.session dark lit)
     = [[COOLDOWN];
        [COOLDOWN; STATIC_SCENE; COOLDOWN];
        [COOLDOWN; STATIC_SCENE; STATIC_SCENE; COOLDOWN; STATIC_SCENE];
        [COOLDOWN; STATIC_SCENE; COOLDOWN; STATIC_SCENE; STATIC_SCENE]].
Proof.
  unfold Outage.session, Outage.firstFailure, Outage.secondFailure,
    Outage.thirdFailure, Outage.fourthFailure.
  rewrite checkpoints_cons.
  plain. plain. timeout_fires dark_ready dark_url dark_first. plain.
  rewrite run_nil.
  rewrite checkpoints_cons.
  timeout_fires dark_ready dark_url stays_dark.
  interval_fires lit_ready lit_url turns_lit.
  plain. rewrite run_nil.
  rewrite checkpoints_cons.
  interval_fires lit_ready lit_url stays_lit.
  timeout_fires lit_ready lit_url stays_lit.
  interval_fires dark_ready dark_url turns_dark.
  plain. rewrite run_nil.
  rewrite checkpoints_cons.
  interval_fires dark_ready dark_url stays_dark.
  interval_fires lit_ready lit_url turns_lit.
  plain. rewrite run_nil.
  vm_compute. repeat split.
Qed.

Lemma overlap_of_scenes :
  map Outage.outstanding (Outage.overlap dark lit)
  = [(false, 0%nat); (true, 1%nat); (true, 2%nat)].
Proof.
  unfold Outage.overlap, Outage.firstFailure, Outage.scanPressed,
    Outage.whileScanning.
  rewrite checkpoints_cons.
  plain. plain. timeout_fires dark_ready dark_url dark_first. plain.
  rewrite run_nil.
  rewrite checkpoints_cons.
  timeout_fires dark_ready dark_url stays_dark.
  scan_pressed lit_ready lit_url.
  rewrite run_nil.
  rewrite checkpoints_cons.
  interval_fires lit_ready lit_url turns_lit.
  rewrite run_nil.
  vm_compute. reflexivity.
Qed.

End TwoScenes.

(** C4, on the code.  On a quota failure the handler that awaited the
    call sets the interval to twice the interval it closed over, capped
    at 300000, whatever the interval of the state is by then, and shows
    and logs a [COOLDOWN] result; on a returned result it sets the
    interval to 30000.  The interval timers are never cleared, so the
    callbacks of an earlier render keep starting analyses.  In the
    session of [Outage], switched on with interval 30000 in front of a
    scene that is dark (all bytes 0) or lit (all bytes 200), four
    analyses in a row fail on the quota and nothing else is analysed; the
    interval after them is 60000, 60000, 60000 and 120000, where the
    claim has 60000, 120000, 240000 and 300000.  Each failure shows and
    logs a [COOLDOWN] result, as claimed. *)
Theorem C4_backoff_from_closed_over_interval :
  (forall (h : Handler) (now : Z) (s : App.State),
      let s' := handleImageCapture_resume h (Thrown "QUOTA_EXCEEDED") now s in
      currentInterval s' = Z.min (seesInterval h * 2) 300000
      /\ lastResult s' = Some (cooldownResult now)
      /\ history s' = firstn 5 (cooldownResult now :: history s)
      /\ status (cooldownResult now) = COOLDOWN)
  /\ (forall (h : Handler) (r : AnalysisResult) (now : Z) (s : App.State),
         currentInterval (handleImageCapture_resume h (Returned r) now s)
         = 30000)
  /\ Outage.interval (Timers.initial 0) = 30000
  /\ map Outage.interval
       (Outage.session (Scenario.frame 0) (Scenario.frame 200))
     = [60000; 60000; 60000; 120000]
  /\ map Outage.shown
       (Outage.session (Scenario.frame 0) (Scenario.frame 200))
     = [Some COOLDOWN; Some COOLDOWN; Some COOLDOWN; Some COOLDOWN]
  /\ map Outage.logged
       (Outage.session (Scenario.frame 0) (Scenario.frame 200))
     = [[COOLDOWN];
        [COOLDOWN; STATIC_SCENE; COOLDOWN];
        [COOLDOWN; STATIC_SCENE; STATIC_SCENE; COOLDOWN; STATIC_SCENE];
        [COOLDOWN; STATIC_SCENE; COOLDOWN; STATIC_SCENE; STATIC_SCENE]].
Proof.
  split.
  { intros h now s. cbv zeta.
    destruct (resume_quota h now s) as (H1 & H2 & H3 & _).
    split; [exact H3|]. split; [exact H1|]. split; [exact H2 | reflexivity]. }
  split.
  { intros h r now s.
    destruct (resume_returned h r now s) as (_ & _ & H3 & _). exact H3. }
  split; [reflexivity|].
  exact (session_of_scenes (Scenario.frame 0) (Scenario.frame 200)
           (fun cur prev => percentage (changedPixelCount cur prev))
           eq_refl eq_refl ltac:(discriminate) ltac:(discriminate)
           (fun c => checkForMotion_cold _ (Scenario.frame 0) c eq_refl)
           (frame_still 0) (frame_still 200)
           (fun c => frame_moved 200 0 c ltac:(lia))
           (fun c => frame_moved 0 200 c ltac:(lia))).
Qed.

(** C7 as stated fails twice.  On the run where the first analysis is in
    flight and a tick sees the frame unchanged, the busy flag is set and
    one call is outstanding, yet the tick adds a [STATIC_SCENE] result to
    the history.  And in the other course of [Outage], after the scan
    button has started an analysis, the interval set when the camera
    answered fires with callbacks that see the busy flag cleared: the
    busy flag is set and one call is outstanding before it fires, two
    after. *)
Lemma C7_counterexample :
  (isAnalyzing (app (scheduler Scenario.analysing)) = true
   /\ List.length (inFlight (scheduler Scenario.analysing)) = 1%nat
   /\ history (app (scheduler Scenario.analysing)) = []
   /\ history (app (scheduler Scenario.quietTick)) = [staticSceneResult 2000]
   /\ history (app (scheduler Scenario.quietTick))
      <> history (app (scheduler Scenario.analysing)))
  /\ map Outage.outstanding
       (Outage.overlap (Scenario.frame 0) (Scenario.frame 200))
     = [(false, 0%nat); (true, 1%nat); (true, 2%nat)].
Proof.
  split.
  - assert (Hq : history (app (scheduler Scenario.quietTick))
                 = [staticSceneResult 2000]).
    { unfold Scenario.quietTick. rewrite tick_busy.
      - rewrite quiet_frame. rewrite analysing_world. reflexivity.
      - rewrite analysing_world. reflexivity. }
    rewrite Hq. rewrite analysing_world. cbn [scheduler app inFlight history].
    repeat split. discriminate.
  - exact (overlap_of_scenes (Scenario.frame 0) (Scenario.frame 200)
             (fun cur prev => percentage (changedPixelCount cur prev))
             eq_refl eq_refl ltac:(discriminate) ltac:(discriminate)
             (fun c => checkForMotion_cold _ (Scenario.frame 0) c eq_refl)
             (frame_still 0)
             (fun c => frame_moved 200 0 c ltac:(lia))).
Qed.

End OutageSession.

Section Buttons.

Import WebcamCapture Sentinel Timers.
Local Open Scope string_scope.

Lemma handler_eqb_refl (h : Handler) : handler_eqb h h = true.
Proof.
  unfold handler_eqb. now rewrite !eqb_reflx, Z.eqb_refl.
Qed.

Lemma deps_eqb_refl (d : Deps) : deps_eqb d d = true.
Proof.
  unfold deps_eqb. rewrite handler_eqb_refl, eqb_reflx.
  destruct (depStream d); [apply Nat.eqb_refl | reflexivity].
Qed.

Lemma runEffect_rendered (m : Machine) :
  lastDeps m = depsOf (world m) (streams m) -> runEffect m = m.
Proof.
  intros Hd. unfold runEffect. now rewrite <- Hd, deps_eqb_refl.
Qed.

(** X13.  The scan button.  In every reachable state, pressing it while
    the system is off or an analysis is running changes nothing, timers
    included.  Pressed while the system is on and idle, with a frame to
    capture, it puts exactly one call in flight, for the callbacks of the
    current render, sets the busy flag, and leaves the motion detector's
    previous sample and the history as they were. *)
Theorem X13_scan_button :
  (forall (ins : list Input) (t0 : Z) (video : option Video),
      let m := Timers.run ins (Timers.initial t0) in
      isActive (app (scheduler (world m))) = false
      \/ isAnalyzing (app (scheduler (world m))) = true ->
      react (ScanPressed video) m = m)
  /\ (forall (m : Machine) (video : option Video) (img : string),
         isActive (app (scheduler (world m))) = true ->
         isAnalyzing (app (scheduler (world m))) = false ->
         truthy (captureCurrentFrame video) = Some img ->
         let m' := react (ScanPressed video) m in
         inFlight (scheduler (world m'))
         = (inFlight (scheduler (world m))
            ++ [mkPending (render (app (scheduler (world m)))) img])%list
         /\ isAnalyzing (app (scheduler (world m'))) = true
         /\ camera (world m') = camera (world m)
         /\ history (app (scheduler (world m')))
            = history (app (scheduler (world m)))).
Proof.
  split.
  - intros ins t0 video. cbv zeta. intros Hoff.
    destruct (wellTimed_run ins _ (wellTimed_initial t0)) as (_ & _ & _ & Hd).
    unfold react. cbn [deliver].
    replace (negb _ || _)%bool with true.
    + now apply runEffect_rendered.
    + destruct Hoff as [-> | ->]; [reflexivity | now rewrite orb_true_r].
  - intros m video img Hact Hidle Himg. cbv zeta.
    unfold react. rewrite world_runEffect. cbn [deliver].
    rewrite Hact, Hidle. cbn [negb orb onWorld world step scheduler camera].
    unfold triggerManualCapture. rewrite Himg.
    unfold handleImageCapture. cbn [render seesAnalyzing]. rewrite Hidle.
    repeat split.
Qed.

Lemma X13_witness :
  react (ScanPressed (Some (Scenario.frame 3)))
        (Timers.run [] (Timers.initial 0))
  = Timers.run [] (Timers.initial 0).
Proof.
  apply (proj1 X13_scan_button [] 0 (Some (Scenario.frame 3))).
  left. reflexivity.
Defined.

(** X14.  Switching on resets nothing but the next scan time.  From the
    off state [toggleSystem] sets [isActive] and the next scan time and
    leaves the history, the last result and the interval.  So what a late
    quota failure left after the system was switched off is still there
    when it is switched on again: the cooldown entry, and the interval
    doubled from the one the call had closed over. *)
Theorem X14_switching_on_resets_nothing :
  (forall (now : Z) (s : App.State),
      isActive s = false ->
      toggleSystem now s
      = setNextScanTime (now + DEFAULT_INTERVAL) (setIsActive true s))
  /\ (forall (w : World) (i : nat) (p : Pending) (ai : Client)
             (tOff tc now tOn : Z),
         isActive (app (scheduler w)) = true ->
         nth_error (inFlight (scheduler w)) i = Some p ->
         analyzeImageForPerson ai (image p) tc = Thrown "QUOTA_EXCEEDED" ->
         let on := step (Toggle tOn)
                     (step (Settles i ai tc now) (step (Toggle tOff) w)) in
         isActive (app (scheduler on)) = true
         /\ history (app (scheduler on)) = [cooldownResult now]
         /\ lastResult (app (scheduler on)) = Some (cooldownResult now)
         /\ currentInterval (app (scheduler on))
            = Z.min (seesInterval (awaitedBy p) * 2) 300000
         /\ nextScanTime (app (scheduler on)) = tOn + 30000).
Proof.
  split.
  - intros now s Hoff. unfold toggleSystem. now rewrite Hoff.
  - intros w i p ai tOff tc now tOn Hact Hp Hquota. cbv zeta.
    cbn [step scheduler].
    rewrite (callSettles_found i p ai tc now
               (onApp (toggleSystem tOff) (scheduler w)) Hp).
    rewrite Hquota. cbn [onApp app inFlight].
    assert (Hoff : isActive (toggleSystem tOff (app (scheduler w))) = false
                   /\ history (toggleSystem tOff (app (scheduler w))) = []).
    { unfold toggleSystem. rewrite Hact. split; reflexivity. }
    destruct Hoff as [Hoff Hempty].
    destruct (resume_quota (awaitedBy p) now
                (toggleSystem tOff (app (scheduler w))))
      as (Hlast & Hhist & Hint & _ & _ & Hsame & _).
    rewrite Hempty in Hhist. rewrite Hoff in Hsame.
    set (s2 := handleImageCapture_resume (awaitedBy p)
                 (Thrown "QUOTA_EXCEEDED") now
                 (toggleSystem tOff (app (scheduler w)))) in *.
    clearbody s2. unfold toggleSystem. rewrite Hsame. cbn -[Z.min Z.mul Z.add].
    rewrite Hlast, Hhist, Hint. repeat split.
Qed.

Lemma X14_witness :
  currentInterval
    (app (scheduler
            (step (Toggle 9000)
               (step (Settles 0 Scenario.rateLimited 2000 2000)
                  (step (Toggle 1500) Scenario.analysing)))))
  = Z.min (30000 * 2) 300000.
Proof.
  destruct (proj2 X14_switching_on_resets_nothing Scenario.analysing 0%nat
              (mkPending (render (app (scheduler Scenario.started)))
                         (dataURL (Scenario.frame 0)))
              Scenario.rateLimited 1500 2000 2000 9000
              eq_refl eq_refl eq_refl) as (_ & _ & _ & H & _).
  exact H.
Defined.

End Buttons.

(** ** The client's input and its classification of messages *)

Section ClientEdges.

Local Open Scope string_scope.
Import JsString.

Lemma occursIn_tail (pat : string) (c : ascii) (s : string) :
  occursIn pat s -> occursIn pat (String c s).
Proof.
  intros (pre & post & ->). now exists (String c pre), post.
Qed.

Lemma cut_free (s : string) :
  ~ occursIn "," s -> cut "," s = (s, None).
Proof.
  induction s as [|c s IH]; intros Hfree; [reflexivity|].
  cbn [cut]. destruct (Ascii.eqb c ",") eqn:Hc.
  - apply Ascii.eqb_eq in Hc as ->. exfalso. apply Hfree.
    now exists "", s.
  - rewrite IH; [reflexivity|].
    intros Hin. apply Hfree. now apply occursIn_tail.
Qed.

Lemma cut_at (pre rest : string) :
  ~ occursIn "," pre -> cut "," (pre ++ String "," rest) = (pre, Some rest).
Proof.
  induction pre as [|c pre IH]; intros Hfree; [reflexivity|].
  cbn [append cut]. destruct (Ascii.eqb c ",") eqn:Hc.
  - apply Ascii.eqb_eq in Hc as ->. exfalso. apply Hfree.
    now exists "", pre.
  - rewrite IH; [reflexivity|].
    intros Hin. apply Hfree. now apply occursIn_tail.
Qed.

(** X15.  What the client sends to the model.  Of a data URL it sends the
    text between the first comma and the second, if there is a second:
    the payload after the [data:...;base64,] prefix.  An image string
    without a comma is sent as it is, and so is one with nothing between
    its first comma and the next or the end. *)
Theorem X15_clean_base64 :
  (forall s : string, ~ occursIn "," s -> cleanBase64 s = s)
  /\ (forall (pre : string) (c : ascii) (payload : string),
         ~ occursIn "," pre -> ~ occursIn "," (String c payload) ->
         cleanBase64 (pre ++ "," ++ String c payload) = String c payload)
  /\ (forall (pre : string) (c : ascii) (payload rest : string),
         ~ occursIn "," pre -> ~ occursIn "," (String c payload) ->
         cleanBase64 (pre ++ "," ++ String c payload ++ "," ++ rest)
         = String c payload)
  /\ (forall pre rest : string,
         ~ occursIn "," pre ->
         cleanBase64 (pre ++ ",") = pre ++ ","
         /\ cleanBase64 (pre ++ ",," ++ rest) = pre ++ ",," ++ rest).
Proof.
  unfold cleanBase64, splitSecond. split; [|split; [|split]].
  - intros s Hs. now rewrite (cut_free s Hs).
  - intros pre c payload Hpre Hpay.
    change (pre ++ "," ++ String c payload)
      with (pre ++ String "," (String c payload)).
    rewrite (cut_at pre _ Hpre). cbn [snd].
    now rewrite (cut_free _ Hpay).
  - intros pre c payload rest Hpre Hpay.
    change (pre ++ "," ++ String c payload ++ "," ++ rest)
      with (pre ++ String "," (String c payload ++ String "," rest)).
    rewrite (cut_at pre _ Hpre). cbn [snd].
    now rewrite (cut_at _ rest Hpay).
  - intros pre rest Hpre. split.
    + change (pre ++ ",") with (pre ++ String "," "").
      now rewrite (cut_at pre _ Hpre).
    + change (pre ++ ",," ++ rest) with (pre ++ String "," (String "," rest)).
      rewrite (cut_at pre _ Hpre). cbn [snd cut].
      reflexivity.
Qed.

Lemma X15_witness :
  cleanBase64 ("data:image/jpeg;base64" ++ "," ++ "/9j/4AAQSkZJRg")
  = "/9j/4AAQSkZJRg".
Proof.
  apply (proj1 (proj2 X15_clean_base64) "data:image/jpeg;base64" "/"%char
           "9j/4AAQSkZJRg").
  - intros H. apply includes_occursIn in H. discriminate H.
  - intros H. apply includes_occursIn in H. discriminate H.
Defined.

Lemma toLowerCase_app (a b : string) :
  toLowerCase (a ++ b) = toLowerCase a ++ toLowerCase b.
Proof.
  induction a as [|c a IH]; [reflexivity|]. cbn. now rewrite IH.
Qed.

(** X16.  The classification of a failure ignores case and position.  A
    rejected request or an unparsable response whose message contains, at
    any place, 429 or the word quota in any mix of upper and lower case
    makes the client throw [QUOTA_EXCEEDED], and the scheduler then backs
    off: it doubles the interval its handler closed over, up to 300000,
    and records a cooldown. *)
Theorem X16_quota_in_any_case
    (ai : Client) (base64Image : string) (clientNow : Z)
    (pre word post : string) :
  toLowerCase word = "quota" \/ word = "429" ->
  ai (cleanBase64 base64Image) = Rejected (pre ++ word ++ post)
  \/ ai (cleanBase64 base64Image) = Unparsable (pre ++ word ++ post) ->
  analyzeImageForPerson ai base64Image clientNow = Thrown "QUOTA_EXCEEDED"
  /\ forall (h : Handler) (now : Z) (s : State),
      currentInterval
        (handleImageCapture_resume h
           (analyzeImageForPerson ai base64Image clientNow) now s)
      = Z.min (seesInterval h * 2) 300000
      /\ shows (handleImageCapture_resume h
                  (analyzeImageForPerson ai base64Image clientNow) now s)
         = Some COOLDOWN.
Proof.
  intros Hword Hreply.
  assert (Hq : mentionsQuota (pre ++ word ++ post)).
  { unfold mentionsQuota. rewrite !toLowerCase_app.
    destruct Hword as [Hw | ->].
    - right. rewrite Hw. now exists (toLowerCase pre), (toLowerCase post).
    - left. now exists (toLowerCase pre), (toLowerCase post). }
  assert (Hthrown : analyzeImageForPerson ai base64Image clientNow
                    = Thrown "QUOTA_EXCEEDED").
  { apply (analyze_failure ai base64Image clientNow (pre ++ word ++ post));
      [|exact Hq].
    unfold tryAnalyze. now destruct Hreply as [-> | ->]. }
  split; [exact Hthrown|]. intros h now s. rewrite Hthrown.
  destruct (resume_quota h now s) as (Hlast & _ & Hint & _).
  split; [exact Hint|]. unfold shows. now rewrite Hlast.
Qed.

Lemma X16_witness :
  analyzeImageForPerson
    (fun _ => Unparsable ("Unexpected token 'Q', " ++ "Quota" ++ " is not valid JSON"))
    "data:image/jpeg;base64,AAAA" 7
  = Thrown "QUOTA_EXCEEDED".
Proof.
  apply (X16_quota_in_any_case
           (fun _ => Unparsable ("Unexpected token 'Q', " ++ "Quota"
                                 ++ " is not valid JSON"))
           "data:image/jpeg;base64,AAAA" 7
           "Unexpected token 'Q', " "Quota" " is not valid JSON").
  - left. reflexivity.
  - right. reflexivity.
Defined.

End ClientEdges.

(** ** What the panel and the list show *)

Section Display.

Import Sentinel.
Local Open Scope string_scope.

(** X17.  The status panel and the history list draw a result with the
    same icon for every status but [COOLDOWN]: the list's
    [getStatusStyle] has no case for it, so that a cooldown, which every
    quota failure logs, appears in the list with the fallback icon and
    colours while the panel shows the hourglass. *)
Theorem X17_cooldown_has_no_list_style :
  (forall r : AnalysisResult,
      StatusPanel.icon (StatusPanel.look (Some r))
      = HistoryList.icon (HistoryList.getStatusStyle (status r))
      <-> status r <> COOLDOWN)
  /\ (forall now : Z,
         HistoryList.getStatusStyle (status (cooldownResult now))
         = HistoryList.mkStyle "border-slate-600" "text-slate-400"
                               "bg-slate-800" "❓"
         /\ StatusPanel.icon (StatusPanel.look (Some (cooldownResult now)))
            = "⏳").
Proof.
  split.
  - intros r. unfold StatusPanel.look. destruct (status r); cbn;
      split; intros H; try reflexivity; try discriminate;
      exfalso; now apply H.
  - intros now. split; reflexivity.
Qed.

Lemma panel_badge (result : option AnalysisResult) (busy : bool)
    (v : StatusPanel.View) (x : float) (colour : string) :
  StatusPanel.StatusPanel result busy = Some v ->
  StatusPanel.badge v = Some (x, colour) ->
  busy = false
  /\ exists r, result = Some r /\ confidence r = Some x
               /\ status r <> STATIC_SCENE
               /\ colour = (if status_eqb (status r) PERSON_DETECTED
                            then "text-red-400" else "text-emerald-400").
Proof.
  unfold StatusPanel.StatusPanel.
  destruct result as [r|], busy; try discriminate;
    intros [= <-]; cbn [StatusPanel.badge]; try discriminate.
  destruct (confidence r) as [y|] eqn:Hc; [|discriminate].
  destruct (status_eqb (status r) STATIC_SCENE) eqn:Hs; [discriminate|].
  intros Hb. injection Hb as Hx Hcol. subst y.
  split; [reflexivity|]. exists r.
  split; [reflexivity|]. split; [exact Hc|]. split; [|now symmetry].
  intros Heq. now rewrite Heq in Hs.
Qed.

(** X18.  The status panel on the states the system reaches.  While an
    analysis runs it shows the scanning title and icon and hides the
    description and the confidence, whatever the last result.  It is the
    waiting panel exactly when the history is empty and nothing runs.
    And when it shows a confidence badge, nothing runs and the last result
    is an answer of the model: a detection, badge in red, or a clear
    perimeter, badge in green. *)
Theorem X18_status_panel :
  (forall result : option AnalysisResult,
      exists v, StatusPanel.StatusPanel result true = Some v
                /\ StatusPanel.title v = Some "Escaneando..."
                /\ StatusPanel.glyph v = "🤔"
                /\ StatusPanel.shimmer v = true
                /\ StatusPanel.detail v = None
                /\ StatusPanel.badge v = None)
  /\ (forall (es : list Event) (t0 : Z),
         let s := app (scheduler (run es (Sentinel.initial t0))) in
         (StatusPanel.StatusPanel (lastResult s) (isAnalyzing s) = None
          <-> history s = [] /\ isAnalyzing s = false)
         /\ forall (v : StatusPanel.View) (x : float) (colour : string),
             StatusPanel.StatusPanel (lastResult s) (isAnalyzing s) = Some v ->
             StatusPanel.badge v = Some (x, colour) ->
             isAnalyzing s = false
             /\ exists r,
                 lastResult s = Some r /\ confidence r = Some x
                 /\ ((status r = PERSON_DETECTED /\ colour = "text-red-400")
                     \/ (status r = NO_PERSON
                         /\ colour = "text-emerald-400"))).
Proof.
  split.
  - intros result. unfold StatusPanel.StatusPanel.
    destruct result; (eexists; split; [reflexivity | repeat split]).
  - intros es t0. cbv zeta.
    pose proof (run_newestShown es t0) as Hnew.
    pose proof (run_allProduced es t0) as [Hlast _].
    unfold newestShown in Hnew.
    set (s := app (scheduler (run es (Sentinel.initial t0)))) in *.
    clearbody s. split.
    + unfold StatusPanel.StatusPanel. rewrite Hnew.
      destruct (history s), (isAnalyzing s); cbn; split;
        try discriminate; try (intros [H1 H2]; discriminate);
        try reflexivity; try (intros _; split; reflexivity).
    + intros v x colour Hv Hbadge.
      destruct (panel_badge _ _ v x colour Hv Hbadge)
        as (Hidle & r & Hr & Hc & _ & Hcol).
      split; [exact Hidle|]. exists r. split; [exact Hr|].
      split; [exact Hc|].
      destruct (produced_shape r (Hlast r Hr)) as (_ & Hconf & _).
      assert (Hsome : confidence r <> None) by now rewrite Hc.
      apply Hconf in Hsome. rewrite Hcol.
      destruct Hsome as [Hs | Hs]; rewrite Hs; [left | right];
        split; reflexivity.
Qed.

Lemma length_mapIndexed (n : nat) (h : list AnalysisResult) :
  List.length (HistoryList.mapIndexed n h) = List.length h.
Proof.
  revert n. induction h as [|r h IH]; intros n; [reflexivity|].
  cbn. now rewrite IH.
Qed.

Lemma messages_mapIndexed (n : nat) (h : list AnalysisResult) :
  map HistoryList.rowMessage (HistoryList.mapIndexed n h) = map message h
  /\ map HistoryList.rowTime (HistoryList.mapIndexed n h) = map timestamp h.
Proof.
  revert n. induction h as [|r h IH]; intros n; [split; reflexivity|].
  cbn. destruct (IH (S n)) as [-> ->]. split; reflexivity.
Qed.

Lemma highlighted_later (n : nat) (h : list AnalysisResult) :
  map HistoryList.highlighted (HistoryList.mapIndexed (S n) h)
  = repeat false (List.length h).
Proof.
  revert n. induction h as [|r h IH]; intros n; [reflexivity|].
  cbn. now rewrite IH.
Qed.

(** X19.  The history list on the states the system reaches.  It renders
    nothing exactly when the history is empty; otherwise it has one row
    per entry, at most five, with the entries' messages and times in the
    order of the log, only the first row is highlighted, and the first
    row shows the last result. *)
Theorem X19_history_list (es : list Event) (t0 : Z) :
  let s := app (scheduler (run es (Sentinel.initial t0))) in
  (HistoryList.HistoryList (history s) = None <-> history s = [])
  /\ forall rows : list HistoryList.Row,
      HistoryList.HistoryList (history s) = Some rows ->
      List.length rows = List.length (history s)
      /\ (1 <= List.length rows <= 5)%nat
      /\ map HistoryList.rowMessage rows = map message (history s)
      /\ map HistoryList.rowTime rows = map timestamp (history s)
      /\ map HistoryList.highlighted rows
         = true :: repeat false (List.length rows - 1)
      /\ option_map HistoryList.rowMessage (hd_error rows)
         = option_map message (lastResult s).
Proof.
  cbv zeta.
  pose proof (run_newestShown es t0) as Hnew. unfold newestShown in Hnew.
  pose proof (bounded_run es (Sentinel.initial t0)) as Hb.
  unfold bounded in Hb. specialize (Hb ltac:(cbn; lia)).
  set (s := app (scheduler (run es (Sentinel.initial t0)))) in *.
  clearbody s. rewrite Hnew. unfold HistoryList.HistoryList.
  destruct (history s) as [|r h].
  - split; [split; intros _; reflexivity | intros rows Hrows; discriminate].
  - split; [split; discriminate|]. intros rows Hrows.
    injection Hrows as <-.
    cbn [HistoryList.mapIndexed List.length map hd_error option_map
         HistoryList.highlighted HistoryList.rowMessage HistoryList.rowTime
         HistoryList.row Nat.eqb].
    rewrite length_mapIndexed, highlighted_later.
    destruct (messages_mapIndexed 1 h) as [-> ->].
    cbn [List.length] in Hb. rewrite Nat.sub_succ, Nat.sub_0_r.
    split; [reflexivity|]. split; [lia|]. repeat split.
Qed.

End Display.

Lemma X18_witness :
  isAnalyzing
    (app (Sentinel.scheduler
            (Sentinel.run
               [Sentinel.Toggle 0; Sentinel.CameraStarts true;
                Sentinel.Tick (mkHandler true false 30000 true)
                              (Some (Scenario.frame 0)) 1000;
                Sentinel.Settles 0 (Scenario.answers true 90) 2000 2000]
               (Sentinel.initial 0)))) = false
  /\ exists r,
      lastResult
        (app (Sentinel.scheduler
                (Sentinel.run
                   [Sentinel.Toggle 0; Sentinel.CameraStarts true;
                    Sentinel.Tick (mkHandler true false 30000 true)
                                  (Some (Scenario.frame 0)) 1000;
                    Sentinel.Settles 0 (Scenario.answers true 90) 2000 2000]
                   (Sentinel.initial 0)))) = Some r
      /\ confidence r = Some 90%float
      /\ ((status r = PERSON_DETECTED /\ "text-red-400"%string = "text-red-400"%string)
          \/ (status r = NO_PERSON
              /\ "text-red-400"%string = "text-emerald-400"%string)).
Proof.
  refine (proj2 (proj2 X18_status_panel
                   [Sentinel.Toggle 0; Sentinel.CameraStarts true;
                    Sentinel.Tick (mkHandler true false 30000 true)
                                  (Some (Scenario.frame 0)) 1000;
                    Sentinel.Settles 0 (Scenario.answers true 90) 2000 2000]
                   0)
            (StatusPanel.mkView
               (StatusPanel.mkLook "bg-red-600/20" "border-red-500"
                                   "text-red-500" "🚨")
               false true "🚨" "🚨" true
               (Some "ÁREA NÃO SEGURA - INVASÃO"%string)
               (Some "Pessoa de casaco escuro."%string)
               (Some (90%float, "text-red-400"%string)) (Some 2000))
            90%float "text-red-400"%string _ _).
  - vm_compute. reflexivity.
  - reflexivity.
Defined.

Lemma X19_witness :
  List.length
    (HistoryList.mapIndexed 0
       (history
          (app (Sentinel.scheduler
                  (Sentinel.run
                     [Sentinel.Toggle 0; Sentinel.CameraStarts true;
                      Sentinel.Tick (mkHandler true false 30000 true)
                                    (Some (Scenario.frame 0)) 1000;
                      Sentinel.Settles 0 Scenario.rateLimited 2000 2000]
                     (Sentinel.initial 0))))))
  = List.length
      (history
         (app (Sentinel.scheduler
                 (Sentinel.run
                    [Sentinel.Toggle 0; Sentinel.CameraStarts true;
                     Sentinel.Tick (mkHandler true false 30000 true)
                                   (Some (Scenario.frame 0)) 1000;
                     Sentinel.Settles 0 Scenario.rateLimited 2000 2000]
                    (Sentinel.initial 0))))).
Proof.
  refine (proj1 (proj2 (X19_history_list
                          [Sentinel.Toggle 0; Sentinel.CameraStarts true;
                           Sentinel.Tick (mkHandler true false 30000 true)
                                         (Some (Scenario.frame 0)) 1000;
                           Sentinel.Settles 0 Scenario.rateLimited 2000 2000]
                          0) _ _)).
  vm_compute. reflexivity.
Defined.

(** ** The size of a capture *)

Section CaptureSize.

Import WebcamCapture Capture.

(** The scaled width for every video width up to 8192. *)
Lemma capture_width_table :
  forallb
    (fun w =>
       let cw := (number w * Math_min 1 (1024 / number w))%float in
       if w <=? 1024
       then (Math_min 1 (1024 / number w) =? 1)%float
            && (cw =? number w)%float
       else (1023 <? cw)%float && (cw <=? 1024)%float)
    (map Z.of_nat (seq 1 (8 * 1024))) = true.
Proof. vm_compute. reflexivity. Qed.

(** X20.  The size of a capture.  [captureCurrentFrame] gives an image
    exactly when the canvas gets a size.  For a video up to 1024 pixels
    wide the scale factor is 1 and the canvas gets the video's width; for
    a wider one, up to 8192, the width it is given is above 1023 and at
    most 1024, so that the canvas, which drops the fraction, is 1024 or
    1023 pixels wide; for the three configured widths 1280, 1920 and 3840
    it is 1024. *)
Theorem X20_capture_size :
  (forall video : option Video,
      canvasSize video = None <-> captureCurrentFrame video = None)
  /\ (forall v : Video,
         context2d v = true -> 1 <= videoWidth v <= 8192 ->
         exists cw ch : float,
           canvasSize (Some v) = Some (cw, ch)
           /\ (videoWidth v <= 1024 ->
               (cw =? number (videoWidth v))%float = true
               /\ (Math_min 1 (1024 / number (videoWidth v)) =? 1)%float
                  = true)
           /\ (1024 < videoWidth v ->
               (1023 <? cw)%float = true /\ (cw <=? 1024)%float = true)
           /\ (videoWidth v = 1280 \/ videoWidth v = 1920
               \/ videoWidth v = 3840 ->
               (cw =? 1024)%float = true)).
Proof.
  split.
  - intros [v|]; [|split; reflexivity]. unfold canvasSize, captureCurrentFrame.
    destruct (videoWidth v =? 0); [split; reflexivity|].
    destruct (negb (context2d v)); split; try reflexivity; discriminate.
  - intros v Hctx Hw. unfold canvasSize. rewrite Hctx.
    replace (videoWidth v =? 0) with false by (symmetry; apply Z.eqb_neq; lia).
    cbn [negb]. eexists. eexists. split; [reflexivity|].
    pose proof (proj1 (forallb_forall _ _) capture_width_table
                  (videoWidth v)) as Hrow.
    cbv beta zeta in Hrow.
    assert (Hin : In (videoWidth v) (map Z.of_nat (seq 1 (8 * 1024)))).
    { rewrite <- (Z2Nat.id (videoWidth v)) by lia.
      apply in_map, in_seq. lia. }
    specialize (Hrow Hin). split; [|split].
    + intros Hsmall. apply Z.leb_le in Hsmall. rewrite Hsmall in Hrow.
      apply andb_prop in Hrow as [H1 H2]. now split.
    + intros Hbig. apply Z.leb_gt in Hbig. rewrite Hbig in Hrow.
      apply andb_prop in Hrow as [H1 H2]. now split.
    + intros [-> | [-> | ->]]; vm_compute; reflexivity.
Qed.

Lemma X20_witness :
  exists cw ch : float,
    canvasSize (Some (Scenario.frame 0)) = Some (cw, ch)
    /\ (cw =? 1024)%float = true.
Proof.
  destruct (proj2 X20_capture_size (Scenario.frame 0) eq_refl)
    as (cw & ch & Hsize & _ & _ & Hconf).
  - split; [vm_compute; discriminate | vm_compute; discriminate].
  - exists cw, ch. split; [exact Hsize|]. apply Hconf. now left.
Defined.

End CaptureSize.
